(** * Billfrog: the usage-metering pipeline

    A shallow embedding of the request evaluation and metering pipeline of
    the server: the token counter ([utils/token-counter.js]), the safety
    filters ([services/safety-filters.js]), the provider dispatch
    ([services/ai-providers.js]), the usage store ([database.js]) and the
    [/track] and [/retry/:id] routes ([routes/usage.js]); and, around
    it, the tables of prices and filters with [POST /pricing]
    ([routes/api.js]), the test of a key, the reading of the log and the
    checks of [utils/validator.js].

    Conventions.
    - A JavaScript number is an IEEE-754 binary64 value, modelled by
      [spec_float] with the operations of [SpecFloat] at precision 53.
    - A JavaScript string is a [string]; its characters stand for code
      units in the Latin-1 range.
    - An object used as a dictionary is a [gmap] on its own properties;
      a property read also consults [Object.prototype] where the source
      reads with a computed key.
    - The database, the clock, the id generator and the network are
      explicit state ([World]); the regular-expression engine, SQLite's
      date functions and the provider endpoints are the fields of an
      environment record ([Env]). *)

From stdpp Require Import base gmap strings list.
From Stdlib Require Import ZArith Lia Ascii String DecimalString DecimalNat.
From Stdlib Require Import Floats.SpecFloat.

Open Scope string_scope.
Open Scope Z_scope.

(** ** Numbers *)

Module Num.

Definition number : Type := spec_float.

Definition prec : Z := 53.
Definition emax : Z := 1024.

Definition of_Z (z : Z) : number := binary_normalize prec emax z 0 false.
Definition of_nat (n : nat) : number := of_Z (Z.of_nat n).

Definition zero : number := S754_zero false.
Definition NaN : number := S754_nan.

Definition mul : number -> number -> number := SFmul prec emax.
Definition add : number -> number -> number := SFadd prec emax.
Definition div : number -> number -> number := SFdiv prec emax.

(** [x < y], [x <= y], [x === y] on numbers; all three are false as soon
    as one side is NaN. *)
Definition ltb : number -> number -> bool := SFltb.
Definition leb : number -> number -> bool := SFleb.
Definition eqb : number -> number -> bool := SFeqb.
Definition gtb (x y : number) : bool := ltb y x.
Definition geb (x y : number) : bool := leb y x.

(** The decimal literal [n/d] of the source text, e.g. [1.3] is
    [dec 13 10]: the double nearest to the quotient. *)
Definition dec (n d : Z) : number := div (of_Z n) (of_Z d).

(** ToBoolean on a number. *)
Definition truthy (x : number) : bool :=
  match x with
  | S754_zero _ | S754_nan => false
  | _ => true
  end.


(** [Math.ceil]. A finite double with a non-negative exponent is already
    an integer; otherwise the magnitude is [m / 2^(-e)]. *)
Definition Math_ceil (x : number) : number :=
  match x with
  | S754_finite s m e =>
      if 0 <=? e then x
      else
        let d := 2 ^ (- e) in
        let q := Z.pos m / d in
        let r := Z.pos m mod d in
        if s then binary_normalize prec emax (- q) 0 true
        else binary_normalize prec emax (if r =? 0 then q else q + 1) 0 false
  | _ => x
  end.

(** The integer a number denotes, when it denotes one. *)
Definition to_Z (x : number) : option Z :=
  match x with
  | S754_zero _ => Some 0
  | S754_finite s m e =>
      if 0 <=? e then Some ((if s then -1 else 1) * (Z.pos m * 2 ^ e))
      else if Z.pos m mod 2 ^ (- e) =? 0
           then Some ((if s then -1 else 1) * (Z.pos m / 2 ^ (- e)))
           else None
  | _ => None
  end.

End Num.

Import Num.

(** ** Strings *)

Module Str.

Definition code (c : ascii) : nat := nat_of_ascii c.

(** The characters matched by [\s] and stripped by [trim]. *)
Definition is_white_space (c : ascii) : bool :=
  let n := code c in
  (Nat.leb 9 n && Nat.leb n 13) || Nat.eqb n 32 || Nat.eqb n 160.

Definition lower_char (c : ascii) : ascii :=
  let n := code c in
  if (Nat.leb 65 n && Nat.leb n 90)
     || (Nat.leb 192 n && Nat.leb n 222 && negb (Nat.eqb n 215))
  then ascii_of_nat (n + 32) else c.

Fixpoint toLowerCase (s : string) : string :=
  match s with
  | EmptyString => EmptyString
  | String c r => String (lower_char c) (toLowerCase r)
  end.

Fixpoint trimStart (s : string) : string :=
  match s with
  | EmptyString => EmptyString
  | String c r => if is_white_space c then trimStart r else s
  end.

Fixpoint trimEnd (s : string) : string :=
  match s with
  | EmptyString => EmptyString
  | String c r =>
      match trimEnd r with
      | EmptyString => if is_white_space c then EmptyString else String c EmptyString
      | r' => String c r'
      end
  end.

Definition trim (s : string) : string := trimEnd (trimStart s).

(** [s.split(/\s+/)]: the pieces between maximal runs of white space,
    empty pieces at either end included. [piece] is the piece being
    read, [in_sep] tells that the previous character was white space. *)
Fixpoint split_go (piece : string) (in_sep : bool) (s : string) : list string :=
  match s with
  | EmptyString => [piece]
  | String c r =>
      if is_white_space c
      then (if in_sep then split_go EmptyString true r
            else piece :: split_go EmptyString true r)
      else split_go (piece +:+ String c EmptyString) false r
  end.

Definition split_white_space (s : string) : list string :=
  split_go EmptyString false s.

Definition non_empty (s : string) : bool :=
  match s with EmptyString => false | _ => true end.

(** [s.includes(t)] *)
Fixpoint includes (s t : string) : bool :=
  String.prefix t s ||
  match s with
  | EmptyString => false
  | String _ r => includes r t
  end.

End Str.

Import Str.

(** ** Property reads on object literals *)

Module Obj.

(** What a property read can give back in the code modelled here: a
    number (an own property of a table of numbers), something inherited
    from [Object.prototype] (functions and the prototype object itself),
    or [undefined]. *)
Inductive value : Type :=
| VNumber (x : number)
| VInherited
| VUndefined.

(** The property names of [Object.prototype]. *)
Definition Object_prototype : list string :=
  [ "constructor"; "__defineGetter__"; "__defineSetter__"; "hasOwnProperty";
    "__lookupGetter__"; "__lookupSetter__"; "isPrototypeOf";
    "propertyIsEnumerable"; "toString"; "valueOf"; "__proto__";
    "toLocaleString" ].

Definition inherited (k : string) : bool :=
  existsb (String.eqb k) Object_prototype.

(** [o[k]] for an object literal [o] whose own properties are numbers. *)
Definition get (o : gmap string number) (k : string) : value :=
  match o !! k with
  | Some x => VNumber x
  | None => if inherited k then VInherited else VUndefined
  end.

Definition truthy (v : value) : bool :=
  match v with
  | VNumber x => Num.truthy x
  | VInherited => true
  | VUndefined => false
  end.

(** [a || b] *)
Definition or_else (a b : value) : value := if truthy a then a else b.

(** ToNumber, as applied by [*]. *)
Definition ToNumber (v : value) : number :=
  match v with
  | VNumber x => x
  | VInherited | VUndefined => NaN
  end.

End Obj.

(** ** Token counter *)

Module TokenCounter.

Definition TOKEN_MULTIPLIERS : gmap string number :=
  {[ "openai" := dec 13 10;
     "anthropic" := dec 12 10;
     "google" := dec 11 10;
     "default" := dec 125 100 ]}.

Definition words (text : string) : list string :=
  List.filter non_empty (split_white_space (trim text)).

(** [countTokens(text, provider)]; an absent [text] is [None]. *)
Definition countTokens (text : option string) (provider : string) : number :=
  match text with
  | None | Some EmptyString => zero
  | Some t =>
      let wordCount := List.length (words t) in
      let multiplier :=
        Obj.or_else (Obj.get TOKEN_MULTIPLIERS (toLowerCase provider))
                    (Obj.get TOKEN_MULTIPLIERS "default") in
      Math_ceil (mul (of_nat wordCount) (Obj.ToNumber multiplier))
  end.

End TokenCounter.

Import TokenCounter.

(** ** Exceptions *)

(** A computation that completes normally or throws an [Error] with a
    message. *)
Inductive completion (A : Type) : Type :=
| Normal (a : A)
| Throw (message : string).
Arguments Normal {A} a.
Arguments Throw {A} message.

#[global] Instance completion_ret : MRet completion := fun _ a => Normal a.

#[global] Instance completion_bind : MBind completion := fun _ _ k c =>
  match c with
  | Normal a => k a
  | Throw m => Throw m
  end.

(** [try { c } catch (e) { h e.message }] *)
Definition try_catch {A : Type} (c : completion A) (h : string -> A) : A :=
  match c with
  | Normal a => a
  | Throw m => h m
  end.

(** ** Data model *)

Definition Uuid : Type := nat.

Inductive Status : Type := processing | success | failure | hallucination.

#[global] Instance Status_eq_dec : EqDecision Status.
Proof. solve_decision. Defined.

(** The generation options of a request body, with the fields the pipeline
    reads or forwards. *)
Record Options : Type := {
  max_tokens : option number;
  temperature : option number;
  retry_of : option Uuid;
  opt_retry_count : option number
}.

Definition no_options : Options :=
  {| max_tokens := None; temperature := None;
     retry_of := None; opt_retry_count := None |}.

(** The flags one filter attaches to its verdict: an object whose
    properties are booleans, strings or numbers. *)
Inductive Atom : Type :=
| ABool (b : bool)
| AString (s : string)
| ANumber (x : number).

Abbreviation FilterFlags := (gmap string Atom).

(** A value stored under a key of [safety_flags]: the flags of a filter
    (under the filter's name), the text under [error], or the list under
    [quality_issues]. *)
Inductive FlagValue : Type :=
| FromFilter (f : FilterFlags)
| ErrorText (s : string)
| Issues (l : list string).

Abbreviation Flags := (gmap string FlagValue).

Record Metadata : Type := {
  md_user_agent : option string;
  md_ip_address : string;
  md_timestamp : string;
  md_options : Options;
  actual_model : option string;
  finish_reason : option string
}.

(** The [usageData] object of the [/track] handler, and the columns of a
    row of [usage_logs] other than [id] and [created_at]. *)
Record UsageData : Type := {
  user_id : option string;
  team_id : option string;
  session_id : option string;
  model_provider : string;
  model_name : string;
  prompt : string;
  response : option string;
  input_tokens : number;
  output_tokens : number;
  total_tokens : number;
  cost_per_input_token : number;
  cost_per_output_token : number;
  total_cost : number;
  status : Status;
  error_message : option string;
  retry_count : number;
  response_time_ms : number;
  safety_flags : Flags;
  metadata : Metadata
}.

Record UsageLog : Type := {
  id : Uuid;
  row : UsageData;
  created_at : string
}.

Record ModelPricing : Type := {
  mp_provider : string;
  mp_model_name : string;
  input_cost_per_1k_tokens : number;
  output_cost_per_1k_tokens : number;
  effective_date : string;
  mp_is_active : bool
}.

(** The rules of a filter, one optional field per key the filters read. *)
Record Rules : Type := {
  blocked_keywords : option (list string);
  max_prompt_length : option number;
  check_pii : bool;
  block_pii : bool;
  max_cost_per_call : option number;
  daily_spending_limit : option number;
  max_calls_per_minute : option number;
  max_calls_per_hour : option number;
  max_calls_per_day : option number;
  allowed_models : option (list string);
  blocked_models : option (list string)
}.

Definition no_rules : Rules :=
  {| blocked_keywords := None; max_prompt_length := None;
     check_pii := false; block_pii := false;
     max_cost_per_call := None; daily_spending_limit := None;
     max_calls_per_minute := None; max_calls_per_hour := None;
     max_calls_per_day := None; allowed_models := None;
     blocked_models := None |}.

(** A value as [JSON.parse] gives it. An object has its own properties,
    under distinct names; its prototype is [Object.prototype], that of an
    array [Array.prototype]. *)
#[warnings="-register-all"]
Inductive JsonValue : Type :=
| JNull
| JBool (b : bool)
| JNumber (x : number)
| JString (s : string)
| JArray (items : list JsonValue)
| JObject (props : list (string * JsonValue)).

(** The [rules] column is text. The routes that write it pass whatever
    the request gave for [rules] through [JSON.stringify]: the text is
    the serialization of a rules object whose settings, where present,
    have the types the filters expect ([Serialized]), or of any other
    value ([Stringified]: [null], a string, an object with a string for
    a list, ...). Text that is not JSON at all ([NotJSON]) can only be
    put there by another writer. *)
Inductive RulesText : Type :=
| Serialized (r : Rules)
| Stringified (v : JsonValue)
| NotJSON (text : string).

(** What [JSON.parse] makes of the column. *)
Inductive Parsed : Type :=
| Typed (r : Rules)
| Untyped (v : JsonValue).

Definition JSON_parse (t : RulesText) : completion Parsed :=
  match t with
  | Serialized r => Normal (Typed r)
  | Stringified v => Normal (Untyped v)
  | NotJSON _ => Throw "Unexpected token in JSON"
  end.

Record SafetyFilter : Type := {
  sf_name : string;
  filter_type : string;
  rules : RulesText;
  sf_is_active : bool
}.

(** One call to a provider endpoint. *)
Record ProviderCall : Type := {
  pc_endpoint : string;
  pc_api_key : string;
  pc_model : string;
  pc_prompt : string;
  pc_max_tokens : number;
  pc_temperature : number
}.

(** The reply of a provider after unwrapping to the common shape. *)
Record AiResponse : Type := {
  ai_response : option string;
  ai_model : option string;
  ai_finish_reason : option string
}.

(** What a call to an endpoint comes to: after [elapsed] milliseconds it
    throws (transport error, error status, or a reply that cannot be
    unwrapped) or gives a reply. *)
Record HttpOutcome : Type := {
  elapsed : Z;
  outcome : completion AiResponse
}.

(** The state the handlers read and write. *)
Record World : Type := {
  usage_logs : list UsageLog;
  safety_filters : list SafetyFilter;
  model_pricing : list ModelPricing;
  clock : Z;
  next_uuid : Uuid;
  provider_calls : list ProviderCall;
  ws_messages : list (Uuid * UsageData)
}.

(** What the program relies on and does not define. *)
Record Env : Type := {
  (** [pattern.test(s)], the pattern given by its source text *)
  regexp_test : string -> string -> bool;
  (** [(s.match(pattern) || []).length] for a global pattern *)
  regexp_count : string -> string -> nat;
  (** [s.split(pattern)] *)
  regexp_split : string -> string -> list string;
  (** [String(x)] and [x.toFixed(6)] for a number, [Number(s)] for a
      string *)
  Number_toString : number -> string;
  toFixed6 : number -> string;
  StringToNumber : string -> number;
  (** [new Date(ms).toISOString()] *)
  toISOString : Z -> string;
  (** SQLite: [CURRENT_TIMESTAMP] at a given clock, [DATE(text)],
      [SUM] over a column (NULL on no rows) *)
  CURRENT_TIMESTAMP : Z -> string;
  sql_DATE : string -> option string;
  sql_SUM : list number -> option number;
  (** the endpoints; the second argument counts the calls made before *)
  axios_post : ProviderCall -> nat -> HttpOutcome
}.

(** The body of a request to [/track] or [/retry/:id]. A property is
    [None] when the body does not have it. *)
Record Body : Type := {
  b_user_id : option string;
  b_team_id : option string;
  b_session_id : option string;
  b_model_provider : option string;
  b_model_name : option string;
  b_prompt : option string;
  b_api_key : option string;
  b_options : option Options
}.

(** The argument of [checkFilters]. *)
Record RequestData : Type := {
  rd_user_id : option string;
  rd_team_id : option string;
  rd_model_provider : string;
  rd_model_name : string;
  rd_prompt : string;
  rd_options : Options
}.

(** The verdict of one filter. [fr_flags] is [None] when the object has no
    [flags] property. *)
Record FilterResult : Type := {
  fr_allowed : bool;
  fr_reason : string;
  fr_flags : option FilterFlags
}.

Record Reason : Type := {
  filter : string;
  reason : string
}.

(** The verdict of [checkFilters]. *)
Record SafetyCheck : Type := {
  allowed : bool;
  reasons : list Reason;
  flags : Flags
}.

(** ** The database *)

Section Database.

Context (env : Env).

(** [column = ?]: never true when either side is NULL. *)
Definition sql_eq (column param : option string) : bool :=
  match column, param with
  | Some a, Some b => String.eqb a b
  | _, _ => false
  end.

(** [column >= ?] on text. *)
Definition sql_text_ge (column param : string) : bool :=
  negb (String.ltb column param).

Definition insertUsageLog (usageData : UsageData) (w : World) : Uuid * World :=
  let id := next_uuid w in
  let inserted :=
    {| id := id; row := usageData;
       created_at := CURRENT_TIMESTAMP env (clock w) |} in
  (id,
   {| usage_logs := usage_logs w ++ [inserted];
      safety_filters := safety_filters w;
      model_pricing := model_pricing w;
      clock := clock w;
      next_uuid := S id;
      provider_calls := provider_calls w;
      ws_messages := ws_messages w |}).

(** [ORDER BY effective_date DESC LIMIT 1] *)
Definition most_recent (rows : list ModelPricing) : option ModelPricing :=
  fold_left
    (fun best r =>
       match best with
       | None => Some r
       | Some b =>
           if String.ltb (effective_date b) (effective_date r)
           then Some r else Some b
       end)
    rows None.

Definition getModelPricing (provider modelName : string) (w : World)
  : option ModelPricing :=
  most_recent
    (List.filter
       (fun r => String.eqb (mp_provider r) provider
                 && String.eqb (mp_model_name r) modelName
                 && mp_is_active r)
       (model_pricing w)).

Definition getSafetyFilters (w : World) : list SafetyFilter :=
  List.filter sf_is_active (safety_filters w).

(** [SELECT * FROM usage_logs WHERE id = ?] *)
Definition getUsageLog (i : Uuid) (w : World) : option UsageLog :=
  List.find (fun r => Nat.eqb (id r) i) (usage_logs w).

(** [SELECT SUM(total_cost) FROM usage_logs
     WHERE DATE(created_at) = ? AND user_id = ?] *)
Definition daily_spending (today : string) (uid : option string) (w : World)
  : option number :=
  sql_SUM env
    (List.map (fun r => total_cost (row r))
       (List.filter
          (fun r => match sql_DATE env (created_at r) with
                    | Some d => String.eqb d today
                    | None => false
                    end && sql_eq (user_id (row r)) uid)
          (usage_logs w))).

(** [SELECT COUNT( * ) FROM usage_logs
     WHERE created_at >= ? AND user_id = ?] *)
Definition calls_since (since : string) (uid : option string) (w : World) : nat :=
  List.length
    (List.filter
       (fun r => sql_text_ge (created_at r) since && sql_eq (user_id (row r)) uid)
       (usage_logs w)).

(** [SELECT COUNT( * ) FROM usage_logs
     WHERE DATE(created_at) = ? AND user_id = ?] *)
Definition calls_on (today : string) (uid : option string) (w : World) : nat :=
  List.length
    (List.filter
       (fun r => match sql_DATE env (created_at r) with
                 | Some d => String.eqb d today
                 | None => false
                 end && sql_eq (user_id (row r)) uid)
       (usage_logs w)).

End Database.

(** ** Safety filters *)

Section SafetyFilters.

Context (env : Env).

Definition pass : FilterResult :=
  {| fr_allowed := true; fr_reason := ""; fr_flags := Some ∅ |}.

(** [result.allowed = false; result.reason = r] *)
Definition deny (r : string) (result : FilterResult) : FilterResult :=
  {| fr_allowed := false; fr_reason := r; fr_flags := fr_flags result |}.

(** [result.flags.k = v] *)
Definition flag (k : string) (v : Atom) (result : FilterResult) : FilterResult :=
  {| fr_allowed := fr_allowed result; fr_reason := fr_reason result;
     fr_flags := Some (<[k := v]> (default ∅ (fr_flags result))) |}.

(** [x && ...] on an optional numeric rule. *)
Definition set_rule (x : option number) : option number :=
  match x with
  | Some v => if Num.truthy v then Some v else None
  | None => None
  end.

(** [l && l.length > 0] on an optional list rule. *)
Definition listed (l : option (list string)) : list string :=
  default [] l.

(** The date part of [new Date().toISOString()]. *)
Fixpoint before_T (s : string) : string :=
  match s with
  | EmptyString => EmptyString
  | String c r => if Ascii.eqb c "T"%char then EmptyString else String c (before_T r)
  end.

Definition today (w : World) : string := before_T (toISOString env (clock w)).

Definition piiPatterns : list string :=
  [ "/\b\d{3}-\d{2}-\d{4}\b/";
    "/\b\d{4}[\s-]?\d{4}[\s-]?\d{4}[\s-]?\d{4}\b/";
    "/\b[A-Za-z0-9._%+-]+@[A-Za-z0-9.-]+\.[A-Z|a-z]{2,}\b/";
    "/\b\d{3}-\d{3}-\d{4}\b/" ].

Definition applyContentFilter (rules : Rules) (requestData : RequestData)
  : FilterResult :=
  let prompt := rd_prompt requestData in
  let result := pass in
  let result :=
    let blockedWords := List.map toLowerCase (listed (blocked_keywords rules)) in
    let promptLower := toLowerCase prompt in
    match List.find (includes promptLower) blockedWords with
    | Some word =>
        flag "blocked_keyword" (AString word)
          (deny ("Contains blocked keyword: " +:+ word) result)
    | None => result
    end in
  let result :=
    match set_rule (max_prompt_length rules) with
    | Some limit =>
        if gtb (of_nat (String.length prompt)) limit
        then flag "prompt_too_long" (ABool true)
               (deny ("Prompt too long: "
                      +:+ Number_toString env (of_nat (String.length prompt))
                      +:+ " > " +:+ Number_toString env limit) result)
        else result
    | None => result
    end in
  if check_pii rules then
    match List.find (fun pattern => regexp_test env pattern prompt) piiPatterns with
    | Some _ =>
        let result := flag "potential_pii" (ABool true) result in
        if block_pii rules then deny "Contains potential PII" result else result
    | None => result
    end
  else result.

(** [estimateTokenCount] of the filters: every piece of the split
    counts, empty ones included. *)
Definition estimateTokenCount (text : string) : number :=
  Math_ceil (mul (of_nat (List.length (split_white_space text))) (dec 13 10)).

(** [applyCostFilter]. The [try] around its body is for a failing
    database; the database here does not fail. *)
Definition applyCostFilter (rules : Rules) (requestData : RequestData) (w : World)
  : FilterResult :=
  let result := pass in
  match getModelPricing (rd_model_provider requestData)
                        (rd_model_name requestData) w with
  | None => flag "no_pricing_info" (ABool true) result
  | Some pricing =>
      let estimatedTokens := estimateTokenCount (rd_prompt requestData) in
      let estimatedCost :=
        div (mul estimatedTokens (input_cost_per_1k_tokens pricing)) (of_Z 1000) in
      let result :=
        match set_rule (max_cost_per_call rules) with
        | Some limit =>
            if gtb estimatedCost limit
            then flag "cost_too_high" (ABool true)
                   (deny ("Estimated cost too high: $" +:+ toFixed6 env estimatedCost
                          +:+ " > $" +:+ Number_toString env limit) result)
            else result
        | None => result
        end in
      let result :=
        match set_rule (daily_spending_limit rules) with
        | Some limit =>
            let currentSpending :=
              match daily_spending env (today w) (rd_user_id requestData) w with
              | Some total => if Num.truthy total then total else zero
              | None => zero
              end in
            if gtb (add currentSpending estimatedCost) limit
            then flag "daily_limit_exceeded" (ABool true)
                   (deny ("Daily spending limit exceeded: $"
                          +:+ toFixed6 env currentSpending +:+ " + $"
                          +:+ toFixed6 env estimatedCost +:+ " > $"
                          +:+ Number_toString env limit) result)
            else result
        | None => result
        end in
      flag "estimated_cost" (ANumber estimatedCost) result
  end.

(** [applyRateFilter], whose [try] is for a failing database as well. *)
Definition applyRateFilter (rules : Rules) (requestData : RequestData) (w : World)
  : FilterResult :=
  let uid := rd_user_id requestData in
  let now := clock w in
  let result := pass in
  let result :=
    match set_rule (max_calls_per_minute rules) with
    | Some limit =>
        let oneMinuteAgo := now - 60 * 1000 in
        let count := of_nat (calls_since (toISOString env oneMinuteAgo) uid w) in
        if geb count limit
        then flag "rate_limit_exceeded" (ABool true)
               (deny ("Rate limit exceeded: " +:+ Number_toString env count
                      +:+ " calls per minute") result)
        else result
    | None => result
    end in
  let result :=
    match set_rule (max_calls_per_hour rules) with
    | Some limit =>
        let oneHourAgo := now - 60 * 60 * 1000 in
        let count := of_nat (calls_since (toISOString env oneHourAgo) uid w) in
        if geb count limit
        then flag "hourly_limit_exceeded" (ABool true)
               (deny ("Hourly rate limit exceeded: " +:+ Number_toString env count
                      +:+ " calls per hour") result)
        else result
    | None => result
    end in
  match set_rule (max_calls_per_day rules) with
  | Some limit =>
      let count := of_nat (calls_on env (today w) uid w) in
      if geb count limit
      then flag "daily_limit_exceeded" (ABool true)
             (deny ("Daily rate limit exceeded: " +:+ Number_toString env count
                    +:+ " calls per day") result)
      else result
  | None => result
  end.

Definition applyModelFilter (rules : Rules) (requestData : RequestData)
  : FilterResult :=
  let modelKey :=
    rd_model_provider requestData +:+ "/" +:+ rd_model_name requestData in
  let result := pass in
  let result :=
    match listed (allowed_models rules) with
    | [] => result
    | models =>
        if negb (existsb (String.eqb modelKey) models)
        then flag "model_not_allowed" (ABool true)
               (deny ("Model not allowed: " +:+ modelKey) result)
        else result
    end in
  match listed (blocked_models rules) with
  | [] => result
  | models =>
      if existsb (String.eqb modelKey) models
      then flag "model_blocked" (ABool true)
             (deny ("Model blocked: " +:+ modelKey) result)
      else result
  end.

End SafetyFilters.

(** ** Safety filters on rules of any type

    What the four filters do with a value that is not a well-typed rules
    object. JavaScript converts where it can ([ToBoolean], [ToNumber],
    [ToString]) and throws a [TypeError] where it cannot: on a property
    of [null], on a call of what is not a function, on an object that has
    no primitive value. *)

Module Untyped.

Section Filters.

Context (env : Env).

(** ToBoolean *)
Definition ToBoolean (v : JsonValue) : bool :=
  match v with
  | JNull => false
  | JBool b => b
  | JNumber x => Num.truthy x
  | JString s => non_empty s
  | JArray _ | JObject _ => true
  end.

(** The own property [k] of an object. *)
Fixpoint own (k : string) (props : list (string * JsonValue)) : option JsonValue :=
  match props with
  | [] => None
  | (k', v) :: props => if String.eqb k' k then Some v else own k props
  end.

(** [rules.k] for the name [k] of a setting, [None] being [undefined]:
    no prototype has a property of such a name, and [null] has no
    property at all. *)
Definition setting (rules : JsonValue) (k : string) : completion (option JsonValue) :=
  match rules with
  | JNull => Throw ("Cannot read properties of null (reading '" +:+ k +:+ "')")
  | JObject props => Normal (own k props)
  | _ => Normal None
  end.

(** ToString. An array is joined with commas, [null] giving the empty
    string. An object is "[object Object]", unless a property of its own
    hides [Object.prototype.toString]: what [JSON.parse] puts there is
    no function, and the object has no primitive value. *)
Fixpoint ToString (v : JsonValue) : completion string :=
  match v with
  | JNull => Normal "null"
  | JBool b => Normal (if b then "true" else "false")
  | JNumber x => Normal (Number_toString env x)
  | JString s => Normal s
  | JArray items =>
      (fix join (items : list JsonValue) : completion string :=
         match items with
         | [] => Normal ""
         | item :: rest =>
             s ← match item with
                 | JNull => Normal ""
                 | _ => ToString item
                 end;
             match rest with
             | [] => Normal s
             | _ => r ← join rest; Normal (s +:+ "," +:+ r)
             end
         end) items
  | JObject props =>
      match own "toString" props with
      | Some _ => Throw "Cannot convert object to primitive value"
      | None => Normal "[object Object]"
      end
  end.

(** ToNumber. An array or an object is converted by way of its string. *)
Definition ToNumber (v : JsonValue) : completion number :=
  match v with
  | JNull => Normal zero
  | JBool b => Normal (if b then of_Z 1 else zero)
  | JNumber x => Normal x
  | JString s => Normal (StringToNumber env s)
  | JArray _ | JObject _ => s ← ToString v; Normal (StringToNumber env s)
  end.

(** [x > v] and [x >= v] for a number [x]. *)
Definition gt (x : number) (v : JsonValue) : completion bool :=
  n ← ToNumber v; Normal (gtb x n).

Definition ge (x : number) (v : JsonValue) : completion bool :=
  n ← ToNumber v; Normal (geb x n).

(** [v.length > 0]. A string and an array have a length; a number and a
    boolean have none, and [undefined > 0] is false; an object has the
    property [length] it was given, if any. *)
Definition has_entries (v : JsonValue) : completion bool :=
  match v with
  | JNull => Throw "Cannot read properties of null (reading 'length')"
  | JBool _ | JNumber _ => Normal false
  | JString s => Normal (Nat.ltb 0 (String.length s))
  | JArray items => Normal (Nat.ltb 0 (List.length items))
  | JObject props =>
      match own "length" props with
      | Some l => n ← ToNumber l; Normal (gtb n zero)
      | None => Normal false
      end
  end.

(** [items.map(word => word.toLowerCase())] on the items of an array:
    only a string has the method. *)
Fixpoint lower_each (items : list JsonValue) : completion (list string) :=
  match items with
  | [] => Normal []
  | item :: rest =>
      word ← match item with
             | JString s => Normal (toLowerCase s)
             | JNull =>
                 Throw "Cannot read properties of null (reading 'toLowerCase')"
             | _ => Throw "word.toLowerCase is not a function"
             end;
      words ← lower_each rest;
      Normal (word :: words)
  end.

(** [rules.blocked_keywords.map(word => word.toLowerCase())]: only an
    array has the method [map]. *)
Definition lower_words (v : JsonValue) : completion (list string) :=
  match v with
  | JArray items => lower_each items
  | _ => Throw "rules.blocked_keywords.map is not a function"
  end.

(** [list.includes(modelKey)]: the search for a substring when [list] is
    a string, for an item when it is an array (and only a string is the
    same value as [modelKey]); nothing else has the method. *)
Definition includes_model (setting : string) (v : JsonValue) (modelKey : string)
  : completion bool :=
  match v with
  | JString s => Normal (includes s modelKey)
  | JArray items =>
      Normal (existsb (fun item => match item with
                                   | JString s => String.eqb modelKey s
                                   | _ => false
                                   end) items)
  | _ => Throw ("rules." +:+ setting +:+ ".includes is not a function")
  end.

Definition applyContentFilter (rules : JsonValue) (requestData : RequestData)
  : completion FilterResult :=
  let prompt := rd_prompt requestData in
  let result := pass in
  blocked_keywords ← setting rules "blocked_keywords";
  result ←
    match blocked_keywords with
    | Some v =>
        if ToBoolean v then
          some ← has_entries v;
          if some : bool then
            blockedWords ← lower_words v;
            let promptLower := toLowerCase prompt in
            match List.find (includes promptLower) blockedWords with
            | Some word =>
                Normal (flag "blocked_keyword" (AString word)
                          (deny ("Contains blocked keyword: " +:+ word) result))
            | None => Normal result
            end
          else Normal result
        else Normal result
    | None => Normal result
    end;
  max_prompt_length ← setting rules "max_prompt_length";
  result ←
    match max_prompt_length with
    | Some v =>
        if ToBoolean v then
          over ← gt (of_nat (String.length prompt)) v;
          if over : bool then
            limit ← ToString v;
            Normal (flag "prompt_too_long" (ABool true)
                      (deny ("Prompt too long: "
                             +:+ Number_toString env (of_nat (String.length prompt))
                             +:+ " > " +:+ limit) result))
          else Normal result
        else Normal result
    | None => Normal result
    end;
  check_pii ← setting rules "check_pii";
  match check_pii with
  | Some v =>
      if ToBoolean v then
        match List.find (fun pattern => regexp_test env pattern prompt) piiPatterns with
        | Some _ =>
            let result := flag "potential_pii" (ABool true) result in
            block_pii ← setting rules "block_pii";
            match block_pii with
            | Some b =>
                Normal (if ToBoolean b then deny "Contains potential PII" result
                        else result)
            | None => Normal result
            end
        | None => Normal result
        end
      else Normal result
  | None => Normal result
  end.

(** Where a [try] block stands: it goes on with [result], or it has
    thrown and leaves [result] as it was at the throw. *)
Inductive Attempt : Type :=
| Going (result : FilterResult)
| Thrown (result : FilterResult).

(** The next statement of the block. *)
Definition next (a : Attempt) (k : FilterResult -> Attempt) : Attempt :=
  match a with
  | Going result => k result
  | Thrown result => Thrown result
  end.

(** An expression of the block that may throw, evaluated while the
    result is [result]. *)
Definition trying {A : Type} (result : FilterResult) (c : completion A)
           (k : A -> Attempt) : Attempt :=
  match c with
  | Normal a => k a
  | Throw _ => Thrown result
  end.

(** [catch (error) { result.flags.error_flag = true }] *)
Definition caught (error_flag : string) (a : Attempt) : FilterResult :=
  match a with
  | Going result => result
  | Thrown result => flag error_flag (ABool true) result
  end.

(** [applyCostFilter]: what its body throws, its own [catch] turns into
    the flag [cost_filter_error]. *)
Definition applyCostFilter (rules : JsonValue) (requestData : RequestData) (w : World)
  : FilterResult :=
  let result := pass in
  match getModelPricing (rd_model_provider requestData)
                        (rd_model_name requestData) w with
  | None => flag "no_pricing_info" (ABool true) result
  | Some pricing =>
      let estimatedTokens := estimateTokenCount (rd_prompt requestData) in
      let estimatedCost :=
        div (mul estimatedTokens (input_cost_per_1k_tokens pricing)) (of_Z 1000) in
      let per_call (result : FilterResult) : Attempt :=
        trying result (setting rules "max_cost_per_call") (fun max_cost_per_call =>
        match max_cost_per_call with
        | Some v =>
            if ToBoolean v then
              trying result (gt estimatedCost v) (fun over =>
              if over : bool then
                let result := deny (fr_reason result) result in
                trying result (ToString v) (fun limit =>
                Going (flag "cost_too_high" (ABool true)
                         (deny ("Estimated cost too high: $"
                                +:+ toFixed6 env estimatedCost
                                +:+ " > $" +:+ limit) result)))
              else Going result)
            else Going result
        | None => Going result
        end) in
      let per_day (result : FilterResult) : Attempt :=
        trying result (setting rules "daily_spending_limit")
               (fun daily_spending_limit =>
        match daily_spending_limit with
        | Some v =>
            if ToBoolean v then
              let currentSpending :=
                match daily_spending env (today env w) (rd_user_id requestData) w with
                | Some total => if Num.truthy total then total else zero
                | None => zero
                end in
              trying result (gt (add currentSpending estimatedCost) v) (fun over =>
              if over : bool then
                let result := deny (fr_reason result) result in
                trying result (ToString v) (fun limit =>
                Going (flag "daily_limit_exceeded" (ABool true)
                         (deny ("Daily spending limit exceeded: $"
                                +:+ toFixed6 env currentSpending +:+ " + $"
                                +:+ toFixed6 env estimatedCost +:+ " > $"
                                +:+ limit) result)))
              else Going result)
            else Going result
        | None => Going result
        end) in
      caught "cost_filter_error"
        (next (per_call result) (fun result =>
         next (per_day result) (fun result =>
         Going (flag "estimated_cost" (ANumber estimatedCost) result))))
  end.

(** [applyRateFilter], with its own [catch] as well. Each of its three
    blocks reads a limit and, when the limit is set, counts the rows of
    a window and compares. *)
Definition applyRateFilter (rules : JsonValue) (requestData : RequestData) (w : World)
  : FilterResult :=
  let uid := rd_user_id requestData in
  let now := clock w in
  let result := pass in
  let block (key : string) (count : number) (reason flag_name : string)
            (result : FilterResult) : Attempt :=
    trying result (setting rules key) (fun limit =>
    match limit with
    | Some v =>
        if ToBoolean v then
          trying result (ge count v) (fun reached =>
          if reached : bool
          then Going (flag flag_name (ABool true) (deny reason result))
          else Going result)
        else Going result
    | None => Going result
    end) in
  let perMinute := of_nat (calls_since (toISOString env (now - 60 * 1000)) uid w) in
  let perHour := of_nat (calls_since (toISOString env (now - 60 * 60 * 1000)) uid w) in
  let perDay := of_nat (calls_on env (today env w) uid w) in
  caught "rate_filter_error"
    (next (block "max_calls_per_minute" perMinute
             ("Rate limit exceeded: " +:+ Number_toString env perMinute
              +:+ " calls per minute") "rate_limit_exceeded" result) (fun result =>
     next (block "max_calls_per_hour" perHour
             ("Hourly rate limit exceeded: " +:+ Number_toString env perHour
              +:+ " calls per hour") "hourly_limit_exceeded" result) (fun result =>
     block "max_calls_per_day" perDay
       ("Daily rate limit exceeded: " +:+ Number_toString env perDay
        +:+ " calls per day") "daily_limit_exceeded" result))).

Definition applyModelFilter (rules : JsonValue) (requestData : RequestData)
  : completion FilterResult :=
  let modelKey :=
    rd_model_provider requestData +:+ "/" +:+ rd_model_name requestData in
  let result := pass in
  allowed_models ← setting rules "allowed_models";
  result ←
    match allowed_models with
    | Some v =>
        if ToBoolean v then
          some ← has_entries v;
          if some : bool then
            listed ← includes_model "allowed_models" v modelKey;
            if negb listed
            then Normal (flag "model_not_allowed" (ABool true)
                           (deny ("Model not allowed: " +:+ modelKey) result))
            else Normal result
          else Normal result
        else Normal result
    | None => Normal result
    end;
  blocked_models ← setting rules "blocked_models";
  match blocked_models with
  | Some v =>
      if ToBoolean v then
        some ← has_entries v;
        if some : bool then
          listed ← includes_model "blocked_models" v modelKey;
          if listed : bool
          then Normal (flag "model_blocked" (ABool true)
                         (deny ("Model blocked: " +:+ modelKey) result))
          else Normal result
        else Normal result
      else Normal result
  | None => Normal result
  end.

End Filters.

End Untyped.

(** ** The policy engine *)

Section PolicyEngine.

Context (env : Env).

(** [applyFilter]. A filter of a type other than the four does not read
    its rules. *)
Definition applyFilter (f : SafetyFilter) (rules : Parsed)
           (requestData : RequestData) (w : World) : completion FilterResult :=
  if String.eqb (filter_type f) "content" then
    match rules with
    | Typed rules => Normal (applyContentFilter env rules requestData)
    | Untyped rules => Untyped.applyContentFilter env rules requestData
    end
  else if String.eqb (filter_type f) "cost" then
    match rules with
    | Typed rules => Normal (applyCostFilter env rules requestData w)
    | Untyped rules => Normal (Untyped.applyCostFilter env rules requestData w)
    end
  else if String.eqb (filter_type f) "rate" then
    match rules with
    | Typed rules => Normal (applyRateFilter env rules requestData w)
    | Untyped rules => Normal (Untyped.applyRateFilter env rules requestData w)
    end
  else if String.eqb (filter_type f) "model" then
    match rules with
    | Typed rules => Normal (applyModelFilter rules requestData)
    | Untyped rules => Untyped.applyModelFilter env rules requestData
    end
  else Normal {| fr_allowed := true; fr_reason := "Unknown filter type";
                 fr_flags := None |}.

Definition no_objection : SafetyCheck :=
  {| allowed := true; reasons := []; flags := ∅ |}.

(** [flags[name] = filterFlags] on the object literal [flags]: a
    property of its own, unless the name is [__proto__]; that assignment
    sets the prototype of [flags] and gives it no property. *)
Definition assign_flags (name : string) (filterFlags : FilterFlags) (flags : Flags)
  : Flags :=
  if String.eqb name "__proto__" then flags
  else <[name := FromFilter filterFlags]> flags.

(** One turn of the loop of [checkFilters]. *)
Definition check_one (requestData : RequestData) (w : World)
           (result : SafetyCheck) (f : SafetyFilter) : completion SafetyCheck :=
  rules ← JSON_parse (rules f);
  filterResult ← applyFilter f rules requestData w;
  let result :=
    if negb (fr_allowed filterResult)
    then {| allowed := false;
            reasons := reasons result
                       ++ [ {| filter := sf_name f; reason := fr_reason filterResult |} ];
            flags := flags result |}
    else result in
  let result :=
    match fr_flags filterResult with
    | Some fl =>
        {| allowed := allowed result; reasons := reasons result;
           flags := assign_flags (sf_name f) fl (flags result) |}
    | None => result
    end in
  mret result.

(** [for (const filter of filters) { ... }] *)
Fixpoint check_loop (requestData : RequestData) (w : World)
         (filters : list SafetyFilter) (result : SafetyCheck)
  : completion SafetyCheck :=
  match filters with
  | [] => mret result
  | f :: rest =>
      result ← check_one requestData w result f;
      check_loop requestData w rest result
  end.

Definition checkFilters (requestData : RequestData) (w : World) : SafetyCheck :=
  try_catch
    (check_loop requestData w (getSafetyFilters w) no_objection)
    (fun _ =>
       {| allowed := true; reasons := [];
          flags := {[ "error" := ErrorText "Safety filter check failed" ]} |}).

End PolicyEngine.

(** ** Response quality *)

Section ResponseQuality.

Context (env : Env).

Definition honestPatterns : list string :=
  [ "/I don't have access to/i";
    "/I cannot browse the internet/i";
    "/As an AI, I don't have/i";
    "/I'm not able to access/i" ].

Definition suspiciousPatterns : list string :=
  [ "/\d{4}-\d{2}-\d{2}/g";
    "/\$\d+\.\d{2}/g";
    "/\b\d{3}-\d{3}-\d{4}\b/g" ].

Definition checkForHallucination (prompt response : string) : bool :=
  let responseLength := String.length response in
  let promptLength := String.length prompt in
  if Nat.ltb (promptLength * 5) responseLength then true
  else if existsb (fun pattern => regexp_test env pattern response) honestPatterns
  then false
  else
    let suspiciousCount :=
      fold_left (fun n pattern => (n + regexp_count env pattern response)%nat)
                suspiciousPatterns 0%nat in
    Nat.ltb 3 suspiciousCount.

Definition checkForRepetition (response : string) : bool :=
  let sentences :=
    List.filter (fun s => non_empty (trim s))
                (regexp_split env "/[.!?]+/" response) in
  let uniqueSentences : gset string :=
    list_to_set (List.map (fun s => toLowerCase (trim s)) sentences) in
  Nat.ltb 3 (List.length sentences)
  && ltb (of_nat (size uniqueSentences))
         (mul (of_nat (List.length sentences)) (dec 7 10)).

Definition incompletePatterns : list string :=
  [ "/\.\.\.$/"; "/\[incomplete\]/i"; "/\[truncated\]/i"; "/\[cut off\]/i" ].

Definition checkForIncompleteResponse (response : string) : bool :=
  existsb (fun pattern => regexp_test env pattern response) incompletePatterns.

Definition inappropriatePatterns : list string :=
  [ "/\b(hate|racist|sexist|discriminatory)\b/i";
    "/\b(violence|violent|kill|murder)\b/i";
    "/\b(illegal|crime|criminal)\b/i" ].

Definition checkForInappropriateContent (response : string) : bool :=
  existsb (fun pattern => regexp_test env pattern response) inappropriatePatterns.

(** [if (c) flags.push(name)] *)
Definition push_if (c : bool) (name : string) (l : list string) : list string :=
  if c then l ++ [name] else l.

(** [checkResponseQuality(prompt, response)]. The response of a provider
    can be [null]; reading its length then throws. *)
Definition checkResponseQuality (prompt : string) (response : option string)
  : completion (list string) :=
  match response with
  | None => Throw "Cannot read properties of null (reading 'length')"
  | Some response =>
      let flags := [] in
      let flags := push_if (checkForHallucination prompt response)
                           "potential_hallucination" flags in
      let flags := push_if (checkForRepetition response)
                           "repetitive_response" flags in
      let flags := push_if (checkForIncompleteResponse response)
                           "incomplete_response" flags in
      let flags := push_if (checkForInappropriateContent response)
                           "inappropriate_content" flags in
      mret flags
  end.

End ResponseQuality.

(** ** Providers *)

Section Providers.

Context (env : Env).

(** The own properties of [PROVIDERS]. *)
Definition PROVIDERS : list string := [ "openai"; "anthropic"; "google" ].

Definition endpoint (p model api_key : string) : string :=
  if String.eqb p "openai" then "https://api.openai.com/v1/chat/completions"
  else if String.eqb p "anthropic" then "https://api.anthropic.com/v1/messages"
  else "https://generativelanguage.googleapis.com/v1beta/models/" +:+ model
       +:+ ":generateContent?key=" +:+ api_key.

(** [axios.post] and the unwrapping of the reply: the call is recorded
    and the clock moves on by the time the call took. *)
Definition post (call : ProviderCall) (w : World) : completion AiResponse * World :=
  let r := axios_post env call (List.length (provider_calls w)) in
  (outcome r,
   {| usage_logs := usage_logs w;
      safety_filters := safety_filters w;
      model_pricing := model_pricing w;
      clock := clock w + elapsed r;
      next_uuid := next_uuid w;
      provider_calls := provider_calls w ++ [call];
      ws_messages := ws_messages w |}).

(** [makeRequest(provider, apiKey, { model, prompt, ...options })] *)
Definition makeRequest (provider apiKey model prompt : string) (options : Options)
           (w : World) : completion AiResponse * World :=
  let key := toLowerCase provider in
  if negb (existsb (String.eqb key) PROVIDERS || Obj.inherited key)
  then (Throw ("Unsupported provider: " +:+ provider), w)
  else
    let max_tokens := default (of_Z 1000) (max_tokens options) in
    let temperature := default (dec 7 10) (temperature options) in
    if existsb (String.eqb key) PROVIDERS then
      let call :=
        {| pc_endpoint := endpoint key model apiKey; pc_api_key := apiKey;
           pc_model := model; pc_prompt := prompt;
           pc_max_tokens := max_tokens; pc_temperature := temperature |} in
      match post call w with
      | (Normal response, w') => (Normal response, w')
      | (Throw message, w') =>
          (Throw (provider +:+ " API error: " +:+ message), w')
      end
    else
      (Throw (provider +:+ " API error: Unsupported provider: " +:+ provider), w).

End Providers.

(** ** Routes *)

Inductive Method : Type := GET | POST.

(** The paths of the usage router: [/track], [/retry/:id], and the rest. *)
Inductive Path : Type :=
| path_track
| path_retry (id : Uuid)
| path_other (p : string).

Record Request : Type := {
  method : Method;
  path : Path;
  body : Body;
  user_agent : option string;
  ip : string
}.

Record Usage : Type := {
  u_input_tokens : number;
  u_output_tokens : number;
  u_total_tokens : number;
  u_cost : number
}.

Inductive Json : Type :=
| JError (error : string)
| JBlocked (error : string) (reasons : list Reason)
| JTracked (id : Uuid) (response : option string) (usage : Usage)
           (status : Status) (response_time_ms : number) (safety_flags : Flags).

(** [res.status(code).json(payload)] *)
Record Response : Type := {
  http_status : nat;
  json : Json
}.

Section Track.

Context (env : Env).

(** The value of a required field, [None] when the field is falsy. *)
Definition required (x : option string) : option string :=
  match x with
  | Some (String _ _) => x
  | _ => None
  end.

(** The destructuring of [req.body] and the check of the required
    fields: the request data handed to the filters and the API key, or
    [None] when [!model_provider || !model_name || !prompt || !api_key]. *)
Definition required_fields (b : Body) : option (RequestData * string) :=
  match required (b_model_provider b), required (b_model_name b),
        required (b_prompt b), required (b_api_key b) with
  | Some model_provider, Some model_name, Some prompt, Some api_key =>
      Some ({| rd_user_id := b_user_id b;
               rd_team_id := b_team_id b;
               rd_model_provider := model_provider;
               rd_model_name := model_name;
               rd_prompt := prompt;
               rd_options := default no_options (b_options b) |}, api_key)
  | _, _, _, _ => None
  end.

(** [let usageData = { ... }] *)
Definition new_usageData (req : Request) (requestData : RequestData)
           (safetyCheck : SafetyCheck) (pricing : option ModelPricing)
           (timestamp : string) : UsageData :=
  {| user_id := rd_user_id requestData;
     team_id := rd_team_id requestData;
     session_id := b_session_id (body req);
     model_provider := rd_model_provider requestData;
     model_name := rd_model_name requestData;
     prompt := rd_prompt requestData;
     response := None;
     input_tokens := zero;
     output_tokens := zero;
     total_tokens := zero;
     cost_per_input_token :=
       match pricing with
       | Some p => div (input_cost_per_1k_tokens p) (of_Z 1000)
       | None => zero
       end;
     cost_per_output_token :=
       match pricing with
       | Some p => div (output_cost_per_1k_tokens p) (of_Z 1000)
       | None => zero
       end;
     total_cost := zero;
     status := processing;
     error_message := None;
     retry_count := zero;
     response_time_ms := zero;
     safety_flags := flags safetyCheck;
     metadata :=
       {| md_user_agent := user_agent req;
          md_ip_address := ip req;
          md_timestamp := timestamp;
          md_options := rd_options requestData;
          actual_model := None;
          finish_reason := None |} |}.

(** The assignments of the [try] block after the provider has replied. *)
Definition with_reply (u : UsageData) (reply : AiResponse) (rt : number)
  : UsageData :=
  let inputTokens := countTokens (Some (prompt u)) (model_provider u) in
  let outputTokens := countTokens (ai_response reply) (model_provider u) in
  let inputCost := mul inputTokens (cost_per_input_token u) in
  let outputCost := mul outputTokens (cost_per_output_token u) in
  {| user_id := user_id u; team_id := team_id u; session_id := session_id u;
     model_provider := model_provider u; model_name := model_name u;
     prompt := prompt u;
     response := ai_response reply;
     input_tokens := inputTokens;
     output_tokens := outputTokens;
     total_tokens := add inputTokens outputTokens;
     cost_per_input_token := cost_per_input_token u;
     cost_per_output_token := cost_per_output_token u;
     total_cost := add inputCost outputCost;
     status := success;
     error_message := error_message u;
     retry_count := retry_count u;
     response_time_ms := rt;
     safety_flags := safety_flags u;
     metadata :=
       {| md_user_agent := md_user_agent (metadata u);
          md_ip_address := md_ip_address (metadata u);
          md_timestamp := md_timestamp (metadata u);
          md_options := md_options (metadata u);
          actual_model :=
            match ai_model reply with
            | Some (String _ _) => ai_model reply
            | _ => Some (model_name u)
            end;
          finish_reason := ai_finish_reason reply |} |}.

(** [usageData.status = 'hallucination';
     usageData.safety_flags.quality_issues = qualityCheck.flags] *)
Definition with_quality_issues (u : UsageData) (issues : list string) : UsageData :=
  {| user_id := user_id u; team_id := team_id u; session_id := session_id u;
     model_provider := model_provider u; model_name := model_name u;
     prompt := prompt u; response := response u;
     input_tokens := input_tokens u; output_tokens := output_tokens u;
     total_tokens := total_tokens u;
     cost_per_input_token := cost_per_input_token u;
     cost_per_output_token := cost_per_output_token u;
     total_cost := total_cost u;
     status := hallucination;
     error_message := error_message u;
     retry_count := retry_count u;
     response_time_ms := response_time_ms u;
     safety_flags := <["quality_issues" := Issues issues]> (safety_flags u);
     metadata := metadata u |}.

(** The [catch (aiError)] block. *)
Definition with_error (u : UsageData) (message : string) (rt : number) : UsageData :=
  {| user_id := user_id u; team_id := team_id u; session_id := session_id u;
     model_provider := model_provider u; model_name := model_name u;
     prompt := prompt u; response := response u;
     input_tokens := input_tokens u; output_tokens := output_tokens u;
     total_tokens := total_tokens u;
     cost_per_input_token := cost_per_input_token u;
     cost_per_output_token := cost_per_output_token u;
     total_cost := total_cost u;
     status := failure;
     error_message := Some message;
     retry_count := retry_count u;
     response_time_ms := rt;
     safety_flags := safety_flags u;
     metadata := metadata u |}.

(** [Date.now() - startTime] *)
Definition since (startTime : Z) (w : World) : number := of_Z (clock w - startTime).

(** The [try] block of the handler. It works on [usageData] in place,
    so what it has assigned before a throw stays assigned: the result is
    the object as the block leaves it, with the message thrown if any. *)
Definition try_block (startTime : Z) (api_key : string) (options : Options)
           (usageData : UsageData) (w : World)
  : UsageData * option string * World :=
  match makeRequest env (model_provider usageData) api_key
                    (model_name usageData) (prompt usageData) options w with
  | (Throw message, w) => (usageData, Some message, w)
  | (Normal aiResponse, w) =>
      let usageData := with_reply usageData aiResponse (since startTime w) in
      match checkResponseQuality env (prompt usageData) (ai_response aiResponse) with
      | Throw message => (usageData, Some message, w)
      | Normal issues =>
          if Nat.ltb 0 (List.length issues)
          then (with_quality_issues usageData issues, None, w)
          else (usageData, None, w)
      end
  end.

(** The [try] block followed by its [catch]. *)
Definition settle (startTime : Z) (api_key : string) (options : Options)
           (usageData : UsageData) (w : World) : UsageData * World :=
  let '(usageData, thrown, w) :=
    try_block startTime api_key options usageData w in
  match thrown with
  | Some message => (with_error usageData message (since startTime w), w)
  | None => (usageData, w)
  end.


(** The message sent to the clients of the web socket. *)
Definition broadcast (logId : Uuid) (usageData : UsageData) (w : World) : World :=
  {| usage_logs := usage_logs w;
     safety_filters := safety_filters w;
     model_pricing := model_pricing w;
     clock := clock w;
     next_uuid := next_uuid w;
     provider_calls := provider_calls w;
     ws_messages := ws_messages w ++ [(logId, usageData)] |}.

(** The body of the final [res.json]. *)
Definition tracked (logId : Uuid) (usageData : UsageData) : Response :=
  {| http_status := 200;
     json := JTracked logId (response usageData)
               {| u_input_tokens := input_tokens usageData;
                  u_output_tokens := output_tokens usageData;
                  u_total_tokens := total_tokens usageData;
                  u_cost := total_cost usageData |}
               (status usageData) (response_time_ms usageData)
               (safety_flags usageData) |}.

(** [router.post('/track', ...)]. The outer [catch] of the handler, which
    answers 500, is for a failing database; the database here does not
    fail. *)
Definition track (req : Request) (w : World) : Response * World :=
  let startTime := clock w in
  match required_fields (body req) with
  | None =>
      ({| http_status := 400;
          json := JError "Missing required fields: model_provider, model_name, prompt, api_key" |},
       w)
  | Some (requestData, api_key) =>
      let safetyCheck := checkFilters env requestData w in
      if negb (allowed safetyCheck) then
        ({| http_status := 403;
            json := JBlocked "Request blocked by safety filters"
                             (reasons safetyCheck) |}, w)
      else
        let pricing :=
          getModelPricing (rd_model_provider requestData)
                          (rd_model_name requestData) w in
        let usageData :=
          new_usageData req requestData safetyCheck pricing
                        (toISOString env (clock w)) in
        let '(usageData, w) :=
          settle startTime api_key (rd_options requestData) usageData w in
        let '(logId, w) := insertUsageLog env usageData w in
        let w := broadcast logId usageData w in
        (tracked logId usageData, w)
  end.

(** How a dispatch ends: with a response, at a route outside this
    model, or not within the steps allowed. *)
Inductive Handled : Type :=
| Responded (r : Response) (w : World)
| Elsewhere
| Pending.

(** The body the retry handler puts in place of [req.body]. *)
Definition retryData (i : Uuid) (originalLog : UsageLog) (api_key : option string)
  : Body :=
  {| b_user_id := user_id (row originalLog);
     b_team_id := team_id (row originalLog);
     b_session_id := session_id (row originalLog);
     b_model_provider := Some (model_provider (row originalLog));
     b_model_name := Some (model_name (row originalLog));
     b_prompt := Some (prompt (row originalLog));
     b_api_key := api_key;
     b_options :=
       Some {| max_tokens := None; temperature := None;
               retry_of := Some i;
               opt_retry_count :=
                 Some (add (retry_count (row originalLog)) (of_Z 1)) |} |}.

(** [router.post('/retry/:id', ...)]. [handle] is [router.handle]. *)
Definition retry (handle : Request -> World -> Handled)
           (i : Uuid) (req : Request) (w : World) : Handled :=
  let api_key := b_api_key (body req) in
  match getUsageLog i w with
  | None =>
      Responded {| http_status := 404; json := JError "Usage log not found" |} w
  | Some originalLog =>
      if decide (status (row originalLog) = success) then
        Responded {| http_status := 400;
                     json := JError "Cannot retry successful request" |} w
      else
        handle {| method := method req; path := path req;
                  body := retryData i originalLog api_key;
                  user_agent := user_agent req; ip := ip req |} w
  end.

(** [router.handle(req, res)]: the first route whose method and path
    match the request runs; the routes other than [/track] and
    [/retry/:id] are outside this model. Each dispatch uses up one step
    of [fuel]. *)
Fixpoint router_handle (fuel : nat) (req : Request) (w : World) : Handled :=
  match fuel with
  | O => Pending
  | S fuel =>
      match method req, path req with
      | POST, path_track => let '(r, w) := track req w in Responded r w
      | POST, path_retry i => retry (router_handle fuel) i req w
      | _, _ => Elsewhere
      end
  end.

End Track.

(** ** Options that name a model or a prompt *)

(** The handler of [/track] calls the provider with
    [{ model: model_name, prompt, ...options }]: a key [model] or [prompt]
    of [options] replaces the field of the body. [Spread] holds these two
    keys of [options], each a string when present; [track] above is the
    handler for options that have neither. *)
Record Spread : Type := {
  s_model : option string;
  s_prompt : option string
}.

Definition no_spread : Spread := {| s_model := None; s_prompt := None |}.

Section TrackSpread.

Context (env : Env).

(** [makeRequest(provider, apiKey, { model, prompt, ...options })] *)
Definition makeRequest_spread (provider apiKey model prompt : string)
           (s : Spread) (options : Options) (w : World)
  : completion AiResponse * World :=
  makeRequest env provider apiKey
              (default model (s_model s)) (default prompt (s_prompt s)) options w.

(** The [try] block; the counts and the quality check are on the prompt
    of the body. *)
Definition try_block_spread (startTime : Z) (api_key : string) (s : Spread)
           (options : Options) (usageData : UsageData) (w : World)
  : UsageData * option string * World :=
  match makeRequest_spread (model_provider usageData) api_key
                           (model_name usageData) (prompt usageData) s options w with
  | (Throw message, w) => (usageData, Some message, w)
  | (Normal aiResponse, w) =>
      let usageData := with_reply usageData aiResponse (since startTime w) in
      match checkResponseQuality env (prompt usageData) (ai_response aiResponse) with
      | Throw message => (usageData, Some message, w)
      | Normal issues =>
          if Nat.ltb 0 (List.length issues)
          then (with_quality_issues usageData issues, None, w)
          else (usageData, None, w)
      end
  end.

Definition settle_spread (startTime : Z) (api_key : string) (s : Spread)
           (options : Options) (usageData : UsageData) (w : World)
  : UsageData * World :=
  let '(usageData, thrown, w) :=
    try_block_spread startTime api_key s options usageData w in
  match thrown with
  | Some message => (with_error usageData message (since startTime w), w)
  | None => (usageData, w)
  end.

(** [router.post('/track', ...)] for a body whose [options] hold the keys
    of [s]. *)
Definition track_spread (s : Spread) (req : Request) (w : World) : Response * World :=
  let startTime := clock w in
  match required_fields (body req) with
  | None =>
      ({| http_status := 400;
          json := JError "Missing required fields: model_provider, model_name, prompt, api_key" |},
       w)
  | Some (requestData, api_key) =>
      let safetyCheck := checkFilters env requestData w in
      if negb (allowed safetyCheck) then
        ({| http_status := 403;
            json := JBlocked "Request blocked by safety filters"
                             (reasons safetyCheck) |}, w)
      else
        let pricing :=
          getModelPricing (rd_model_provider requestData)
                          (rd_model_name requestData) w in
        let usageData :=
          new_usageData req requestData safetyCheck pricing
                        (toISOString env (clock w)) in
        let '(usageData, w) :=
          settle_spread startTime api_key s (rd_options requestData) usageData w in
        let '(logId, w) := insertUsageLog env usageData w in
        let w := broadcast logId usageData w in
        (tracked logId usageData, w)
  end.

End TrackSpread.

(** ** The tables of prices and filters *)

(** The argument of [insertModelPricing]. A cost is [None] when it is
    [null]. *)
Record PricingData : Type := {
  pd_provider : string;
  pd_model_name : string;
  pd_input_cost : option number;
  pd_output_cost : option number
}.

(** The argument of [insertSafetyFilter], with the columns the filters
    read. *)
Record FilterData : Type := {
  fd_name : string;
  fd_filter_type : string;
  fd_rules : RulesText
}.

Section Tables.

Context (env : Env).

(** [uuidv4()] *)
Definition uuidv4 (w : World) : Uuid * World :=
  (next_uuid w,
   {| usage_logs := usage_logs w;
      safety_filters := safety_filters w;
      model_pricing := model_pricing w;
      clock := clock w;
      next_uuid := S (next_uuid w);
      provider_calls := provider_calls w;
      ws_messages := ws_messages w |}).

Definition with_model_pricing (rows : list ModelPricing) (w : World) : World :=
  {| usage_logs := usage_logs w;
     safety_filters := safety_filters w;
     model_pricing := rows;
     clock := clock w;
     next_uuid := next_uuid w;
     provider_calls := provider_calls w;
     ws_messages := ws_messages w |}.

Definition with_safety_filters (rows : list SafetyFilter) (w : World) : World :=
  {| usage_logs := usage_logs w;
     safety_filters := rows;
     model_pricing := model_pricing w;
     clock := clock w;
     next_uuid := next_uuid w;
     provider_calls := provider_calls w;
     ws_messages := ws_messages w |}.

(** What SQLite stores for a number bound to a column: NULL for [null],
    and for NaN as well. *)
Definition bound (x : option number) : option number :=
  match x with
  | Some S754_nan | None => None
  | Some v => Some v
  end.

(** [insertModelPricing]. Both cost columns are [REAL NOT NULL]: the
    insertion fails when a cost is NULL. The id is drawn first. *)
Definition insertModelPricing (pricingData : PricingData) (w : World)
  : completion Uuid * World :=
  let '(id, w) := uuidv4 w in
  match bound (pd_input_cost pricingData), bound (pd_output_cost pricingData) with
  | Some input_cost, Some output_cost =>
      (Normal id,
       with_model_pricing
         (model_pricing w ++
          [ {| mp_provider := pd_provider pricingData;
               mp_model_name := pd_model_name pricingData;
               input_cost_per_1k_tokens := input_cost;
               output_cost_per_1k_tokens := output_cost;
               effective_date := CURRENT_TIMESTAMP env (clock w);
               mp_is_active := true |} ]) w)
  | None, _ =>
      (Throw "SQLITE_CONSTRAINT: NOT NULL constraint failed: model_pricing.input_cost_per_1k_tokens", w)
  | _, None =>
      (Throw "SQLITE_CONSTRAINT: NOT NULL constraint failed: model_pricing.output_cost_per_1k_tokens", w)
  end.

Definition insertSafetyFilter (filterData : FilterData) (w : World) : Uuid * World :=
  let '(id, w) := uuidv4 w in
  (id,
   with_safety_filters
     (safety_filters w ++
      [ {| sf_name := fd_name filterData;
           filter_type := fd_filter_type filterData;
           rules := fd_rules filterData;
           sf_is_active := true |} ]) w).

(** [UPDATE model_pricing SET is_active = false
     WHERE provider = ? AND model_name = ?] *)
Definition deactivate (provider model_name : string) (w : World) : World :=
  with_model_pricing
    (List.map
       (fun r =>
          if String.eqb (mp_provider r) provider
             && String.eqb (mp_model_name r) model_name
          then {| mp_provider := mp_provider r;
                  mp_model_name := mp_model_name r;
                  input_cost_per_1k_tokens := input_cost_per_1k_tokens r;
                  output_cost_per_1k_tokens := output_cost_per_1k_tokens r;
                  effective_date := effective_date r;
                  mp_is_active := false |}
          else r)
       (model_pricing w)) w.

Definition defaultPricing : list PricingData :=
  [ {| pd_provider := "openai"; pd_model_name := "gpt-4";
       pd_input_cost := Some (dec 3 100); pd_output_cost := Some (dec 6 100) |};
    {| pd_provider := "openai"; pd_model_name := "gpt-4-turbo";
       pd_input_cost := Some (dec 1 100); pd_output_cost := Some (dec 3 100) |};
    {| pd_provider := "openai"; pd_model_name := "gpt-3.5-turbo";
       pd_input_cost := Some (dec 1 1000); pd_output_cost := Some (dec 2 1000) |};
    {| pd_provider := "anthropic"; pd_model_name := "claude-3-opus";
       pd_input_cost := Some (dec 15 1000); pd_output_cost := Some (dec 75 1000) |};
    {| pd_provider := "anthropic"; pd_model_name := "claude-3-sonnet";
       pd_input_cost := Some (dec 3 1000); pd_output_cost := Some (dec 15 1000) |};
    {| pd_provider := "anthropic"; pd_model_name := "claude-3-haiku";
       pd_input_cost := Some (dec 25 100000); pd_output_cost := Some (dec 125 100000) |};
    {| pd_provider := "google"; pd_model_name := "gemini-pro";
       pd_input_cost := Some (dec 25 100000); pd_output_cost := Some (dec 5 10000) |};
    {| pd_provider := "google"; pd_model_name := "gemini-pro-vision";
       pd_input_cost := Some (dec 25 100000); pd_output_cost := Some (dec 5 10000) |} ].

(** The rules of the default filters, with the keys the filters read
    (they do not read [action]). *)
Definition defaultFilters : list FilterData :=
  [ {| fd_name := "Cost Alert"; fd_filter_type := "cost";
       fd_rules :=
         Serialized
           {| blocked_keywords := None; max_prompt_length := None;
              check_pii := false; block_pii := false;
              max_cost_per_call := Some (of_Z 1); daily_spending_limit := None;
              max_calls_per_minute := None; max_calls_per_hour := None;
              max_calls_per_day := None; allowed_models := None;
              blocked_models := None |} |};
    {| fd_name := "Rate Limit"; fd_filter_type := "rate";
       fd_rules :=
         Serialized
           {| blocked_keywords := None; max_prompt_length := None;
              check_pii := false; block_pii := false;
              max_cost_per_call := None; daily_spending_limit := None;
              max_calls_per_minute := None; max_calls_per_hour := Some (of_Z 1000);
              max_calls_per_day := None; allowed_models := None;
              blocked_models := None |} |} ].

(** [for (const pricing of defaultPricing) await insertModelPricing(pricing)] *)
Fixpoint insert_prices (prices : list PricingData) (w : World)
  : completion unit * World :=
  match prices with
  | [] => (Normal tt, w)
  | pricing :: rest =>
      match insertModelPricing pricing w with
      | (Normal _, w) => insert_prices rest w
      | (Throw message, w) => (Throw message, w)
      end
  end.

(** [insertDefaultData], which [initializeDatabase] runs at every start
    of the server. *)
Definition insertDefaultData (w : World) : completion unit * World :=
  match insert_prices defaultPricing w with
  | (Normal _, w) =>
      (Normal tt,
       fold_left (fun w filter => snd (insertSafetyFilter filter w)) defaultFilters w)
  | (Throw message, w) => (Throw message, w)
  end.

End Tables.

(** ** The routes of [routes/api.js] on prices *)

(** A cost of the body of [POST /pricing]: absent, [null], or a number. *)
Inductive Cost : Type :=
| CAbsent
| CNull
| CNumber (x : number).

(** The body of [POST /pricing]; the provider and the model are strings
    when present. *)
Record PricingBody : Type := {
  pb_provider : option string;
  pb_model_name : option string;
  pb_input_cost : Cost;
  pb_output_cost : Cost
}.

Inductive ApiJson : Type :=
| AError (error : string)
| AUpdated (id : Uuid) (message : string).

Record ApiResponse : Type := {
  api_status : nat;
  api_json : ApiJson
}.

Section Api.

Context (env : Env).

Definition cost_value (c : Cost) : option number :=
  match c with
  | CNumber x => Some x
  | _ => None
  end.

(** [router.post('/pricing', ...)] *)
Definition post_pricing (b : PricingBody) (w : World) : ApiResponse * World :=
  match required (pb_provider b), required (pb_model_name b),
        pb_input_cost b, pb_output_cost b with
  | Some provider, Some model_name, (CNull | CNumber _), (CNull | CNumber _) =>
      let w := deactivate provider model_name w in
      match insertModelPricing env
              {| pd_provider := provider; pd_model_name := model_name;
                 pd_input_cost := cost_value (pb_input_cost b);
                 pd_output_cost := cost_value (pb_output_cost b) |} w with
      | (Normal id, w) =>
          ({| api_status := 200;
              api_json := AUpdated id "Pricing updated successfully" |}, w)
      | (Throw _, w) =>
          ({| api_status := 500; api_json := AError "Failed to update pricing" |}, w)
      end
  | _, _, _, _ =>
      ({| api_status := 400; api_json := AError "Missing required fields" |}, w)
  end.

End Api.

(** ** The rest of [services/ai-providers.js] *)

Record ModelInfo : Type := {
  mi_provider : string;
  mi_model : string;
  mi_response : option string
}.

(** What [testApiKey] returns. *)
Record KeyTest : Type := {
  kt_success : bool;
  kt_message : string;
  kt_modelInfo : option ModelInfo
}.

Section ProviderTable.

Context (env : Env).

(** [PROVIDERS[key].name] and [PROVIDERS[key].models] for the keys of
    the table. *)
Definition provider_name (key : string) : string :=
  if String.eqb key "openai" then "OpenAI"
  else if String.eqb key "anthropic" then "Anthropic"
  else "Google".

Definition models (key : string) : list string :=
  if String.eqb key "openai"
  then [ "gpt-4"; "gpt-4-turbo"; "gpt-3.5-turbo"; "gpt-4-1106-preview" ]
  else if String.eqb key "anthropic"
  then [ "claude-3-opus-20240229"; "claude-3-sonnet-20240229";
         "claude-3-haiku-20240307" ]
  else if String.eqb key "google"
  then [ "gemini-pro"; "gemini-pro-vision" ]
  else [].

(** The double quote. *)
Definition quote : ascii := ascii_of_nat 34.

Definition testPrompt : string :=
  "Hello, this is a test message. Please respond with "
  +:+ String quote "Test successful" +:+ String quote ".".

Definition key_test_failed (message : string) : KeyTest :=
  {| kt_success := false;
     kt_message := "API key test failed: " +:+ message;
     kt_modelInfo := None |}.

(** [testApiKey(provider, apiKey, modelName)]. A key of the table gives
    its configuration; a property inherited from [Object.prototype] is
    truthy as well, but has no [models]. *)
Definition testApiKey (provider apiKey : string) (modelName : option string)
           (w : World) : KeyTest * World :=
  let key := toLowerCase provider in
  if negb (existsb (String.eqb key) PROVIDERS || Obj.inherited key)
  then ({| kt_success := false; kt_message := "Unsupported provider";
           kt_modelInfo := None |}, w)
  else
    let model : completion string :=
      match required modelName with
      | Some m => Normal m
      | None =>
          if existsb (String.eqb key) PROVIDERS
          then Normal (hd "" (models key))
          else Throw "Cannot read properties of undefined (reading '0')"
      end in
    match model with
    | Throw message => (key_test_failed message, w)
    | Normal model =>
        match makeRequest env provider apiKey model testPrompt
                {| max_tokens := Some (of_Z 50); temperature := None;
                   retry_of := None; opt_retry_count := None |} w with
        | (Normal response, w) =>
            ({| kt_success := true; kt_message := "API key is valid";
                kt_modelInfo :=
                  Some {| mi_provider := provider_name key; mi_model := model;
                          mi_response := ai_response response |} |}, w)
        | (Throw message, w) => (key_test_failed message, w)
        end
    end.

(** [estimateTokenCount(text, provider)] of [ai-providers.js]: every
    piece of the split counts, and the factor is chosen by a [switch]. *)
Definition estimateTokenCount_for (text provider : string) : number :=
  let wordCount := of_nat (List.length (split_white_space text)) in
  let key := toLowerCase provider in
  if String.eqb key "openai" then Math_ceil (mul wordCount (dec 13 10))
  else if String.eqb key "anthropic" then Math_ceil (mul wordCount (dec 12 10))
  else if String.eqb key "google" then Math_ceil (mul wordCount (dec 11 10))
  else Math_ceil (mul wordCount (dec 125 100)).

End ProviderTable.

(** ** Reading the log *)

(** The [filters] of [getUsageLogs], with the properties [GET /logs]
    puts in it. *)
Record LogFilters : Type := {
  f_user_id : option string;
  f_team_id : option string;
  f_start_date : option string;
  f_end_date : option string;
  f_model_provider : option string;
  f_model_name : option string;
  f_status : option string;
  f_limit : option number;
  f_offset : option number
}.

Section ReadingTheLog.

(** [if (filters.key) { whereClause.push('column = ?') }] *)
Definition where_eq (param column : option string) : bool :=
  match required param with
  | Some _ => sql_eq column param
  | None => true
  end.

(** The [WHERE] clause [getUsageLogs] builds. *)
Definition selected (filters : LogFilters) (r : UsageLog) : bool :=
  where_eq (f_user_id filters) (user_id (row r))
  && where_eq (f_team_id filters) (team_id (row r))
  && match required (f_start_date filters) with
     | Some d => sql_text_ge (created_at r) d
     | None => true
     end
  && match required (f_end_date filters) with
     | Some d => sql_text_ge d (created_at r)
     | None => true
     end.

(** [ORDER BY created_at DESC]. Rows with the same stamp are left in the
    order of the table; SQLite promises no order among them. *)
Fixpoint insert_desc (r : UsageLog) (sorted : list UsageLog) : list UsageLog :=
  match sorted with
  | [] => [r]
  | r' :: rest =>
      if String.ltb (created_at r) (created_at r') then r' :: insert_desc r rest
      else r :: sorted
  end.

Definition order_by_created_at_desc (rows : list UsageLog) : list UsageLog :=
  fold_right insert_desc [] rows.

(** [LIMIT ?] for the number bound to it. The number is bound as a
    double, and SQLite takes it for the integer it needs when it is one
    strictly between [-2^63] and [2^63]; any other number is refused. A
    negative limit is no limit. *)
Definition sql_limit (limit : number) (rows : list UsageLog)
  : completion (list UsageLog) :=
  match to_Z limit with
  | Some n =>
      if (- 2 ^ 63 <? n) && (n <? 2 ^ 63)
      then Normal (if n <? 0 then rows else List.firstn (Z.to_nat n) rows)
      else Throw "SQLITE_MISMATCH: datatype mismatch"
  | None => Throw "SQLITE_MISMATCH: datatype mismatch"
  end.

(** [getUsageLogs(filters)] *)
Definition getUsageLogs (filters : LogFilters) (w : World)
  : completion (list UsageLog) :=
  let rows :=
    order_by_created_at_desc (List.filter (selected filters) (usage_logs w)) in
  match set_rule (f_limit filters) with
  | Some limit => sql_limit limit rows
  | None => Normal rows
  end.

End ReadingTheLog.

(** ** The rest of the token counter *)

Module TokenCounterMore.

(** [a-zA-Z0-9] *)
Definition alphanumeric (c : ascii) : bool :=
  let n := code c in
  (Nat.leb 48 n && Nat.leb n 57) || (Nat.leb 65 n && Nat.leb n 90)
  || (Nat.leb 97 n && Nat.leb n 122).

(** [(text.match(/[^a-zA-Z0-9\s]/g) || []).length] *)
Fixpoint specialCharCount (text : string) : nat :=
  match text with
  | EmptyString => 0
  | String c r =>
      ((if alphanumeric c || is_white_space c then 0 else 1) + specialCharCount r)%nat
  end.

(** [Math.ceil(n / d)] *)
Definition ceil_div (n : nat) (d : Z) : number := Math_ceil (div (of_nat n) (of_Z d)).

(** The loop over the words, [word_tokens] giving the tokens of a word
    of a given length, followed by the special characters, which count
    one token for [special] of them. *)
Definition count_with (word_tokens : nat -> number) (special : Z) (text : string)
  : number :=
  let words := split_white_space text in
  let tokenCount :=
    fold_left
      (fun tokenCount word => add tokenCount (word_tokens (String.length word)))
      words zero in
  add tokenCount (ceil_div (specialCharCount text) special).

(** [countTokensOpenAI(text)]; [text] is [None] when it is absent. *)
Definition countTokensOpenAI (text : option string) : number :=
  match text with
  | None | Some EmptyString => zero
  | Some text =>
      count_with
        (fun length =>
           if Nat.leb length 4 then of_Z 1
           else if Nat.leb length 8 then of_Z 2
           else ceil_div length 4)
        4 text
  end.

Definition countTokensAnthropic (text : option string) : number :=
  match text with
  | None | Some EmptyString => zero
  | Some text =>
      count_with
        (fun length =>
           if Nat.leb length 5 then of_Z 1
           else if Nat.leb length 10 then of_Z 2
           else ceil_div length 5)
        5 text
  end.

Definition countTokensGoogle (text : option string) : number :=
  match text with
  | None | Some EmptyString => zero
  | Some text =>
      count_with
        (fun length => if Nat.leb length 6 then of_Z 1 else ceil_div length 6)
        8 text
  end.

Definition countTokensProviderSpecific (text : option string) (provider : string)
  : number :=
  let key := toLowerCase provider in
  if String.eqb key "openai" then countTokensOpenAI text
  else if String.eqb key "anthropic" then countTokensAnthropic text
  else if String.eqb key "google" then countTokensGoogle text
  else countTokens text provider.

(** What [countTokensForRequest] returns. *)
Record RequestTokens : Type := {
  rt_input_tokens : number;
  rt_output_tokens : number;
  rt_total_tokens : number
}.

Definition countTokensForRequest (prompt response : option string) (provider : string)
  : RequestTokens :=
  let inputTokens := countTokens prompt provider in
  let outputTokens :=
    match response with
    | None | Some EmptyString => zero
    | Some _ => countTokens response provider
    end in
  {| rt_input_tokens := inputTokens;
     rt_output_tokens := outputTokens;
     rt_total_tokens := add inputTokens outputTokens |}.

End TokenCounterMore.

(** ** The checks of [utils/validator.js] *)

Module Validator.

(** [isValidApiKey(apiKey, provider)]. [apiKey] is [None] when it is not
    a string; [provider] is [None] when it is [undefined] or [null]. *)
Definition isValidApiKey (apiKey provider : option string) : bool :=
  match apiKey with
  | None | Some EmptyString => false
  | Some apiKey =>
      let key := option_map toLowerCase provider in
      if decide (key = Some "openai")
      then String.prefix "sk-" apiKey && Nat.leb 40 (String.length apiKey)
      else if decide (key = Some "anthropic")
      then String.prefix "sk-ant-" apiKey && Nat.leb 40 (String.length apiKey)
      else if decide (key = Some "google")
      then Nat.leb 20 (String.length apiKey)
      else Nat.leb 10 (String.length apiKey)
  end.

(** [c] is in the range [[lo-hi]] of a character class. *)
Definition in_range (lo hi c : ascii) : bool :=
  Nat.leb (code lo) (code c) && Nat.leb (code c) (code hi).

(** [[0-9a-f]] under the flag [i] *)
Definition hex (c : ascii) : bool :=
  in_range "0"%char "9"%char c || in_range "a"%char "f"%char c
  || in_range "A"%char "F"%char c.

Definition dash (c : ascii) : bool := Ascii.eqb c "-"%char.

(** [[1-5]] *)
Definition version (c : ascii) : bool := in_range "1"%char "5"%char c.

(** [[89ab]] under the flag [i] *)
Definition variant (c : ascii) : bool :=
  in_range "8"%char "9"%char c || in_range "a"%char "b"%char c
  || in_range "A"%char "B"%char c.

(** The pattern of [isValidUUID], one class for each character:
    [^[0-9a-f]{8}-[0-9a-f]{4}-[1-5][0-9a-f]{3}-[89ab][0-9a-f]{3}-[0-9a-f]{12}$]. *)
Definition uuidRegex : list (ascii -> bool) :=
  (repeat hex 8 ++ [dash] ++ repeat hex 4 ++ [dash]
   ++ [version] ++ repeat hex 3 ++ [dash]
   ++ [variant] ++ repeat hex 3 ++ [dash] ++ repeat hex 12)%list.

(** The whole of [s] matches the classes, one character each. *)
Fixpoint test (pattern : list (ascii -> bool)) (s : string) : bool :=
  match pattern, s with
  | [], EmptyString => true
  | class :: pattern, String c r => class c && test pattern r
  | _, _ => false
  end.

Definition isValidUUID (uuid : string) : bool := test uuidRegex uuid.

End Validator.

(** ** [sanitizeInput] *)

(** The values [sanitizeInput] is given: what [JSON.parse] produces, and
    [undefined]. An object has its own properties, in the order of
    [Object.entries], and a prototype: [None] stands for
    [Object.prototype]. *)
#[warnings="-register-all"]
Inductive Data : Type :=
| DString (s : string)
| DNumber (x : number)
| DBool (b : bool)
| DNull
| DUndefined
| DArray (items : list Data)
| DObject (proto : option Data) (props : list (string * Data)).

Module Sanitize.

(** [s.replace(/[<>]/g, '')] *)
Fixpoint strip (s : string) : string :=
  match s with
  | EmptyString => EmptyString
  | String c r =>
      if Ascii.eqb c "<"%char || Ascii.eqb c ">"%char then strip r
      else String c (strip r)
  end.

(** The keys of an array: "0", "1", ... *)
Definition index (i : nat) : string := NilEmpty.string_of_uint (Nat.to_uint i).

Fixpoint entries_from (i : nat) (items : list Data) : list (string * Data) :=
  match items with
  | [] => []
  | item :: items => (index i, item) :: entries_from (S i) items
  end.

(** [o[key] = value] on the own properties of an object. *)
Fixpoint set (key : string) (value : Data) (props : list (string * Data))
  : list (string * Data) :=
  match props with
  | [] => [(key, value)]
  | (k, v) :: props =>
      if String.eqb k key then (k, value) :: props
      else (k, v) :: set key value props
  end.

(** What the setter of [__proto__] accepts: an object or [null]. *)
Definition object_or_null (d : Data) : bool :=
  match d with
  | DArray _ | DObject _ _ | DNull => true
  | _ => false
  end.

(** [sanitized[key] = value], [sanitized] being a plain object: the key
    [__proto__] sets the prototype, or does nothing. *)
Definition assign (sanitized : option Data * list (string * Data))
           (key : string) (value : Data) : option Data * list (string * Data) :=
  if String.eqb key "__proto__"
  then (if object_or_null value then (Some value, snd sanitized) else sanitized)
  else (fst sanitized, set key value (snd sanitized)).

(** [const sanitized = {}; for (const [key, value] of entries)
      sanitized[key] = value] *)
Definition build (entries : list (string * Data)) : Data :=
  let sanitized :=
    fold_left (fun o kv => assign o (fst kv) (snd kv)) entries (None, []) in
  DObject (fst sanitized) (snd sanitized).

Fixpoint sanitizeInput (data : Data) : Data :=
  match data with
  | DString s => DString (trim (strip s))
  | DArray items => build (entries_from 0 (List.map sanitizeInput items))
  | DObject _ props =>
      build (List.map (fun kv => match kv with
                                 | (key, value) => (key, sanitizeInput value)
                                 end) props)
  | _ => data
  end.

End Sanitize.

(** * Properties *)

(** ** Doubles *)

(** The operations of [SpecFloat] round with [binary_round_aux]; the
    lemmas below bound what it returns, in order to tell when a product
    or a quotient of doubles is finite and when a double is an integer. *)

(** A finite double: a zero, or a mantissa below [2^53] with an exponent
    in the range of binary64. *)
Definition double (x : number) : Prop :=
  match x with
  | S754_zero _ => True
  | S754_finite _ m e => Z.pos m < 2 ^ 53 /\ -1074 <= e <= 971
  | _ => False
  end.


(** The magnitude of [x] is below [2^k]. *)
Definition below (k : Z) (x : number) : Prop :=
  match x with
  | S754_zero _ => True
  | S754_finite _ m e => Zdigits2 (Z.pos m) + e <= k
  | _ => False
  end.

(** The sign of [x] is [s]. *)
Definition signed (s : bool) (x : number) : Prop :=
  match x with
  | S754_zero s' | S754_finite s' _ _ => s' = s
  | _ => False
  end.



(** *** The number of binary digits *)

Lemma digits2_pos_bounds (p : positive) :
  2 ^ (Z.pos (digits2_pos p) - 1) <= Z.pos p < 2 ^ Z.pos (digits2_pos p).
Proof.
  induction p as [p IH|p IH|]; cbn [digits2_pos]; [| |cbn; lia];
    rewrite Pos2Z.inj_succ;
    replace (Z.succ (Z.pos (digits2_pos p)) - 1)
      with (Z.succ (Z.pos (digits2_pos p) - 1)) by lia;
    rewrite !Z.pow_succ_r by lia; lia.
Qed.

Lemma Zdigits2_nonneg (m : Z) : 0 <= Zdigits2 m.
Proof. destruct m; cbn; lia. Qed.

Lemma Zdigits2_lt (m : Z) : 0 <= m -> m < 2 ^ Zdigits2 m.
Proof.
  destruct m as [|p|p]; intros H; [cbn; lia| |lia].
  apply digits2_pos_bounds.
Qed.


Lemma pow2_mono (a b : Z) : 0 <= a <= b -> 2 ^ a <= 2 ^ b.
Proof. intros H. apply Z.pow_le_mono_r; lia. Qed.

Lemma Zdigits2_le (m n : Z) : 0 <= m -> 0 <= n -> m < 2 ^ n -> Zdigits2 m <= n.
Proof.
  destruct m as [|p|p]; intros Hm Hn H; [cbn; lia| |lia].
  cbn [Zdigits2]. pose proof (digits2_pos_bounds p) as [Hl _].
  destruct (Z_lt_le_dec n (Z.pos (digits2_pos p))) as [Hlt|]; [|lia].
  pose proof (pow2_mono n (Z.pos (digits2_pos p) - 1)). lia.
Qed.


Lemma Zdigits2_succ (m x : Z) :
  0 <= m -> 0 <= x <= m + 1 -> Zdigits2 x <= Zdigits2 m + 1.
Proof.
  intros Hm Hx. pose proof (Zdigits2_lt m Hm). pose proof (Zdigits2_nonneg m).
  apply Zdigits2_le; try lia.
  rewrite Z.pow_add_r by lia. change (2 ^ 1) with 2. lia.
Qed.

Lemma Zdigits2_mul (x y : Z) :
  0 <= x -> 0 <= y -> Zdigits2 (x * y) <= Zdigits2 x + Zdigits2 y.
Proof.
  intros Hx Hy.
  pose proof (Zdigits2_nonneg x). pose proof (Zdigits2_nonneg y).
  pose proof (Zdigits2_lt x Hx). pose proof (Zdigits2_lt y Hy).
  apply Zdigits2_le; [lia|lia|].
  rewrite Z.pow_add_r by lia. nia.
Qed.


Lemma div_pow2_lt (m a b : Z) :
  0 <= m -> 0 <= a -> 0 <= b -> m < 2 ^ (a + b) -> m / 2 ^ a < 2 ^ b.
Proof.
  intros Hm Ha Hb H. apply Z.div_lt_upper_bound; [lia|].
  rewrite <- Z.pow_add_r by lia. exact H.
Qed.

Lemma Zdigits2_div_pow2 (m a : Z) :
  0 <= m -> 0 <= a -> Zdigits2 (m / 2 ^ a) <= Z.max (Zdigits2 m - a) 0.
Proof.
  intros Hm Ha. pose proof (Zdigits2_lt m Hm) as Hlt.
  pose proof (Zdigits2_nonneg m) as Hd.
  destruct (Z_le_gt_dec a (Zdigits2 m)) as [H|H].
  - rewrite Z.max_l by lia. apply Zdigits2_le; [apply Z.div_pos; lia|lia|].
    apply div_pow2_lt; try lia.
    replace (a + (Zdigits2 m - a)) with (Zdigits2 m) by lia. exact Hlt.
  - rewrite Z.div_small; [cbn; lia|]. split; [lia|].
    pose proof (pow2_mono (Zdigits2 m) a). lia.
Qed.

(** *** Shifting right *)

Lemma shr_1_m (mrs : shr_record) :
  0 <= shr_m mrs -> shr_m (shr_1 mrs) = shr_m mrs / 2.
Proof.
  destruct mrs as [m r s]. cbn [shr_m]. intros H.
  destruct m as [|[p|p|]|p]; cbn [shr_1 shr_m]; try lia.
  - reflexivity.
  - apply Z.div_unique with (r := 1); lia.
  - apply Z.div_unique with (r := 0); lia.
  - reflexivity.
Qed.

Lemma pow2_xI (p : positive) : 2 ^ Z.pos p~1 = 2 * (2 ^ Z.pos p * 2 ^ Z.pos p).
Proof.
  replace (Z.pos p~1) with (1 + (Z.pos p + Z.pos p)) by lia.
  rewrite !Z.pow_add_r by lia. reflexivity.
Qed.

Lemma pow2_xO (p : positive) : 2 ^ Z.pos p~0 = 2 ^ Z.pos p * 2 ^ Z.pos p.
Proof.
  replace (Z.pos p~0) with (Z.pos p + Z.pos p) by lia.
  rewrite Z.pow_add_r by lia. reflexivity.
Qed.

(** [p] shifts by one bit divide the mantissa by [2^p]. *)
Lemma iter_shr_1_m (p : positive) (mrs : shr_record) :
  0 <= shr_m mrs ->
  shr_m (iter_pos shr_1 p mrs) = shr_m mrs / 2 ^ Z.pos p.
Proof.
  revert mrs. induction p as [p IH|p IH|]; intros mrs H; cbn [iter_pos].
  - assert (0 <= shr_m (shr_1 mrs))
      by (rewrite shr_1_m by lia; apply Z.div_pos; lia).
    assert (0 <= shr_m (iter_pos shr_1 p (shr_1 mrs)))
      by (rewrite IH by lia; apply Z.div_pos; lia).
    rewrite IH, IH, shr_1_m, !Z.div_div, pow2_xI by lia. reflexivity.
  - assert (0 <= shr_m (iter_pos shr_1 p mrs))
      by (rewrite IH by lia; apply Z.div_pos; lia).
    rewrite IH, IH, Z.div_div, pow2_xO by lia. reflexivity.
  - rewrite shr_1_m by lia. reflexivity.
Qed.

Lemma fexp_eq (x : Z) : fexp prec emax x = Z.max (x - 53) (-1074).
Proof. reflexivity. Qed.

(** What [shr_fexp] returns: the mantissa shifted to at most 53 digits,
    the exponent raised by as much. *)
Lemma shr_fexp_spec (m e : Z) (l : location) :
  0 <= m ->
  let n := Z.max (Zdigits2 m + e - 53) (-1074) - e in
  let r := shr_fexp prec emax m e l in
  shr_m (fst r) = (if 0 <? n then m / 2 ^ n else m)
  /\ snd r = (if 0 <? n then e + n else e).
Proof.
  intros Hm n r. subst r. unfold shr_fexp. rewrite fexp_eq. fold n.
  assert (shr_m (shr_record_of_loc m l) = m) as Hrec
      by (destruct l as [|[| |]]; reflexivity).
  unfold shr. destruct n as [|p|p]; cbn [fst snd Z.ltb Z.compare];
    rewrite ?iter_shr_1_m by lia; rewrite Hrec; auto.
Qed.

Lemma shr_fexp_bounds (m e : Z) (l : location) :
  0 <= m ->
  let m' := shr_m (fst (shr_fexp prec emax m e l)) in
  let e' := snd (shr_fexp prec emax m e l) in
  0 <= m' < 2 ^ 53
  /\ e' = Z.max e (Z.max (Zdigits2 m + e - 53) (-1074))
  /\ Zdigits2 m' + e' <= Z.max (Zdigits2 m + e) e'.
Proof.
  intros Hm. cbn zeta.
  destruct (shr_fexp_spec m e l Hm) as [-> ->].
  pose proof (Zdigits2_nonneg m) as Hd. pose proof (Zdigits2_lt m Hm) as Hlt.
  set (n := Z.max (Zdigits2 m + e - 53) (-1074) - e).
  destruct (0 <? n) eqn:E; [apply Z.ltb_lt in E|apply Z.ltb_ge in E].
  - pose proof (Zdigits2_div_pow2 m n Hm ltac:(lia)).
    pose proof (pow2_mono (Zdigits2 m) (n + 53)).
    repeat split; try lia; [apply Z.div_pos; lia|].
    apply div_pow2_lt; lia.
  - pose proof (pow2_mono (Zdigits2 m) 53). lia.
Qed.

Lemma round_nearest_even_bounds (m : Z) (l : location) :
  m <= round_nearest_even m l <= m + 1.
Proof.
  destruct l as [|[| |]]; cbn; try lia. destruct (Z.even m); lia.
Qed.

(** *** Rounding *)

(** A number below [2^1023] in magnitude rounds to a finite double of the
    same sign, at most one binade up. *)
Lemma round_aux_shape (s : bool) (m e : Z) (l : location) :
  0 <= m -> e <= 970 -> Zdigits2 m + e <= 1023 ->
  binary_round_aux prec emax s m e l = S754_zero s
  \/ exists m' e',
      binary_round_aux prec emax s m e l = S754_finite s m' e'
      /\ Z.pos m' < 2 ^ 53 /\ -1074 <= e' <= 971
      /\ Zdigits2 (Z.pos m') + e' <= Z.max (Zdigits2 m + e) (-1074) + 1.
Proof.
  intros Hm He Hd. unfold binary_round_aux.
  pose proof (shr_fexp_bounds m e l Hm) as H1. cbn zeta in H1.
  destruct (shr_fexp prec emax m e l) as [mrs1 e1]. cbn [fst snd] in H1.
  destruct H1 as (H1m & H1e & H1d).
  pose proof (Zdigits2_nonneg m) as Hdn.
  pose proof (round_nearest_even_bounds (shr_m mrs1) (loc_of_shr_record mrs1)) as Hr.
  set (m2 := round_nearest_even (shr_m mrs1) (loc_of_shr_record mrs1)) in *.
  assert (0 <= m2) as Hm2 by lia.
  pose proof (Zdigits2_succ (shr_m mrs1) m2 ltac:(lia) ltac:(lia)) as Hs2.
  pose proof (shr_fexp_bounds m2 e1 loc_Exact Hm2) as H2. cbn zeta in H2.
  destruct (shr_fexp prec emax m2 e1 loc_Exact) as [mrs2 e2]. cbn [fst snd] in H2.
  destruct H2 as (H2m & H2e & H2d).
  assert (Zdigits2 m2 <= 54) as Hd2 by (apply Zdigits2_le; lia).
  destruct (shr_m mrs2) as [|p|p] eqn:E; [left; reflexivity| |lia].
  right. exists p, e2.
  replace (e2 <=? emax - prec) with true
    by (symmetry; apply Z.leb_le; unfold emax, prec; lia).
  assert (0 < Zdigits2 (Z.pos p)) by (cbn; lia).
  repeat split; lia.
Qed.

Lemma round_aux_double (s : bool) (m e : Z) (l : location) (k : Z) :
  0 <= m -> e <= 970 -> Zdigits2 m + e <= k -> -1074 <= k <= 1023 ->
  let r := binary_round_aux prec emax s m e l in
  double r /\ below (k + 1) r /\ signed s r.
Proof.
  intros Hm He Hd Hk r. subst r.
  destruct (round_aux_shape s m e l Hm He ltac:(lia))
    as [->|(m' & e' & -> & H1 & H2 & H3)];
    cbn [double below signed]; repeat split; try reflexivity; lia.
Qed.

(** A mantissa of 53 digits with an exponent in range is not changed. *)
Lemma round_aux_exact (s : bool) (m : positive) (e : Z) :
  Zdigits2 (Z.pos m) = 53 -> -1074 <= e <= 971 ->
  binary_round_aux prec emax s (Z.pos m) e loc_Exact = S754_finite s m e.
Proof.
  intros Hd He. unfold binary_round_aux, shr_fexp.
  rewrite Hd, fexp_eq. replace (Z.max (53 + e - 53) (-1074) - e) with 0 by lia.
  cbn [shr shr_record_of_loc shr_m loc_of_shr_record round_nearest_even].
  rewrite Hd, fexp_eq. replace (Z.max (53 + e - 53) (-1074) - e) with 0 by lia.
  cbn [shr shr_record_of_loc shr_m].
  replace (e <=? emax - prec) with true
    by (symmetry; apply Z.leb_le; unfold emax, prec; lia).
  reflexivity.
Qed.

(** *** Products, integers, quotients *)

(** The product of two doubles whose magnitudes are below [2^kx] and
    [2^ky] is a double below [2^(kx+ky+1)]. *)
Lemma mul_double (x y : spec_float) (kx ky : Z) :
  double x -> double y -> below kx x -> below ky y ->
  -1074 <= kx + ky <= 1023 ->
  (forall sx mx ex sy my ey,
      x = S754_finite sx mx ex -> y = S754_finite sy my ey -> ex + ey <= 970) ->
  double (SFmul prec emax x y) /\ below (kx + ky + 1) (SFmul prec emax x y).
Proof.
  intros Dx Dy Bx By Hk He.
  destruct x as [sx|sx| |sx mx ex], y as [sy|sy| |sy my ey];
    cbn [double below] in Dx, Dy, Bx, By; try contradiction; cbn [SFmul];
    try (cbn [double below]; auto; fail).
  pose proof (Zdigits2_mul (Z.pos mx) (Z.pos my) ltac:(lia) ltac:(lia)) as Hm.
  rewrite <- Pos2Z.inj_mul in Hm.
  destruct (round_aux_double (xorb sx sy) (Z.pos (mx * my)) (ex + ey) loc_Exact (kx + ky))
    as (H1 & H2 & _); try lia.
  - eapply He; reflexivity.
  - auto.
Qed.

(** The sign of a product is the exclusive or of the signs. *)
Lemma mul_signed (x y : spec_float) (sx sy : bool) :
  signed sx x -> signed sy y -> double (SFmul prec emax x y) ->
  signed (xorb sx sy) (SFmul prec emax x y).
Proof.
  intros Hx Hy.
  destruct x as [sx'|sx'| |sx' mx ex], y as [sy'|sy'| |sy' my ey];
    cbn in Hx, Hy; try contradiction; subst; cbn [SFmul]; try (cbn; auto; fail).
  unfold binary_round_aux.
  destruct (shr_fexp _ _ _ _ _) as [a b]. destruct (shr_fexp _ _ _ _ _) as [c d].
  destruct (shr_m c); cbn; auto. destruct (d <=? _); cbn; auto.
Qed.

(** Shifting a mantissa left by [k] bits. *)
Lemma iter_xO_digits (p k : positive) :
  digits2_pos (Pos.iter xO p k) = (digits2_pos p + k)%positive.
Proof.
  induction k as [|k IH] using Pos.peano_ind.
  - cbn. lia.
  - rewrite Pos.iter_succ. cbn [digits2_pos]. rewrite IH. lia.
Qed.

Lemma iter_xO_value (p k : positive) :
  Z.pos (Pos.iter xO p k) = Z.pos p * 2 ^ Z.pos k.
Proof.
  induction k as [|k IH] using Pos.peano_ind.
  - cbn. lia.
  - rewrite Pos.iter_succ, Pos2Z.inj_xO, IH, Pos2Z.inj_succ, Z.pow_succ_r by lia. lia.
Qed.

(** The double of a positive integer below [2^53]: the integer itself,
    its mantissa shifted to 53 digits. *)
Lemma binary_round_small (s : bool) (p : positive) :
  Z.pos p < 2 ^ 53 ->
  exists m e,
    binary_round prec emax s p 0 = S754_finite s m e
    /\ Zdigits2 (Z.pos m) = 53 /\ -52 <= e <= 0
    /\ Z.pos m = Z.pos p * 2 ^ (- e).
Proof.
  intros Hp. unfold binary_round, shl_align.
  pose proof (digits2_pos_bounds p) as [Hl Hu].
  assert (Z.pos (digits2_pos p) <= 53) as Hd.
  { apply (Zdigits2_le (Z.pos p) 53); lia. }
  rewrite Z.add_0_r, fexp_eq.
  replace (Z.max (Z.pos (digits2_pos p) - 53) (-1074)) with (Z.pos (digits2_pos p) - 53) by lia.
  rewrite Z.sub_0_r.
  destruct (Z.pos (digits2_pos p) - 53) as [|k|k] eqn:E; [|lia|].
  - exists p, 0. rewrite round_aux_exact by (cbn [Zdigits2]; lia).
    cbn [Zdigits2]. repeat split; lia.
  - assert (Z.pos k = 53 - Z.pos (digits2_pos p)) as Hk by lia.
    exists (Pos.iter xO p k), (Z.neg k).
    assert (Zdigits2 (Z.pos (Pos.iter xO p k)) = 53) as Hd'.
    { cbn [Zdigits2]. rewrite iter_xO_digits. lia. }
    rewrite round_aux_exact by lia.
    repeat split; try lia. rewrite iter_xO_value. reflexivity.
Qed.

(** The double of an integer [0 <= z < 2^53] is that integer. *)
Lemma of_Z_small (z : Z) :
  0 <= z < 2 ^ 53 ->
  double (of_Z z) /\ below 53 (of_Z z) /\ signed false (of_Z z)
  /\ to_Z (of_Z z) = Some z.
Proof.
  intros Hz. unfold of_Z, binary_normalize.
  destruct z as [|p|p]; [cbn; auto| |lia].
  destruct (binary_round_small false p ltac:(lia)) as (m & e & -> & Hd & He & Hm).
  pose proof (Zdigits2_lt (Z.pos m) ltac:(lia)) as Hlt. rewrite Hd in Hlt.
  cbn [double below signed to_Z]. repeat split; try lia.
  destruct (0 <=? e) eqn:E0; [apply Z.leb_le in E0|apply Z.leb_gt in E0].
  - assert (e = 0) as -> by lia. cbn in Hm. f_equal; lia.
  - assert (0 < 2 ^ (- e)) by (apply Z.pow_pos_nonneg; lia).
    rewrite Hm, Z.mod_mul, Z.eqb_refl, Z.div_mul by lia. f_equal; lia.
Qed.

(** The ceiling of a double that is not negative is a natural number. *)
Lemma Math_ceil_natural (x : number) :
  double x -> signed false x ->
  exists z, 0 <= z /\ to_Z (Math_ceil x) = Some z.
Proof.
  intros Hx Hs. destruct x as [s|s| |s m e]; cbn [double signed] in Hx, Hs;
    try contradiction; subst.
  - exists 0. split; [lia|reflexivity].
  - destruct Hx as [Hm He]. unfold Math_ceil.
    destruct (0 <=? e) eqn:E0.
    + apply Z.leb_le in E0. exists (Z.pos m * 2 ^ e). cbn [to_Z].
      rewrite (proj2 (Z.leb_le 0 e) E0).
      assert (0 < 2 ^ e) by (apply Z.pow_pos_nonneg; lia).
      split; [nia|f_equal; lia].
    + apply Z.leb_gt in E0.
      assert (2 <= 2 ^ (- e)) as Hp.
      { change 2 with (2 ^ 1) at 1. apply Z.pow_le_mono_r; lia. }
      pose proof (Z.div_mod (Z.pos m) (2 ^ (- e)) ltac:(lia)) as Hdm.
      pose proof (Z.mod_pos_bound (Z.pos m) (2 ^ (- e)) ltac:(lia)) as Hmod.
      assert (0 <= Z.pos m / 2 ^ (- e)) as Hq by (apply Z.div_pos; lia).
      set (c := if Z.pos m mod 2 ^ (- e) =? 0
                then Z.pos m / 2 ^ (- e) else Z.pos m / 2 ^ (- e) + 1).
      assert (0 <= c < 2 ^ 53) as Hc.
      { subst c. destruct (Z.pos m mod 2 ^ (- e) =? 0) eqn:E;
          [apply Z.eqb_eq in E|apply Z.eqb_neq in E]; nia. }
      exists c. split; [lia|]. apply (of_Z_small c Hc).
Qed.




(** ** The policy engine *)

Section Verdicts.

Context (env : Env) (requestData : RequestData) (w : World).

(** The rules of a filter can be read. *)
Definition parses (f : SafetyFilter) : bool :=
  match JSON_parse (rules f) with
  | Normal _ => true
  | Throw _ => false
  end.

(** The evaluation of a filter in the loop of [checkFilters]: its rules
    are read, then the filter is applied. *)
Definition evaluation (f : SafetyFilter) : completion FilterResult :=
  rules ← JSON_parse (rules f);
  applyFilter env f rules requestData w.

(** The evaluation of a filter does not throw. *)
Definition evaluates (f : SafetyFilter) : bool :=
  match evaluation f with
  | Normal _ => true
  | Throw _ => false
  end.

(** The verdict of a filter on the request, when its evaluation does not
    throw. *)
Definition verdict (f : SafetyFilter) : option FilterResult :=
  match evaluation f with
  | Normal r => Some r
  | Throw _ => None
  end.

Definition denies (f : SafetyFilter) : bool :=
  match verdict f with
  | Some r => negb (fr_allowed r)
  | None => false
  end.

Definition reason_of (f : SafetyFilter) : Reason :=
  {| filter := sf_name f;
     reason := match verdict f with Some r => fr_reason r | None => "" end |}.

Definition flags_of (f : SafetyFilter) : option FilterFlags :=
  verdict f ≫= fr_flags.

(** The flags of the filters of a list, each under the name of its
    filter, a later filter overwriting an earlier one of the same name;
    a filter named [__proto__] leaves none. *)
Definition collect (fs : list SafetyFilter) (m : Flags) : Flags :=
  fold_left
    (fun m f => match flags_of f with
                | Some fl => assign_flags (sf_name f) fl m
                | None => m
                end)
    fs m.

Lemma check_one_evaluation (acc : SafetyCheck) (f : SafetyFilter) :
  check_one env requestData w acc f
  = filterResult ← evaluation f;
    Normal {| allowed := allowed acc && fr_allowed filterResult;
              reasons := reasons acc
                         ++ (if fr_allowed filterResult then []
                             else [ {| filter := sf_name f;
                                       reason := fr_reason filterResult |} ]);
              flags := match fr_flags filterResult with
                       | Some fl => assign_flags (sf_name f) fl (flags acc)
                       | None => flags acc
                       end |}.
Proof.
  unfold check_one, evaluation.
  destruct (JSON_parse (rules f)) as [r|m]; [|reflexivity].
  cbn [mbind completion_bind].
  destruct (applyFilter env f r requestData w) as [[a rs fl]|m]; [|reflexivity].
  cbn [mbind completion_bind mret completion_ret fr_allowed fr_reason fr_flags].
  destruct a, acc as [a0 rs0 fl0], fl as [fl|]; cbn;
    rewrite ?andb_true_r, ?andb_false_r, ?app_nil_r; reflexivity.
Qed.

Lemma check_one_evaluates (acc : SafetyCheck) (f : SafetyFilter) :
  evaluates f = true ->
  check_one env requestData w acc f =
    Normal {| allowed := allowed acc && negb (denies f);
              reasons := reasons acc ++ (if denies f then [reason_of f] else []);
              flags := collect [f] (flags acc) |}.
Proof.
  rewrite check_one_evaluation.
  unfold evaluates, denies, reason_of, collect, flags_of, verdict.
  cbn [fold_left].
  destruct (evaluation f) as [[a rs fl]|m]; [intros _|discriminate].
  cbn. destruct a; reflexivity.
Qed.

Lemma check_one_throws (acc : SafetyCheck) (f : SafetyFilter) :
  evaluates f = false ->
  exists m, check_one env requestData w acc f = Throw m.
Proof.
  rewrite check_one_evaluation. unfold evaluates.
  destruct (evaluation f) as [r|m]; [discriminate|].
  intros _. exists m. reflexivity.
Qed.

(** A run of the loop in which no evaluation throws. *)
Lemma check_loop_normal (fs : list SafetyFilter) (acc : SafetyCheck) :
  forallb evaluates fs = true ->
  check_loop env requestData w fs acc =
    Normal {| allowed := allowed acc && negb (existsb denies fs);
              reasons := reasons acc ++ List.map reason_of (List.filter denies fs);
              flags := collect fs (flags acc) |}.
Proof.
  revert acc. induction fs as [|f fs IH]; intros acc H.
  - cbn. destruct acc; cbn. rewrite andb_true_r, app_nil_r. reflexivity.
  - cbn in H. apply andb_true_iff in H as [Hf Hfs].
    cbn [check_loop]. rewrite (check_one_evaluates acc f Hf). cbn [mbind completion_bind].
    rewrite (IH _ Hfs). cbn [allowed reasons flags existsb List.filter].
    f_equal. f_equal.
    + rewrite negb_orb, andb_assoc. reflexivity.
    + rewrite <- app_assoc. destruct (denies f); reflexivity.
Qed.

(** A run of the loop that meets an evaluation that throws. *)
Lemma check_loop_throws (fs : list SafetyFilter) (acc : SafetyCheck) :
  forallb evaluates fs = false ->
  exists m, check_loop env requestData w fs acc = Throw m.
Proof.
  revert acc. induction fs as [|f fs IH]; intros acc H; [discriminate|].
  cbn in H. cbn [check_loop].
  destruct (evaluates f) eqn:Hf.
  - rewrite (check_one_evaluates acc f Hf). cbn [mbind completion_bind].
    apply IH. exact H.
  - destruct (check_one_throws acc f Hf) as [m ->]. exists m. reflexivity.
Qed.

Definition fail_open : SafetyCheck :=
  {| allowed := true; reasons := [];
     flags := {[ "error" := ErrorText "Safety filter check failed" ]} |}.

Lemma checkFilters_normal :
  forallb evaluates (getSafetyFilters w) = true ->
  checkFilters env requestData w =
    {| allowed := negb (existsb denies (getSafetyFilters w));
       reasons := List.map reason_of (List.filter denies (getSafetyFilters w));
       flags := collect (getSafetyFilters w) ∅ |}.
Proof.
  intros H. unfold checkFilters.
  rewrite (check_loop_normal _ _ H). reflexivity.
Qed.

Lemma checkFilters_throws :
  forallb evaluates (getSafetyFilters w) = false ->
  checkFilters env requestData w = fail_open.
Proof.
  intros H. unfold checkFilters.
  destruct (check_loop_throws _ no_objection H) as [m ->]. reflexivity.
Qed.

(** A denial is the verdict of a run in which no evaluation threw. *)
Lemma denied_evaluates :
  allowed (checkFilters env requestData w) = false ->
  forallb evaluates (getSafetyFilters w) = true.
Proof.
  intros H. destruct (forallb evaluates (getSafetyFilters w)) eqn:E; [reflexivity|].
  rewrite (checkFilters_throws E) in H. discriminate.
Qed.

(** The rules of a filter whose evaluation does not throw were read. *)
Lemma evaluates_parses (f : SafetyFilter) : evaluates f = true -> parses f = true.
Proof.
  unfold evaluates, evaluation, parses.
  destruct (JSON_parse (rules f)); [reflexivity|discriminate].
Qed.


Lemma guarded_evaluates (f : SafetyFilter) :
  parses f = true ->
  filter_type f <> "content" -> filter_type f <> "model" ->
  evaluates f = true.
Proof.
  unfold parses, evaluates, evaluation, applyFilter.
  destruct (JSON_parse (rules f)) as [r|m]; [intros _|discriminate].
  intros Hc Hm. cbn [mbind completion_bind].
  destruct (String.eqb_spec (filter_type f) "content") as [E|_]; [contradiction|].
  destruct (String.eqb_spec (filter_type f) "cost") as [_|_]; [destruct r; reflexivity|].
  destruct (String.eqb_spec (filter_type f) "rate") as [_|_]; [destruct r; reflexivity|].
  destruct (String.eqb_spec (filter_type f) "model") as [E|_]; [contradiction|].
  reflexivity.
Qed.





End Verdicts.

(** ** Well-typed rules among the values *)

(** A value that [JSON.parse] reads as the rules [r]: an object with the
    eleven settings, [null] standing for one that is not set. *)
Definition json_list (l : option (list string)) : JsonValue :=
  match l with
  | Some l => JArray (List.map JString l)
  | None => JNull
  end.

Definition json_number (x : option number) : JsonValue :=
  match x with
  | Some x => JNumber x
  | None => JNull
  end.

Definition to_json (r : Rules) : JsonValue :=
  JObject
    [ ("blocked_keywords", json_list (blocked_keywords r));
      ("max_prompt_length", json_number (max_prompt_length r));
      ("check_pii", JBool (check_pii r));
      ("block_pii", JBool (block_pii r));
      ("max_cost_per_call", json_number (max_cost_per_call r));
      ("daily_spending_limit", json_number (daily_spending_limit r));
      ("max_calls_per_minute", json_number (max_calls_per_minute r));
      ("max_calls_per_hour", json_number (max_calls_per_hour r));
      ("max_calls_per_day", json_number (max_calls_per_day r));
      ("allowed_models", json_list (allowed_models r));
      ("blocked_models", json_list (blocked_models r)) ].

Section TypedRules.

Context (env : Env).

Lemma lower_each_strings (l : list string) :
  Untyped.lower_each (List.map JString l) = Normal (List.map toLowerCase l).
Proof.
  induction l as [|s l IH]; [reflexivity|].
  cbn [List.map Untyped.lower_each]. rewrite IH. reflexivity.
Qed.

Lemma includes_model_strings (l : list string) (modelKey : string) :
  existsb (fun item => match item with
                       | JString s => String.eqb modelKey s
                       | _ => false
                       end) (List.map JString l)
  = existsb (String.eqb modelKey) l.
Proof. induction l as [|s l IH]; [reflexivity|]. cbn. rewrite IH. reflexivity. Qed.

(** Case analysis on the tests of a filter. *)
Ltac by_cases :=
  repeat first
    [ reflexivity
    | match goal with
      | |- context [Num.truthy ?x] => destruct (Num.truthy x) eqn:?
      | |- context [if ?c then _ else _] => destruct c eqn:?
      | |- context [match ?c with Some _ => _ | None => _ end] => destruct c eqn:?
      end;
      cbn [mbind completion_bind set_rule Untyped.next Untyped.trying Untyped.caught] in * ].

Lemma content_agrees (r : Rules) (rd : RequestData) :
  Untyped.applyContentFilter env (to_json r) rd = Normal (applyContentFilter env r rd).
Proof.
  unfold Untyped.applyContentFilter, applyContentFilter, to_json.
  cbn [Untyped.setting Untyped.own String.eqb Ascii.eqb Bool.eqb mbind completion_bind].
  destruct r as [bk mpl cp bp mc ds pm ph pd am bm];
    cbn [blocked_keywords max_prompt_length check_pii block_pii].
  assert (forall result : FilterResult,
             match json_number mpl with
             | v =>
                 if Untyped.ToBoolean v then
                   over ← Untyped.gt env (of_nat (String.length (rd_prompt rd))) v;
                   if over : bool then
                     limit ← Untyped.ToString env v;
                     Normal (flag "prompt_too_long" (ABool true)
                               (deny ("Prompt too long: "
                                      +:+ Number_toString env
                                            (of_nat (String.length (rd_prompt rd)))
                                      +:+ " > " +:+ limit) result))
                   else Normal result
                 else Normal result
             end
             = Normal match set_rule mpl with
                      | Some limit =>
                          if gtb (of_nat (String.length (rd_prompt rd))) limit
                          then flag "prompt_too_long" (ABool true)
                                 (deny ("Prompt too long: "
                                        +:+ Number_toString env
                                              (of_nat (String.length (rd_prompt rd)))
                                        +:+ " > " +:+ Number_toString env limit) result)
                          else result
                      | None => result
                      end) as Hlen.
  { intros result. destruct mpl as [x|]; [|reflexivity].
    cbn [json_number Untyped.ToBoolean set_rule Untyped.gt Untyped.ToNumber
         Untyped.ToString mbind completion_bind].
    by_cases. }
  destruct bk as [[|k ks]|];
    cbn [json_list Untyped.ToBoolean Untyped.has_entries List.length Nat.ltb Nat.leb
         Untyped.lower_words listed default mbind completion_bind];
    simpl (Datatypes.length _); cbn [mbind completion_bind].
  - cbn [List.map List.find]. rewrite Hlen. cbn [mbind completion_bind]. by_cases.
  - rewrite lower_each_strings. cbn [mbind completion_bind].
    destruct (List.find (includes _) _) as [word|]; cbn [mbind completion_bind];
      rewrite Hlen; cbn [mbind completion_bind]; by_cases.
  - cbn [List.map List.find]. rewrite Hlen. cbn [mbind completion_bind]. by_cases.
Qed.

Lemma cost_agrees (r : Rules) (rd : RequestData) (w : World) :
  Untyped.applyCostFilter env (to_json r) rd w = applyCostFilter env r rd w.
Proof.
  unfold Untyped.applyCostFilter, applyCostFilter, to_json.
  cbn [Untyped.setting Untyped.own String.eqb Ascii.eqb Bool.eqb].
  destruct (getModelPricing _ _ w) as [pricing|]; [|reflexivity].
  destruct r as [bk mpl cp bp mc ds pm ph pd am bm];
    cbn [max_cost_per_call daily_spending_limit].
  destruct mc as [x|], ds as [y|];
    cbn [json_number Untyped.ToBoolean set_rule Untyped.gt Untyped.ToNumber
         Untyped.ToString mbind completion_bind Untyped.next Untyped.trying
         Untyped.caught];
    by_cases.
Qed.

Lemma rate_agrees (r : Rules) (rd : RequestData) (w : World) :
  Untyped.applyRateFilter env (to_json r) rd w = applyRateFilter env r rd w.
Proof.
  unfold Untyped.applyRateFilter, applyRateFilter, to_json.
  cbn [Untyped.setting Untyped.own String.eqb Ascii.eqb Bool.eqb].
  destruct r as [bk mpl cp bp mc ds pm ph pd am bm];
    cbn [max_calls_per_minute max_calls_per_hour max_calls_per_day].
  destruct pm as [x|], ph as [y|], pd as [z|];
    cbn [json_number Untyped.ToBoolean set_rule Untyped.ge Untyped.ToNumber
         mbind completion_bind Untyped.next Untyped.trying Untyped.caught];
    by_cases.
Qed.

Lemma model_agrees (r : Rules) (rd : RequestData) :
  Untyped.applyModelFilter env (to_json r) rd = Normal (applyModelFilter r rd).
Proof.
  unfold Untyped.applyModelFilter, applyModelFilter, to_json.
  cbn [Untyped.setting Untyped.own String.eqb Ascii.eqb Bool.eqb mbind completion_bind].
  destruct r as [bk mpl cp bp mc ds pm ph pd am bm];
    cbn [allowed_models blocked_models].
  destruct am as [[|a am]|], bm as [[|b bm]|];
    cbn [json_list Untyped.ToBoolean Untyped.has_entries List.length Nat.ltb Nat.leb
         Untyped.includes_model listed default from_option Datatypes.id mbind
         completion_bind List.map];
    simpl (Datatypes.length _); cbn [mbind completion_bind];
    rewrite <- ?(List.map_cons JString), ?includes_model_strings;
    by_cases.
Qed.

(** On a value that is a well-typed rules object the filters of this
    section are those written for [Rules]. *)
Lemma typed_rules_agree (f : SafetyFilter) (r : Rules) (rd : RequestData) (w : World) :
  applyFilter env f (Untyped (to_json r)) rd w = applyFilter env f (Typed r) rd w.
Proof.
  unfold applyFilter.
  rewrite content_agrees, cost_agrees, rate_agrees, model_agrees. reflexivity.
Qed.

End TypedRules.

(** ** The handler of [/track], case by case *)

Section TrackFacts.

Context (env : Env).

Definition bad_request : Response :=
  {| http_status := 400;
     json := JError "Missing required fields: model_provider, model_name, prompt, api_key" |}.

Definition forbidden (rs : list Reason) : Response :=
  {| http_status := 403;
     json := JBlocked "Request blocked by safety filters" rs |}.

(** The usage data of a request that passed the filters, as it stands
    after the [try] and [catch] blocks, and the world at that point. *)
Definition settled (req : Request) (requestData : RequestData)
           (api_key : string) (w : World) : UsageData * World :=
  settle env (clock w) api_key (rd_options requestData)
    (new_usageData req requestData (checkFilters env requestData w)
       (getModelPricing (rd_model_provider requestData)
                        (rd_model_name requestData) w)
       (toISOString env (clock w)))
    w.

Lemma track_rejected (req : Request) (w : World) :
  required_fields (body req) = None ->
  track env req w = (bad_request, w).
Proof. intros H. unfold track. rewrite H. reflexivity. Qed.

Lemma track_denied (req : Request) (w : World) (rd : RequestData) (k : string) :
  required_fields (body req) = Some (rd, k) ->
  allowed (checkFilters env rd w) = false ->
  track env req w = (forbidden (reasons (checkFilters env rd w)), w).
Proof. intros H Ha. unfold track. rewrite H, Ha. reflexivity. Qed.

Lemma track_allowed (req : Request) (w : World) (rd : RequestData) (k : string) :
  required_fields (body req) = Some (rd, k) ->
  allowed (checkFilters env rd w) = true ->
  track env req w =
    let u := fst (settled req rd k w) in
    let w1 := snd (settled req rd k w) in
    (tracked (next_uuid w1) u,
     broadcast (next_uuid w1) u (snd (insertUsageLog env u w1))).
Proof.
  intros H Ha. unfold track. rewrite H, Ha. cbn [negb].
  unfold settled. destruct (settle _ _ _ _ _ _) as [u w1]. reflexivity.
Qed.

(** A call to a provider touches the clock and the record of the calls,
    nothing else. *)
Lemma makeRequest_keeps (provider apiKey model prompt : string)
      (options : Options) (w : World) :
  let w1 := snd (makeRequest env provider apiKey model prompt options w) in
  usage_logs w1 = usage_logs w /\ next_uuid w1 = next_uuid w
  /\ safety_filters w1 = safety_filters w /\ model_pricing w1 = model_pricing w.
Proof.
  unfold makeRequest.
  destruct (negb _); [cbn; auto|].
  destruct (existsb _ PROVIDERS); [|cbn; auto].
  unfold post. destruct (outcome _); cbn; auto.
Qed.

Lemma try_block_world (startTime : Z) (k : string) (o : Options)
      (u : UsageData) (w : World) :
  snd (try_block env startTime k o u w)
  = snd (makeRequest env (model_provider u) k (model_name u) (prompt u) o w).
Proof.
  unfold try_block.
  destruct (makeRequest _ _ _ _ _ _ _) as [[reply|m] w1]; [|reflexivity].
  destruct (checkResponseQuality _ _ _) as [issues|m]; [|reflexivity].
  destruct (Nat.ltb _ _); reflexivity.
Qed.

Lemma settle_world (startTime : Z) (k : string) (o : Options)
      (u : UsageData) (w : World) :
  snd (settle env startTime k o u w)
  = snd (makeRequest env (model_provider u) k (model_name u) (prompt u) o w).
Proof.
  unfold settle. rewrite <- try_block_world with (startTime := startTime).
  destruct (try_block _ _ _ _ _ _) as [[u1 [m|]] w1]; reflexivity.
Qed.

Lemma settled_keeps (req : Request) (rd : RequestData) (k : string) (w : World) :
  usage_logs (snd (settled req rd k w)) = usage_logs w
  /\ next_uuid (snd (settled req rd k w)) = next_uuid w.
Proof.
  unfold settled. rewrite settle_world.
  pose proof (makeRequest_keeps (rd_model_provider rd) k (rd_model_name rd)
                (rd_prompt rd) (rd_options rd) w) as (H1 & H2 & _).
  cbn [new_usageData model_provider model_name prompt]. auto.
Qed.

(** The row a request that passed the filters adds to [usage_logs]. *)
Definition written (req : Request) (rd : RequestData) (k : string) (w : World)
  : UsageLog :=
  {| id := next_uuid w;
     row := fst (settled req rd k w);
     created_at := CURRENT_TIMESTAMP env (clock (snd (settled req rd k w))) |}.

(** A request that passed the filters: one row is appended, and the
    response reports that row. *)
Lemma track_allowed_writes (req : Request) (w : World) (rd : RequestData)
      (k : string) :
  required_fields (body req) = Some (rd, k) ->
  allowed (checkFilters env rd w) = true ->
  fst (track env req w) = tracked (next_uuid w) (fst (settled req rd k w))
  /\ usage_logs (snd (track env req w)) = (usage_logs w ++ [written req rd k w])%list.
Proof.
  intros H Ha. rewrite (track_allowed req w rd k H Ha). cbn zeta.
  destruct (settled_keeps req rd k w) as [Hl Hn].
  cbn [fst snd broadcast insertUsageLog usage_logs].
  rewrite Hn, Hl. split; reflexivity.
Qed.

End TrackFacts.

(** ** Concrete requests and worlds *)

Module Scenario.

(** A host whose patterns match nothing, whose clock reads one fixed
    instant, and whose provider endpoints all behave as [provider]. *)
Definition host (provider : ProviderCall -> nat -> HttpOutcome) : Env :=
  {| regexp_test := fun _ _ => false;
     regexp_count := fun _ _ => 0%nat;
     regexp_split := fun _ s => [s];
     Number_toString := fun _ => "n";
     toFixed6 := fun _ => "n";
     StringToNumber := fun _ => NaN;
     toISOString := fun _ => "2024-05-01T10:00:00.000Z";
     CURRENT_TIMESTAMP := fun _ => "2024-05-01 10:00:00";
     sql_DATE := fun s => Some (String.substring 0 10 s);
     sql_SUM := fun l => match l with
                         | [] => None
                         | _ => Some (fold_left add l zero)
                         end;
     axios_post := provider |}.

Definition replies (text : string) : ProviderCall -> nat -> HttpOutcome :=
  fun _ _ =>
    {| elapsed := 120;
       outcome := Normal {| ai_response := Some text;
                            ai_model := Some "gpt-3.5-turbo-0125";
                            ai_finish_reason := Some "stop" |} |}.

Definition refuses (message : string) : ProviderCall -> nat -> HttpOutcome :=
  fun _ _ => {| elapsed := 80; outcome := Throw message |}.

Definition gpt35 : ModelPricing :=
  {| mp_provider := "openai"; mp_model_name := "gpt-3.5-turbo";
     input_cost_per_1k_tokens := dec 1 1000;
     output_cost_per_1k_tokens := dec 2 1000;
     effective_date := "2024-01-01 00:00:00"; mp_is_active := true |}.

(** A content filter that blocks the word "bomb". *)
Definition no_bombs : SafetyFilter :=
  {| sf_name := "No bombs"; filter_type := "content";
     rules := Serialized
                {| blocked_keywords := Some ["bomb"]; max_prompt_length := None;
                   check_pii := false; block_pii := false;
                   max_cost_per_call := None; daily_spending_limit := None;
                   max_calls_per_minute := None; max_calls_per_hour := None;
                   max_calls_per_day := None; allowed_models := None;
                   blocked_models := None |};
     sf_is_active := true |}.

(** The default cost filter of the database. *)
Definition cost_alert : SafetyFilter :=
  {| sf_name := "Cost Alert"; filter_type := "cost";
     rules := Serialized
                {| blocked_keywords := None; max_prompt_length := None;
                   check_pii := false; block_pii := false;
                   max_cost_per_call := Some (of_Z 1); daily_spending_limit := None;
                   max_calls_per_minute := None; max_calls_per_hour := None;
                   max_calls_per_day := None; allowed_models := None;
                   blocked_models := None |};
     sf_is_active := true |}.

(** A filter whose rules are not JSON. *)
Definition unreadable : SafetyFilter :=
  {| sf_name := "Broken"; filter_type := "rate";
     rules := NotJSON "{max_calls_per_hour: 1000";
     sf_is_active := true |}.

(** A content filter created with a word where a list of words is
    expected: [{"blocked_keywords": "weapon"}]. *)
Definition no_weapons : SafetyFilter :=
  {| sf_name := "No weapons"; filter_type := "content";
     rules := Stringified (JObject [ ("blocked_keywords", JString "weapon") ]);
     sf_is_active := true |}.

(** A model filter whose rules were updated to [null]. *)
Definition emptied : SafetyFilter :=
  {| sf_name := "Models"; filter_type := "model";
     rules := Stringified JNull;
     sf_is_active := true |}.

Definition world (filters : list SafetyFilter) (logs : list UsageLog) : World :=
  {| usage_logs := logs; safety_filters := filters; model_pricing := [gpt35];
     clock := 1714557600000; next_uuid := List.length logs;
     provider_calls := []; ws_messages := [] |}.

Definition ask_body (prompt : string) : Body :=
  {| b_user_id := Some "u1"; b_team_id := None; b_session_id := None;
     b_model_provider := Some "openai"; b_model_name := Some "gpt-3.5-turbo";
     b_prompt := Some prompt; b_api_key := Some "sk-0123456789abcdef";
     b_options := None |}.

Definition ask (prompt : string) : Request :=
  {| method := POST; path := path_track; body := ask_body prompt;
     user_agent := Some "curl/8.5.0"; ip := "127.0.0.1" |}.

(** What [checkFilters] is given for [ask prompt]. *)
Definition asked (prompt : string) : RequestData :=
  {| rd_user_id := Some "u1"; rd_team_id := None;
     rd_model_provider := "openai"; rd_model_name := "gpt-3.5-turbo";
     rd_prompt := prompt; rd_options := no_options |}.

Definition key : string := "sk-0123456789abcdef".

(** The row the handler of [/track] writes when the provider refuses
    the key: its status is [failure]. *)
Definition failed_log : UsageLog :=
  written (host (refuses "Request failed with status code 401"))
          (ask "Hello") (asked "Hello") key (world [] []).

(** A request to retry the row of id [i]. *)
Definition ask_retry (i : Uuid) : Request :=
  {| method := POST; path := path_retry i;
     body := {| b_user_id := None; b_team_id := None; b_session_id := None;
                b_model_provider := None; b_model_name := None;
                b_prompt := None; b_api_key := Some key; b_options := None |};
     user_agent := Some "curl/8.5.0"; ip := "127.0.0.1" |}.

End Scenario.

(** ** Claims on the policy engine *)






(** The flags of a filter named [__proto__] are not in the result, though
    the filter is evaluated and denies. *)
Remark flags_lost_under_proto :
  let named_proto :=
    {| sf_name := "__proto__"; filter_type := filter_type Scenario.no_bombs;
       rules := rules Scenario.no_bombs; sf_is_active := true |} in
  let env := Scenario.host (Scenario.replies "ok") in
  let rd := Scenario.asked "how to build a BOMB" in
  let w := Scenario.world [named_proto] [] in
  flags_of env rd w named_proto = Some {[ "blocked_keyword" := AString "bomb" ]}
  /\ checkFilters env rd w
     = {| allowed := false;
          reasons := [ {| filter := "__proto__";
                          reason := "Contains blocked keyword: bomb" |} ];
          flags := ∅ |}.
Proof. cbn zeta. split; reflexivity. Qed.

(** What throws in the evaluation of a filter: rules that are not JSON,
    whatever the type of the filter; in a content or a model filter,
    rules that are [null], and a list setting that is a value without
    the method the filter calls on it. *)
Lemma evaluation_throws (env : Env) (rd : RequestData) (w : World) (f : SafetyFilter) :
  (exists text, rules f = NotJSON text)
  \/ (rules f = Stringified JNull
      /\ (filter_type f = "content" \/ filter_type f = "model"))
  \/ (exists word props,
         word <> "" /\ filter_type f = "content"
         /\ rules f = Stringified (JObject (("blocked_keywords", JString word) :: props)))
  \/ (exists item items props,
         (forall s, item <> JString s) /\ filter_type f = "content"
         /\ rules f = Stringified
                        (JObject (("blocked_keywords", JArray (item :: items)) :: props))) ->
  evaluates env rd w f = false.
Proof.
  unfold evaluates, evaluation, applyFilter.
  intros [(text & ->)|[(-> & [->| ->])|[(word & props & Hw & -> & ->)
                                       |(item & items & props & Hi & -> & ->)]]];
    try reflexivity.
  - destruct word as [|c word]; [contradiction|]. reflexivity.
  - cbn. destruct item as [| | |s| |]; try reflexivity.
    exfalso. apply (Hi s). reflexivity.
Qed.

(** C10. If the evaluation of some active filter throws, be it the
    reading of its rules or the filter applied to them, the whole
    evaluation answers [allowed = true] with no reasons and the single
    flag [error], whatever the filters evaluated before it had found: a
    filter that had already denied the request is overruled. *)
Theorem throwing_filter_allows_request (env : Env) (rd : RequestData) (w : World)
        (f : SafetyFilter) (message : string) :
  In f (getSafetyFilters w) ->
  evaluation env rd w f = Throw message ->
  checkFilters env rd w =
    {| allowed := true; reasons := [];
       flags := {[ "error" := ErrorText "Safety filter check failed" ]} |}
  /\ forall g, In g (getSafetyFilters w) -> denies env rd w g = true ->
               allowed (checkFilters env rd w) = true.
Proof.
  intros Hin Hf.
  assert (forallb (evaluates env rd w) (getSafetyFilters w) = false) as H.
  { destruct (forallb _ _) eqn:E; [|reflexivity].
    rewrite forallb_forall in E. specialize (E f Hin).
    unfold evaluates in E. rewrite Hf in E. discriminate. }
  rewrite (checkFilters_throws env rd w H). split; [reflexivity|].
  intros; reflexivity.
Qed.

(** The filter that blocks "bomb" has denied the prompt when the next
    filter, whose list of words is a word, throws; and likewise when the
    next filter is one whose rules are not JSON. *)
Lemma throwing_filter_allows_request_witness :
  let env := Scenario.host (Scenario.replies "ok") in
  let rd := Scenario.asked "a bomb" in
  (denies env rd (Scenario.world [Scenario.no_bombs; Scenario.no_weapons] [])
          Scenario.no_bombs = true
   /\ allowed (checkFilters env rd
                 (Scenario.world [Scenario.no_bombs; Scenario.no_weapons] [])) = true)
  /\ (denies env rd (Scenario.world [Scenario.no_bombs; Scenario.unreadable] [])
             Scenario.no_bombs = true
      /\ allowed (checkFilters env rd
                    (Scenario.world [Scenario.no_bombs; Scenario.unreadable] [])) = true).
Proof.
  cbn zeta. split; (split; [reflexivity|]).
  - destruct (throwing_filter_allows_request
                (Scenario.host (Scenario.replies "ok")) (Scenario.asked "a bomb")
                (Scenario.world [Scenario.no_bombs; Scenario.no_weapons] [])
                Scenario.no_weapons
                "rules.blocked_keywords.map is not a function") as [H _].
    + right; left; reflexivity.
    + reflexivity.
    + rewrite H. reflexivity.
  - destruct (throwing_filter_allows_request
                (Scenario.host (Scenario.replies "ok")) (Scenario.asked "a bomb")
                (Scenario.world [Scenario.no_bombs; Scenario.unreadable] [])
                Scenario.unreadable "Unexpected token in JSON") as [H _].
    + right; left; reflexivity.
    + reflexivity.
    + rewrite H. reflexivity.
Defined.

(** ** The [try] and [catch] blocks, case by case *)

Section SettleFacts.

Context (env : Env).

Variables (startTime : Z) (k : string) (o : Options) (u : UsageData) (w : World).

Let request := makeRequest env (model_provider u) k (model_name u) (prompt u) o w.

(** The provider call throws: the [catch] block works on the object as
    it was created. *)
Lemma settle_provider_throws (message : string) :
  fst request = Throw message ->
  fst (settle env startTime k o u w)
  = with_error u message (since startTime (snd request)).
Proof.
  unfold settle, try_block. subst request. cbn zeta.
  destruct (makeRequest _ _ _ _ _ _ _) as [[reply|m] w1]; cbn [fst snd]; [discriminate|].
  intros [= ->]. reflexivity.
Qed.

(** The provider replies and the quality check completes. *)
Lemma settle_provider_replies (reply : AiResponse) (issues : list string) :
  fst request = Normal reply ->
  checkResponseQuality env (prompt u) (ai_response reply) = Normal issues ->
  fst (settle env startTime k o u w)
  = let replied := with_reply u reply (since startTime (snd request)) in
    if Nat.ltb 0 (List.length issues)
    then with_quality_issues replied issues
    else replied.
Proof.
  unfold settle, try_block. subst request. cbn zeta.
  destruct (makeRequest _ _ _ _ _ _ _) as [[reply'|m] w1]; cbn [fst snd]; [|discriminate].
  intros [= ->]. cbn [with_reply prompt]. intros ->.
  destruct (Nat.ltb _ _); reflexivity.
Qed.

(** The provider replies and the quality check throws: the [catch]
    block works on the object the [try] block had already filled in. *)
Lemma settle_quality_throws (reply : AiResponse) (message : string) :
  fst request = Normal reply ->
  checkResponseQuality env (prompt u) (ai_response reply) = Throw message ->
  fst (settle env startTime k o u w)
  = with_error (with_reply u reply (since startTime (snd request))) message
               (since startTime (snd request)).
Proof.
  unfold settle, try_block. subst request. cbn zeta.
  destruct (makeRequest _ _ _ _ _ _ _) as [[reply'|m] w1]; cbn [fst snd]; [|discriminate].
  intros [= ->]. cbn [with_reply prompt]. intros ->. reflexivity.
Qed.

(** The three cases above are all there is. *)
Lemma settle_cases :
  (exists message,
      fst request = Throw message
      /\ fst (settle env startTime k o u w)
         = with_error u message (since startTime (snd request)))
  \/ (exists reply issues,
         fst request = Normal reply
         /\ checkResponseQuality env (prompt u) (ai_response reply) = Normal issues
         /\ fst (settle env startTime k o u w)
            = if Nat.ltb 0 (List.length issues)
              then with_quality_issues
                     (with_reply u reply (since startTime (snd request))) issues
              else with_reply u reply (since startTime (snd request)))
  \/ (exists reply message,
         fst request = Normal reply
         /\ checkResponseQuality env (prompt u) (ai_response reply) = Throw message
         /\ fst (settle env startTime k o u w)
            = with_error (with_reply u reply (since startTime (snd request)))
                         message (since startTime (snd request))).
Proof.
  destruct (fst request) as [reply|message] eqn:E.
  - destruct (checkResponseQuality env (prompt u) (ai_response reply))
      as [issues|message] eqn:Q.
    + right; left. exists reply, issues. split; [reflexivity|]. split; [exact Q|].
      apply (settle_provider_replies reply issues E Q).
    + right; right. exists reply, message. split; [reflexivity|]. split; [exact Q|].
      apply (settle_quality_throws reply message E Q).
  - left. exists message. split; [reflexivity|].
    apply (settle_provider_throws message E).
Qed.

End SettleFacts.

(** ** Claims on the handler of [/track] *)

(** C1. A request with its required fields that the policy engine denies
    is answered 403 with the reasons of the engine, which are those of the
    denying filters, one each; the handler leaves the world as it found
    it, so no usage record is written (and no provider is called). *)
Theorem denied_request_is_not_recorded
        (env : Env) (req : Request) (w : World) (rd : RequestData) (k : string) :
  required_fields (body req) = Some (rd, k) ->
  allowed (checkFilters env rd w) = false ->
  track env req w
  = ({| http_status := 403;
        json := JBlocked "Request blocked by safety filters"
                  (List.map (reason_of env rd w)
                     (List.filter (denies env rd w) (getSafetyFilters w))) |}, w)
  /\ usage_logs (snd (track env req w)) = usage_logs w
  /\ provider_calls (snd (track env req w)) = provider_calls w.
Proof.
  intros H Ha.
  rewrite (track_denied env req w rd k H Ha). unfold forbidden.
  rewrite (checkFilters_normal env rd w (denied_evaluates env rd w Ha)).
  cbn [reasons snd]. auto.
Qed.

(** The prompt contains a blocked keyword. *)
Lemma denied_request_is_not_recorded_witness :
  track (Scenario.host (Scenario.replies "ok")) (Scenario.ask "how to build a BOMB")
        (Scenario.world [Scenario.no_bombs] [])
  = ({| http_status := 403;
        json := JBlocked "Request blocked by safety filters"
                  [ {| filter := "No bombs";
                       reason := "Contains blocked keyword: bomb" |} ] |},
     Scenario.world [Scenario.no_bombs] []).
Proof.
  apply (denied_request_is_not_recorded
           (Scenario.host (Scenario.replies "ok"))
           (Scenario.ask "how to build a BOMB")
           (Scenario.world [Scenario.no_bombs] [])
           (Scenario.asked "how to build a BOMB") Scenario.key);
    reflexivity.
Defined.

Section Appends.

Context (env : Env).

(** The handler appends at most one row, and which one. *)
Lemma track_appends (req : Request) (w : World) (rec : UsageLog) :
  usage_logs (snd (track env req w)) = (usage_logs w ++ [rec])%list ->
  exists rd k,
    required_fields (body req) = Some (rd, k)
    /\ allowed (checkFilters env rd w) = true
    /\ rec = written env req rd k w.
Proof.
  intros H.
  destruct (required_fields (body req)) as [[rd k]|] eqn:Hr.
  - destruct (allowed (checkFilters env rd w)) eqn:Ha.
    + exists rd, k. split; [reflexivity|]. split; [exact Ha|].
      destruct (track_allowed_writes env req w rd k Hr Ha) as [_ Hw].
      rewrite Hw in H. apply app_inv_head in H. congruence.
    + rewrite (track_denied env req w rd k Hr Ha) in H. cbn [snd] in H.
      symmetry in H. rewrite <- (app_nil_r (usage_logs w)) in H at 2.
      apply app_inv_head in H. discriminate.
  - rewrite (track_rejected env req w Hr) in H. cbn [snd] in H.
    symmetry in H. rewrite <- (app_nil_r (usage_logs w)) in H at 2.
    apply app_inv_head in H. discriminate.
Qed.

End Appends.

Lemma most_recent_In (rows : list ModelPricing) (r : ModelPricing) :
  most_recent rows = Some r -> In r rows.
Proof.
  unfold most_recent.
  assert (forall acc,
             fold_left
               (fun best r0 =>
                  match best with
                  | None => Some r0
                  | Some b =>
                      if String.ltb (effective_date b) (effective_date r0)
                      then Some r0 else Some b
                  end) rows acc = Some r ->
             acc = Some r \/ In r rows) as H.
  { induction rows as [|r0 rows IH]; intros acc H; [left; exact H|].
    cbn [fold_left] in H. apply IH in H. destruct H as [H|H]; [|right; right; exact H].
    destruct acc as [b|].
    - destruct (String.ltb _ _); [right; left; congruence|left; exact H].
    - right; left; congruence. }
  intros Hr. destruct (H None Hr) as [Hn|Hi]; [discriminate|exact Hi].
Qed.


Section Outcomes.

Context (env : Env) (req : Request) (w : World) (rd : RequestData) (k : string).

Hypothesis Hfields : required_fields (body req) = Some (rd, k).
Hypothesis Hallowed : allowed (checkFilters env rd w) = true.

Let request :=
  makeRequest env (rd_model_provider rd) k (rd_model_name rd) (rd_prompt rd)
              (rd_options rd) w.

Let fresh : UsageData :=
  new_usageData req rd (checkFilters env rd w)
    (getModelPricing (rd_model_provider rd) (rd_model_name rd) w)
    (toISOString env (clock w)).

Lemma settled_cases :
  (exists message,
      fst request = Throw message
      /\ fst (settled env req rd k w)
         = with_error fresh message (since (clock w) (snd request)))
  \/ (exists reply issues,
         fst request = Normal reply
         /\ checkResponseQuality env (rd_prompt rd) (ai_response reply) = Normal issues
         /\ fst (settled env req rd k w)
            = if Nat.ltb 0 (List.length issues)
              then with_quality_issues
                     (with_reply fresh reply (since (clock w) (snd request))) issues
              else with_reply fresh reply (since (clock w) (snd request)))
  \/ (exists reply message,
         fst request = Normal reply
         /\ checkResponseQuality env (rd_prompt rd) (ai_response reply) = Throw message
         /\ fst (settled env req rd k w)
            = with_error (with_reply fresh reply (since (clock w) (snd request)))
                         message (since (clock w) (snd request))).
Proof.
  exact (settle_cases env (clock w) k (rd_options rd) fresh w).
Qed.

Lemma settled_provider_throws (message : string) :
  fst request = Throw message ->
  fst (settled env req rd k w)
  = with_error fresh message (since (clock w) (snd request)).
Proof.
  exact (settle_provider_throws env (clock w) k (rd_options rd) fresh w message).
Qed.

Lemma settled_provider_replies (reply : AiResponse) (issues : list string) :
  fst request = Normal reply ->
  checkResponseQuality env (rd_prompt rd) (ai_response reply) = Normal issues ->
  fst (settled env req rd k w)
  = if Nat.ltb 0 (List.length issues)
    then with_quality_issues
           (with_reply fresh reply (since (clock w) (snd request))) issues
    else with_reply fresh reply (since (clock w) (snd request)).
Proof.
  exact (settle_provider_replies env (clock w) k (rd_options rd) fresh w reply issues).
Qed.


Lemma written_appended :
  usage_logs (snd (track env req w)) = (usage_logs w ++ [written env req rd k w])%list.
Proof. exact (proj2 (track_allowed_writes env req w rd k Hfields Hallowed)). Qed.

Lemma written_reported :
  fst (track env req w) = tracked (id (written env req rd k w)) (row (written env req rd k w)).
Proof. exact (proj1 (track_allowed_writes env req w rd k Hfields Hallowed)). Qed.

End Outcomes.

(** A response more than five times as long as the prompt is flagged,
    whatever else it contains. *)
Lemma long_response_is_flagged (env : Env) (prompt text : string) :
  (String.length prompt * 5 < String.length text)%nat ->
  exists issues,
    checkResponseQuality env prompt (Some text)
    = Normal ("potential_hallucination" :: issues).
Proof.
  intros H. unfold checkResponseQuality, checkForHallucination.
  apply Nat.ltb_lt in H. rewrite H. unfold push_if.
  destruct (checkForRepetition env text), (checkForIncompleteResponse env text),
    (checkForInappropriateContent env text); eexists; reflexivity.
Qed.

(** C4. When the call to the provider throws, for a request with its
    required fields that the filters allow, the handler writes exactly one
    row, with [status = failure], the message of the error, [total_cost =
    0] and [total_tokens = 0], and answers 200 with the usual body. *)
Theorem provider_failure_is_recorded
        (env : Env) (req : Request) (w : World) (rd : RequestData) (k : string)
        (message : string) :
  required_fields (body req) = Some (rd, k) ->
  allowed (checkFilters env rd w) = true ->
  fst (makeRequest env (rd_model_provider rd) k (rd_model_name rd) (rd_prompt rd)
                   (rd_options rd) w) = Throw message ->
  exists rec rt,
    usage_logs (snd (track env req w)) = (usage_logs w ++ [rec])%list
    /\ status (row rec) = failure
    /\ error_message (row rec) = Some message
    /\ total_cost (row rec) = zero
    /\ total_tokens (row rec) = zero
    /\ fst (track env req w)
       = {| http_status := 200;
            json := JTracked (id rec) None
                      {| u_input_tokens := zero; u_output_tokens := zero;
                         u_total_tokens := zero; u_cost := zero |}
                      failure rt (flags (checkFilters env rd w)) |}.
Proof.
  intros Hf Ha Hm.
  exists (written env req rd k w).
  exists (since (clock w)
            (snd (makeRequest env (rd_model_provider rd) k (rd_model_name rd)
                    (rd_prompt rd) (rd_options rd) w))).
  split; [exact (written_appended env req w rd k Hf Ha)|].
  rewrite (written_reported env req w rd k Hf Ha).
  unfold written. cbn [row id].
  rewrite (settled_provider_throws env req w rd k message Hm).
  repeat split; reflexivity.
Qed.

(** The provider refuses the key. *)
Lemma provider_failure_is_recorded_witness :
  exists rec rt,
    usage_logs
      (snd (track (Scenario.host (Scenario.refuses "Request failed with status code 401"))
              (Scenario.ask "Hello") (Scenario.world [] [])))
    = [rec]
    /\ status (row rec) = failure
    /\ error_message (row rec)
       = Some "openai API error: Request failed with status code 401"
    /\ total_cost (row rec) = zero
    /\ total_tokens (row rec) = zero
    /\ fst (track (Scenario.host (Scenario.refuses "Request failed with status code 401"))
              (Scenario.ask "Hello") (Scenario.world [] []))
       = {| http_status := 200;
            json := JTracked (id rec) None
                      {| u_input_tokens := zero; u_output_tokens := zero;
                         u_total_tokens := zero; u_cost := zero |}
                      failure rt ∅ |}.
Proof.
  exact (provider_failure_is_recorded
           (Scenario.host (Scenario.refuses "Request failed with status code 401"))
           (Scenario.ask "Hello") (Scenario.world [] [])
           (Scenario.asked "Hello") Scenario.key
           "openai API error: Request failed with status code 401"
           eq_refl eq_refl eq_refl).
Defined.

(** What the quality check does to a request with its required fields
    that the filters allow: the request is answered 200 and one row is
    written, and
    - when the call to the provider throws, the row has [status =
      failure] and the flags of the filters only: the check has not run;
    - when the provider replies and the check raises issues, the row has
      [status = hallucination], the issues under [quality_issues], the
      response, and the cost of the tokens counted;
    - when the provider replies and the check raises none, the row has
      [status = success];
    - a reply more than five times as long as the prompt gives [status =
      hallucination]. *)
Definition quality_outcome (env : Env) (req : Request) (w : World)
           (rd : RequestData) (k : string) : Prop :=
  let request :=
    makeRequest env (rd_model_provider rd) k (rd_model_name rd) (rd_prompt rd)
                (rd_options rd) w in
  let rec := written env req rd k w in
  usage_logs (snd (track env req w)) = (usage_logs w ++ [rec])%list
  /\ http_status (fst (track env req w)) = 200%nat
  /\ (forall message,
         fst request = Throw message ->
         status (row rec) = failure
         /\ safety_flags (row rec) = flags (checkFilters env rd w))
  /\ (forall reply issues,
         fst request = Normal reply ->
         checkResponseQuality env (rd_prompt rd) (ai_response reply) = Normal issues ->
         issues <> [] ->
         status (row rec) = hallucination
         /\ safety_flags (row rec) !! "quality_issues" = Some (Issues issues)
         /\ response (row rec) = ai_response reply
         /\ total_cost (row rec)
            = add (mul (countTokens (Some (rd_prompt rd)) (rd_model_provider rd))
                       (cost_per_input_token (row rec)))
                  (mul (countTokens (ai_response reply) (rd_model_provider rd))
                       (cost_per_output_token (row rec))))
  /\ (forall reply,
         fst request = Normal reply ->
         checkResponseQuality env (rd_prompt rd) (ai_response reply) = Normal [] ->
         status (row rec) = success)
  /\ (forall reply text,
         fst request = Normal reply ->
         ai_response reply = Some text ->
         (String.length (rd_prompt rd) * 5 < String.length text)%nat ->
         status (row rec) = hallucination).

(** C5. The quality check runs only on the reply of a provider; any issue
    it raises turns the status of the row from [success] into
    [hallucination], while the request is still answered 200 and the row
    keeps the response and its cost; a reply more than five times as long
    as the prompt is such a case (with or without a disclaimer in it). *)
Theorem quality_issues_escalate
        (env : Env) (req : Request) (w : World) (rd : RequestData) (k : string) :
  required_fields (body req) = Some (rd, k) ->
  allowed (checkFilters env rd w) = true ->
  quality_outcome env req w rd k.
Proof.
  intros Hf Ha. unfold quality_outcome. cbn zeta.
  split; [exact (written_appended env req w rd k Hf Ha)|].
  split; [rewrite (written_reported env req w rd k Hf Ha); reflexivity|].
  unfold written. cbn [row].
  assert (forall reply issues,
             fst (makeRequest env (rd_model_provider rd) k (rd_model_name rd)
                    (rd_prompt rd) (rd_options rd) w) = Normal reply ->
             checkResponseQuality env (rd_prompt rd) (ai_response reply) = Normal issues ->
             issues <> [] ->
             fst (settled env req rd k w)
             = with_quality_issues
                 (with_reply
                    (new_usageData req rd (checkFilters env rd w)
                       (getModelPricing (rd_model_provider rd) (rd_model_name rd) w)
                       (toISOString env (clock w)))
                    reply
                    (since (clock w)
                       (snd (makeRequest env (rd_model_provider rd) k (rd_model_name rd)
                               (rd_prompt rd) (rd_options rd) w))))
                 issues) as Hflagged.
  { intros reply issues Hr Hq Hne.
    rewrite (settled_provider_replies env req w rd k reply issues Hr Hq).
    destruct issues; [contradiction|reflexivity]. }
  split; [|split; [|split]].
  - intros message Hm.
    rewrite (settled_provider_throws env req w rd k message Hm).
    split; reflexivity.
  - intros reply issues Hr Hq Hne.
    rewrite (Hflagged reply issues Hr Hq Hne).
    cbn [status safety_flags response total_cost with_quality_issues with_reply
         cost_per_input_token cost_per_output_token new_usageData prompt
         model_provider].
    repeat split; try reflexivity. apply lookup_insert_eq.
  - intros reply Hr Hq.
    rewrite (settled_provider_replies env req w rd k reply [] Hr Hq). reflexivity.
  - intros reply text Hr Ht Hlen.
    destruct (long_response_is_flagged env (rd_prompt rd) text Hlen) as [issues Hq].
    rewrite <- Ht in Hq.
    rewrite (Hflagged reply _ Hr Hq); [reflexivity|discriminate].
Qed.

(** The provider answers "Hello" with a text of forty-three characters,
    more than five times the five of the prompt. *)
Lemma quality_issues_escalate_witness :
  quality_outcome
    (Scenario.host (Scenario.replies "Hi there, how are you doing today my friend"))
    (Scenario.ask "Hello") (Scenario.world [] []) (Scenario.asked "Hello") Scenario.key
  /\ status
       (row (written
               (Scenario.host (Scenario.replies "Hi there, how are you doing today my friend"))
               (Scenario.ask "Hello") (Scenario.asked "Hello") Scenario.key
               (Scenario.world [] [])))
     = hallucination.
Proof.
  split.
  - apply quality_issues_escalate; reflexivity.
  - reflexivity.
Defined.










(** ** Validation *)

Section Validation.

Context (env : Env).

(** A required field is missing when the body does not have it or has
    the empty string for it. *)
Definition missing (x : option string) : Prop := x = None \/ x = Some "".

Lemma required_missing (x : option string) : missing x -> required x = None.
Proof. intros [->| ->]; reflexivity. Qed.

(** A request that lacks a required field is answered 400; the handler
    leaves the world as it found it: no row is written, no provider is
    called. *)
Lemma missing_field_is_rejected (req : Request) (w : World) :
  missing (b_model_provider (body req)) \/ missing (b_model_name (body req))
  \/ missing (b_prompt (body req)) \/ missing (b_api_key (body req)) ->
  track env req w = (bad_request, w).
Proof.
  intros H. apply track_rejected. unfold required_fields.
  destruct H as [H|[H|[H|H]]]; rewrite (required_missing _ H);
    repeat match goal with |- context [match required ?x with _ => _ end] =>
                             destruct (required x) end; reflexivity.
Qed.

(** Nothing else is asked of a request: a body with the four fields,
    none of them empty, passes, whatever the length of the prompt. *)
Lemma four_fields_suffice (b : Body) (p m t k : string) :
  b_model_provider b = Some p -> b_model_name b = Some m ->
  b_prompt b = Some t -> b_api_key b = Some k ->
  p <> "" -> m <> "" -> t <> "" -> k <> "" ->
  required_fields b
  = Some ({| rd_user_id := b_user_id b; rd_team_id := b_team_id b;
             rd_model_provider := p; rd_model_name := m; rd_prompt := t;
             rd_options := default no_options (b_options b) |}, k).
Proof.
  intros Hp Hm Ht Hk ? ? ? ?. unfold required_fields.
  rewrite Hp, Hm, Ht, Hk.
  destruct p, m, t, k; try contradiction; reflexivity.
Qed.

Lemma no_filters_no_objection (rd : RequestData) (w : World) :
  safety_filters w = [] -> checkFilters env rd w = no_objection.
Proof.
  intros H. unfold checkFilters, getSafetyFilters. rewrite H. reflexivity.
Qed.

(** A request to one of the three providers is posted. *)
Lemma makeRequest_posts (provider apiKey model prompt : string)
      (options : Options) (w : World) :
  existsb (String.eqb (toLowerCase provider)) PROVIDERS = true ->
  List.length
    (provider_calls (snd (makeRequest env provider apiKey model prompt options w)))
  = S (List.length (provider_calls w)).
Proof.
  intros H. unfold makeRequest. rewrite H. cbn [orb negb].
  unfold post. destruct (outcome _); cbn [snd provider_calls];
    rewrite length_app; cbn; lia.
Qed.

End Validation.

(** A prompt of 50001 characters. *)
Definition long_prompt : string := N.iter 50001 (String "a"%char) "".

(** C9, at a prompt one character over the limit of [schemas.usageTrack].
    The handler checks that the four fields are there and nothing else:
    the request is answered 200, a provider is called and a row is
    written. *)
Theorem overlong_prompt_is_tracked :
  N.of_nat (String.length long_prompt) = 50001%N
  /\ http_status
       (fst (track (Scenario.host (Scenario.replies "ok")) (Scenario.ask long_prompt)
               (Scenario.world [] []))) = 200%nat
  /\ List.length
       (usage_logs
          (snd (track (Scenario.host (Scenario.replies "ok")) (Scenario.ask long_prompt)
                  (Scenario.world [] [])))) = 1%nat
  /\ List.length
       (provider_calls
          (snd (track (Scenario.host (Scenario.replies "ok")) (Scenario.ask long_prompt)
                  (Scenario.world [] [])))) = 1%nat.
Proof.
  set (env := Scenario.host (Scenario.replies "ok")).
  set (w := Scenario.world [] []).
  assert (N.of_nat (String.length long_prompt) = 50001%N) as Hlen
      by (vm_compute; reflexivity).
  assert (long_prompt <> "") as Hne by (intros E; rewrite E in Hlen; discriminate).
  assert (required_fields (body (Scenario.ask long_prompt))
          = Some (Scenario.asked long_prompt, Scenario.key)) as Hf.
  { apply (four_fields_suffice (body (Scenario.ask long_prompt))
             "openai" "gpt-3.5-turbo" long_prompt Scenario.key);
      try reflexivity; try discriminate; exact Hne. }
  assert (allowed (checkFilters env (Scenario.asked long_prompt) w) = true) as Ha.
  { rewrite (no_filters_no_objection env _ w eq_refl). reflexivity. }
  split; [exact Hlen|].
  split; [rewrite (written_reported env _ w _ _ Hf Ha); reflexivity|].
  split; [rewrite (written_appended env _ w _ _ Hf Ha); reflexivity|].
  rewrite (track_allowed env _ w _ _ Hf Ha). cbn zeta.
  cbn [snd broadcast insertUsageLog provider_calls].
  unfold settled. rewrite settle_world.
  cbn [new_usageData model_provider model_name prompt].
  rewrite makeRequest_posts; reflexivity.
Qed.

(** ** Retry *)

Section Retry.

Context (env : Env).

(** The [retry_count] of a row the handler of [/track] writes is the
    literal 0 the object is created with. *)
Lemma track_retry_count (req : Request) (w : World) (rec : UsageLog) :
  usage_logs (snd (track env req w)) = (usage_logs w ++ [rec])%list ->
  retry_count (row rec) = zero.
Proof.
  intros H. destruct (track_appends env req w rec H) as (rd & k & Hf & Ha & ->).
  unfold written. cbn [row].
  destruct (settled_cases env req w rd k)
    as [(m & _ & ->)|[(reply & issues & _ & _ & ->)|(reply & m & _ & _ & ->)]];
    try destruct (Nat.ltb _ _); reflexivity.
Qed.

(** The options of the request go to the metadata of the row. *)
Lemma track_metadata_options (req : Request) (w : World) (rd : RequestData)
      (k : string) :
  md_options (metadata (row (written env req rd k w))) = rd_options rd.
Proof.
  unfold written. cbn [row].
  destruct (settled_cases env req w rd k)
    as [(m & _ & ->)|[(reply & issues & _ & _ & ->)|(reply & m & _ & _ & ->)]];
    try destruct (Nat.ltb _ _); reflexivity.
Qed.

(** A dispatch to [/retry/:id] ends in that handler or does not end;
    either way the world is as before. *)
Lemma retry_keeps_world (i : Uuid) (fuel : nat) (req : Request) (w : World)
      (r : Response) (w' : World) :
  method req = POST -> path req = path_retry i ->
  router_handle env fuel req w = Responded r w' ->
  w' = w.
Proof.
  revert req. induction fuel as [|fuel IH]; intros req Hm Hp H; [discriminate|].
  cbn [router_handle] in H. rewrite Hm, Hp in H. unfold retry in H.
  destruct (getUsageLog i w) as [originalLog|]; [|congruence].
  destruct (decide (status (row originalLog) = success)); [congruence|].
  apply IH in H; [exact H|exact Hm|exact Hp].
Qed.

(** The retry of a row whose status is [success] is answered 400. *)
Lemma retry_of_success_is_rejected (i : Uuid) (fuel : nat) (req : Request)
      (w : World) (originalLog : UsageLog) :
  method req = POST -> path req = path_retry i ->
  getUsageLog i w = Some originalLog ->
  status (row originalLog) = success ->
  router_handle env (S fuel) req w
  = Responded {| http_status := 400;
                 json := JError "Cannot retry successful request" |} w.
Proof.
  intros Hm Hp Hl Hs. cbn [router_handle]. rewrite Hm, Hp. unfold retry.
  rewrite Hl. destruct (decide _); [reflexivity|contradiction].
Qed.

(** The retry of a row whose status is not [success]: the handler puts
    the new body in place and calls [router.handle] with the request,
    whose method and path are still those of [/retry/:id]; the same
    handler runs again, and so on: no dispatch answers. *)
Lemma retry_redispatches (i : Uuid) (w : World) (originalLog : UsageLog) :
  getUsageLog i w = Some originalLog ->
  status (row originalLog) <> success ->
  forall (fuel : nat) (req : Request),
    method req = POST -> path req = path_retry i ->
    router_handle env fuel req w = Pending.
Proof.
  intros Hl Hs. induction fuel as [|fuel IH]; intros req Hm Hp; [reflexivity|].
  cbn [router_handle]. rewrite Hm, Hp. unfold retry. rewrite Hl.
  destruct (decide _); [contradiction|].
  apply IH; [exact Hm|exact Hp].
Qed.

End Retry.

(** C8, at the retry of a failed row whose [retry_count] is 0. The
    request to [/retry/0] is never answered: every dispatch ends in the
    retry handler again. And were the body the handler builds given to
    [/track], the row written would carry [retry_count = 0], not 1: the
    incremented count and [retry_of] are in the options, which go to the
    metadata of the row and nowhere else. *)
Theorem retry_count_is_not_incremented :
  let env := Scenario.host (Scenario.replies "Hi there") in
  let w := Scenario.world [] [Scenario.failed_log] in
  let forwarded :=
    {| method := POST; path := path_track;
       body := retryData 0%nat Scenario.failed_log (Some Scenario.key);
       user_agent := Some "curl/8.5.0"; ip := "127.0.0.1" |} in
  getUsageLog 0%nat w = Some Scenario.failed_log
  /\ status (row Scenario.failed_log) = failure
  /\ retry_count (row Scenario.failed_log) = zero
  /\ (forall fuel, router_handle env fuel (Scenario.ask_retry 0%nat) w = Pending)
  /\ exists rec,
      usage_logs (snd (track env forwarded w)) = [Scenario.failed_log; rec]
      /\ retry_count (row rec) = zero
      /\ add (retry_count (row Scenario.failed_log)) (of_Z 1) = of_Z 1
      /\ opt_retry_count (md_options (metadata (row rec))) = Some (of_Z 1)
      /\ retry_of (md_options (metadata (row rec))) = Some 0%nat.
Proof.
  cbn zeta.
  split; [reflexivity|]. split; [reflexivity|]. split; [reflexivity|].
  split.
  - intros fuel.
    apply (retry_redispatches _ 0%nat _ Scenario.failed_log);
      [reflexivity|discriminate|reflexivity|reflexivity].
  - eexists. split; [vm_compute; reflexivity|].
    repeat split; vm_compute; reflexivity.
Qed.

(** ** Token counter *)

(** The number of words of a text, read off the text itself: the number
    of places where a character that is not white space begins the text
    or follows white space. [in_word] tells that the previous character
    was not white space. *)
Fixpoint word_starts (in_word : bool) (s : string) : nat :=
  match s with
  | EmptyString => 0%nat
  | String c r =>
      if is_white_space c then word_starts false r
      else ((if in_word then 0 else 1) + word_starts true r)%nat
  end.

Definition word_count (s : string) : nat := word_starts false s.

Lemma non_empty_snoc (piece : string) (c : ascii) :
  non_empty (piece +:+ String c EmptyString) = true.
Proof. destruct piece; reflexivity. Qed.

Lemma split_go_words (s piece : string) (in_sep : bool) :
  (in_sep = true -> piece = EmptyString) ->
  List.length (List.filter non_empty (split_go piece in_sep s))
  = if non_empty piece then S (word_starts true s) else word_starts false s.
Proof.
  revert piece in_sep. induction s as [|c r IH]; intros piece in_sep Hinv.
  - cbn. destruct (non_empty piece); reflexivity.
  - cbn [split_go word_starts]. destruct (is_white_space c).
    + destruct in_sep.
      * rewrite (Hinv eq_refl). rewrite IH by reflexivity. reflexivity.
      * cbn [List.filter]. destruct (non_empty piece); cbn [List.length];
          rewrite IH by reflexivity; reflexivity.
    + rewrite IH by discriminate. rewrite non_empty_snoc.
      destruct (non_empty piece); reflexivity.
Qed.

Lemma trimStart_words (s : string) :
  word_starts false (trimStart s) = word_starts false s.
Proof.
  induction s as [|c r IH]; [reflexivity|].
  cbn [trimStart word_starts]. destruct (is_white_space c) eqn:E; [exact IH|].
  cbn [word_starts]. rewrite E. reflexivity.
Qed.

Lemma trimEnd_words (s : string) (in_word : bool) :
  word_starts in_word (trimEnd s) = word_starts in_word s.
Proof.
  revert in_word. induction s as [|c r IH]; intros in_word; [reflexivity|].
  cbn [trimEnd]. destruct (trimEnd r) as [|c' r'] eqn:E.
  - cbn [word_starts]. destruct (is_white_space c) eqn:Ec.
    + rewrite <- IH. reflexivity.
    + cbn [word_starts]. rewrite Ec, <- IH. reflexivity.
  - cbn [word_starts]. destruct (is_white_space c); rewrite <- IH; reflexivity.
Qed.

(** [text.trim().split(/\s+/).filter(word => word.length > 0)] has as many
    elements as the text has words. *)
Lemma words_count (text : string) :
  List.length (words text) = word_count text.
Proof.
  unfold words, split_white_space, word_count, trim.
  rewrite split_go_words by discriminate. cbn [non_empty].
  rewrite trimEnd_words. apply trimStart_words.
Qed.

(** The factor the table gives a provider: its own entry, or the entry
    [default]. *)
Definition factor (provider : string) : number :=
  let key := toLowerCase provider in
  if String.eqb key "openai" then dec 13 10
  else if String.eqb key "anthropic" then dec 12 10
  else if String.eqb key "google" then dec 11 10
  else dec 125 100.

Lemma countTokens_absent (provider : string) :
  countTokens None provider = zero /\ countTokens (Some "") provider = zero.
Proof. split; reflexivity. Qed.

(** For a provider whose name, in lower case, is not a property of
    [Object.prototype], the count is the ceiling of the product, in
    doubles, of the number of words and the factor of the provider. *)
Lemma countTokens_formula (text provider : string) :
  text <> "" ->
  Obj.inherited (toLowerCase provider) = false ->
  countTokens (Some text) provider
  = Math_ceil (mul (of_nat (List.length (words text))) (factor provider)).
Proof.
  intros Ht Hi. destruct text as [|c text]; [contradiction|].
  unfold countTokens, factor, Obj.get. cbn zeta. rewrite Hi.
  destruct (String.eqb_spec (toLowerCase provider) "openai") as [->|H1]; [reflexivity|].
  destruct (String.eqb_spec (toLowerCase provider) "anthropic") as [->|H2]; [reflexivity|].
  destruct (String.eqb_spec (toLowerCase provider) "google") as [->|H3]; [reflexivity|].
  destruct (String.eqb_spec (toLowerCase provider) "default") as [->|H4]; [reflexivity|].
  unfold TOKEN_MULTIPLIERS.
  rewrite !lookup_insert_ne, lookup_singleton_ne by congruence.
  reflexivity.
Qed.

(** Each factor is a positive double between 1 and 2. *)
Lemma factor_shape (provider : string) :
  exists m, factor provider = S754_finite false m (-52) /\ Zdigits2 (Z.pos m) = 53.
Proof.
  unfold factor. cbn zeta.
  repeat match goal with |- context [if ?c then _ else _] => destruct c end;
    eexists; split; vm_compute; reflexivity.
Qed.

(** For such a provider and a text of fewer than [2^53] words, the count
    is a natural number. *)
Lemma countTokens_natural (text provider : string) :
  text <> "" ->
  Obj.inherited (toLowerCase provider) = false ->
  Z.of_nat (List.length (words text)) < 2 ^ 53 ->
  exists z, 0 <= z /\ to_Z (countTokens (Some text) provider) = Some z.
Proof.
  intros Ht Hi Hn. rewrite (countTokens_formula text provider Ht Hi).
  destruct (factor_shape provider) as (m & Hf & Hd).
  destruct (of_Z_small (Z.of_nat (List.length (words text))) ltac:(lia))
    as (Dn & Bn & Sn & _).
  fold (of_nat (List.length (words text))) in Dn, Bn, Sn.
  pose proof (Zdigits2_lt (Z.pos m) ltac:(lia)) as Hlt. rewrite Hd in Hlt.
  assert (double (factor provider)) as Df by (rewrite Hf; cbn [double]; lia).
  assert (below 1 (factor provider)) as Bf by (rewrite Hf; cbn [below]; lia).
  assert (signed false (factor provider)) as Sf by (rewrite Hf; reflexivity).
  destruct (mul_double (of_nat (List.length (words text))) (factor provider) 53 1
              Dn Df Bn Bf ltac:(lia)) as [Dm _].
  { intros sx mx ex sy my ey Hx Hy. rewrite Hx in Dn. rewrite Hf in Hy.
    injection Hy as _ _ <-. cbn [double] in Dn. lia. }
  apply Math_ceil_natural; [exact Dm|].
  apply (mul_signed _ _ false false Sn Sf Dm).
Qed.

(** A text of white space only has no word, and counts 0. *)
Lemma countTokens_blank (provider : string) :
  Obj.inherited (toLowerCase provider) = false ->
  countTokens (Some "  ") provider = zero.
Proof.
  intros H. rewrite countTokens_formula by (discriminate || exact H).
  unfold factor. cbn zeta.
  repeat match goal with |- context [if ?c then _ else _] => destruct c end;
    vm_compute; reflexivity.
Qed.

(** The product is taken in doubles: fifty words for [google] count 56,
    the double nearest to 1.1 being a little more than 1.1. *)
Remark fifty_words_for_google :
  to_Z (Math_ceil (mul (of_nat 50) (factor "google"))) = Some 56.
Proof. vm_compute. reflexivity. Qed.

(** C7, at the text "hello" and the provider "constructor". The key is
    not in the table but the read finds [Object.prototype.constructor],
    which is truthy, so the entry [default] is not used; the product of
    the word count and a function is NaN, and so is its ceiling. The
    factor 1.25 of the claim would give 2. *)
Theorem countTokens_of_inherited_name :
  Obj.get TOKEN_MULTIPLIERS (toLowerCase "constructor") = Obj.VInherited
  /\ countTokens (Some "hello") "constructor" = NaN
  /\ to_Z (countTokens (Some "hello") "constructor") = None
  /\ to_Z (Math_ceil (mul (of_nat (List.length (words "hello"))) (dec 125 100)))
     = Some 2.
Proof. repeat split; vm_compute; reflexivity. Qed.

(** * Further properties *)

(** ** Lists *)

Lemma existsb_eqb_In (k : string) (l : list string) :
  existsb (String.eqb k) l = true <-> In k l.
Proof.
  rewrite existsb_exists. split.
  - intros (x & Hx & E). apply String.eqb_eq in E. subst. exact Hx.
  - intros H. exists k. split; [exact H|apply String.eqb_refl].
Qed.

Lemma find_none_iff {A : Type} (p : A -> bool) (l : list A) :
  List.find p l = None <-> forall x, In x l -> p x = false.
Proof.
  split; [apply find_none|].
  induction l as [|a l IH]; intros H; [reflexivity|].
  cbn. rewrite (H a (or_introl eq_refl)). apply IH.
  intros x Hx. apply H. right. exact Hx.
Qed.

Lemma filter_nothing {A : Type} (p : A -> bool) (l : list A) :
  (forall x, In x l -> p x = false) -> List.filter p l = [].
Proof.
  induction l as [|a l IH]; intros H; [reflexivity|].
  cbn. rewrite (H a (or_introl eq_refl)). apply IH.
  intros x Hx. apply H. right. exact Hx.
Qed.


Lemma find_app_l {A : Type} (p : A -> bool) (l l' : list A) (x : A) :
  List.find p l = Some x -> List.find p (l ++ l') = Some x.
Proof.
  induction l as [|a l IH]; [discriminate|].
  cbn. destruct (p a); [auto|exact IH].
Qed.

Lemma find_app_r {A : Type} (p : A -> bool) (l l' : list A) :
  (forall x, In x l -> p x = false) ->
  List.find p (l ++ l') = List.find p l'.
Proof.
  induction l as [|a l IH]; intros H; [reflexivity|].
  cbn. rewrite (H a (or_introl eq_refl)). apply IH.
  intros x Hx. apply H. right. exact Hx.
Qed.

(** ** The filters, one by one *)

(** The key under which a model is listed in the rules of a model filter. *)
Definition modelKey (requestData : RequestData) : string :=
  rd_model_provider requestData +:+ "/" +:+ rd_model_name requestData.

(** X1. A model filter allows a request iff its model is on the allow list,
    when there is one, and is not on the block list; a model on the block
    list is refused with the reason "Model blocked", also when the allow
    list would have refused it. *)
Theorem applyModelFilter_allows_iff (rules : Rules) (requestData : RequestData) :
  (fr_allowed (applyModelFilter rules requestData) = true <->
   (listed (allowed_models rules) = []
    \/ In (modelKey requestData) (listed (allowed_models rules)))
   /\ ~ In (modelKey requestData) (listed (blocked_models rules)))
  /\ (In (modelKey requestData) (listed (blocked_models rules)) ->
      fr_reason (applyModelFilter rules requestData)
      = "Model blocked: " +:+ modelKey requestData).
Proof.
  unfold applyModelFilter. fold (modelKey requestData).
  set (k := modelKey requestData).
  pose proof (existsb_eqb_In k (listed (allowed_models rules))) as Ha.
  pose proof (existsb_eqb_In k (listed (blocked_models rules))) as Hb.
  destruct (listed (allowed_models rules)) as [|a l] eqn:Ea;
    destruct (listed (blocked_models rules)) as [|b l'] eqn:Eb.
  - cbn. split; [|intros []]. split; auto.
  - destruct (existsb (String.eqb k) (b :: l')) eqn:E.
    + cbn. split; [|reflexivity]. split; [discriminate|].
      intros [_ H]. exfalso. apply H, Hb. reflexivity.
    + cbn. split.
      * split; [intros _|reflexivity]. split; [left; reflexivity|].
        intros H. apply Hb in H. discriminate.
      * intros H. apply Hb in H. discriminate.
  - destruct (existsb (String.eqb k) (a :: l)) eqn:E; cbn.
    + split; [|intros []]. split; [intros _|reflexivity].
      split; [right; apply Ha; reflexivity|intros []].
    + split; [|intros []]. split; [discriminate|].
      intros [[H|H] _]; [discriminate|]. apply Ha in H. discriminate.
  - destruct (existsb (String.eqb k) (b :: l')) eqn:E'.
    + destruct (existsb (String.eqb k) (a :: l)); cbn;
        (split; [|reflexivity]); (split; [discriminate|]);
        intros [_ H]; exfalso; apply H, Hb; reflexivity.
    + destruct (existsb (String.eqb k) (a :: l)) eqn:E; cbn.
      * split; [|intros H; apply Hb in H; discriminate].
        split; [intros _|reflexivity].
        split; [right; apply Ha; reflexivity|].
        intros H. apply Hb in H. discriminate.
      * split; [|intros H; apply Hb in H; discriminate].
        split; [discriminate|].
        intros [[H|H] _]; [discriminate|]. apply Ha in H. discriminate.
Qed.

Section FilterVerdicts.

Context (env : Env).

(** X2. A content filter allows a prompt iff no blocked keyword occurs in it
    (both sides in lower case), the prompt is not longer than the limit
    when one is set (a limit of 0 is no limit), and, when the rules ask to
    both check and block personal data, none of the four patterns matches.
    [block_pii] without [check_pii] blocks nothing. *)
Theorem applyContentFilter_allows_iff (rules : Rules) (requestData : RequestData) :
  fr_allowed (applyContentFilter env rules requestData) = true <->
  (forall word, In word (listed (blocked_keywords rules)) ->
     includes (toLowerCase (rd_prompt requestData)) (toLowerCase word) = false)
  /\ (forall limit, set_rule (max_prompt_length rules) = Some limit ->
        gtb (of_nat (String.length (rd_prompt requestData))) limit = false)
  /\ (check_pii rules = true -> block_pii rules = true ->
      forall pattern, In pattern piiPatterns ->
        regexp_test env pattern (rd_prompt requestData) = false).
Proof.
  unfold applyContentFilter.
  set (prompt := rd_prompt requestData).
  assert (List.find (includes (toLowerCase prompt))
            (List.map toLowerCase (listed (blocked_keywords rules))) = None
          <-> forall word, In word (listed (blocked_keywords rules)) ->
                includes (toLowerCase prompt) (toLowerCase word) = false) as Hk.
  { rewrite find_none_iff. split.
    - intros H word Hw. apply H, in_map, Hw.
    - intros H x Hx. apply in_map_iff in Hx as (word & <- & Hw). apply H, Hw. }
  pose proof (find_none_iff (fun pattern => regexp_test env pattern prompt) piiPatterns)
    as Hp.
  destruct (List.find (includes (toLowerCase prompt)) _) as [word|] eqn:Ek.
  - (* a keyword occurs: every later step keeps [allowed = false] *)
    assert (fr_allowed
              (flag "blocked_keyword" (AString word)
                 (deny ("Contains blocked keyword: " +:+ word) pass)) = false) as H0
      by reflexivity.
    revert H0.
    generalize (flag "blocked_keyword" (AString word)
                  (deny ("Contains blocked keyword: " +:+ word) pass)).
    intros r0 H0.
    assert (forall r, fr_allowed r = false ->
              fr_allowed
                (if check_pii rules then
                   match List.find (fun pattern => regexp_test env pattern prompt)
                                   piiPatterns with
                   | Some _ =>
                       if block_pii rules
                       then deny "Contains potential PII" (flag "potential_pii" (ABool true) r)
                       else flag "potential_pii" (ABool true) r
                   | None => r
                   end
                 else r) = false) as Hpii.
    { intros r Hr. destruct (check_pii rules); [|exact Hr].
      destruct (List.find _ piiPatterns); [|exact Hr].
      destruct (block_pii rules); [reflexivity|exact Hr]. }
    split; [|intros [H _]; apply Hk in H; discriminate].
    intros H. exfalso.
    destruct (set_rule (max_prompt_length rules)) as [limit|].
    + destruct (gtb _ limit); rewrite Hpii in H; try discriminate; auto.
    + rewrite Hpii in H; [discriminate|exact H0].
  - destruct (set_rule (max_prompt_length rules)) as [limit|] eqn:El.
    + destruct (gtb (of_nat (String.length prompt)) limit) eqn:Eg.
      * split.
        -- intros H. exfalso.
           destruct (check_pii rules); [|discriminate].
           destruct (List.find _ piiPatterns); [|discriminate].
           destruct (block_pii rules); discriminate.
        -- intros (_ & H & _). specialize (H limit eq_refl). congruence.
      * destruct (check_pii rules) eqn:Ec.
        -- destruct (List.find _ piiPatterns) as [pattern|] eqn:Ef.
           ++ destruct (block_pii rules) eqn:Eb; cbn.
              ** split; [discriminate|]. intros (_ & _ & H).
                 specialize (H eq_refl eq_refl).
                 apply Hp in H. discriminate.
              ** split; [intros _|reflexivity].
                 split; [apply Hk; reflexivity|]. split; [|discriminate].
                 intros l [= <-]. exact Eg.
           ++ cbn. split; [intros _|reflexivity].
              split; [apply Hk; reflexivity|]. split.
              ** intros l [= <-]. exact Eg.
              ** intros _ _. apply Hp. reflexivity.
        -- cbn. split; [intros _|reflexivity].
           split; [apply Hk; reflexivity|]. split; [|discriminate].
           intros l [= <-]. exact Eg.
    + destruct (check_pii rules) eqn:Ec.
      * destruct (List.find _ piiPatterns) as [pattern|] eqn:Ef.
        -- destruct (block_pii rules) eqn:Eb; cbn.
           ++ split; [discriminate|]. intros (_ & _ & H).
              specialize (H eq_refl eq_refl). apply Hp in H. discriminate.
           ++ split; [intros _|reflexivity].
              split; [apply Hk; reflexivity|]. split; [discriminate|discriminate].
        -- cbn. split; [intros _|reflexivity].
           split; [apply Hk; reflexivity|]. split; [discriminate|].
           intros _ _. apply Hp. reflexivity.
      * cbn. split; [intros _|reflexivity].
        split; [apply Hk; reflexivity|]. split; discriminate.
Qed.

End FilterVerdicts.

(** *** Cost and rate *)

Section CostAndRate.

Context (env : Env).

(** The cost the cost filter estimates for a request, from the price of
    its model. *)
Definition estimatedCost (pricing : ModelPricing) (requestData : RequestData)
  : number :=
  div (mul (estimateTokenCount (rd_prompt requestData))
           (input_cost_per_1k_tokens pricing))
      (of_Z 1000).

(** What the user of a request has spent today, as the cost filter reads it. *)
Definition currentSpending (requestData : RequestData) (w : World) : number :=
  match daily_spending env (today env w) (rd_user_id requestData) w with
  | Some total => if Num.truthy total then total else zero
  | None => zero
  end.

(** X3. A cost filter allows every request for a model that has no active
    price, whatever its limits; for a priced model it allows the request
    iff the estimated cost does not exceed the limit per call and today's
    spending plus the estimate does not exceed the daily limit, each when
    set. *)
Theorem applyCostFilter_allows_iff (rules : Rules) (requestData : RequestData)
        (w : World) :
  fr_allowed (applyCostFilter env rules requestData w) = true <->
  match getModelPricing (rd_model_provider requestData)
                        (rd_model_name requestData) w with
  | None => True
  | Some pricing =>
      (forall limit, set_rule (max_cost_per_call rules) = Some limit ->
         gtb (estimatedCost pricing requestData) limit = false)
      /\ (forall limit, set_rule (daily_spending_limit rules) = Some limit ->
            gtb (add (currentSpending requestData w)
                     (estimatedCost pricing requestData)) limit = false)
  end.
Proof.
  unfold applyCostFilter.
  destruct (getModelPricing _ _ w) as [pricing|]; [|cbn; tauto].
  fold (estimatedCost pricing requestData).
  fold (currentSpending requestData w).
  destruct (set_rule (max_cost_per_call rules)) as [l1|];
    destruct (set_rule (daily_spending_limit rules)) as [l2|];
    try destruct (gtb (estimatedCost pricing requestData) l1) eqn:E1;
    try destruct (gtb (add _ _) l2) eqn:E2; cbn;
    (split;
     [ try discriminate; intros _; split; intros l; intros [= <-]; assumption
     | try reflexivity; intros [H1 H2];
       first [ specialize (H1 _ eq_refl); congruence
             | specialize (H2 _ eq_refl); congruence ] ]).
Qed.

(** The number of rows the rate filter counts for each of its windows. *)
Definition calls_last_minute (requestData : RequestData) (w : World) : number :=
  of_nat (calls_since (toISOString env (clock w - 60 * 1000))
                      (rd_user_id requestData) w).

Definition calls_last_hour (requestData : RequestData) (w : World) : number :=
  of_nat (calls_since (toISOString env (clock w - 60 * 60 * 1000))
                      (rd_user_id requestData) w).

Definition calls_today (requestData : RequestData) (w : World) : number :=
  of_nat (calls_on env (today env w) (rd_user_id requestData) w).

(** X4. A rate filter allows a request iff, for each limit that is set, the
    rows counted for the window are fewer than the limit. *)
Theorem applyRateFilter_allows_iff (rules : Rules) (requestData : RequestData)
        (w : World) :
  fr_allowed (applyRateFilter env rules requestData w) = true <->
  (forall limit, set_rule (max_calls_per_minute rules) = Some limit ->
     geb (calls_last_minute requestData w) limit = false)
  /\ (forall limit, set_rule (max_calls_per_hour rules) = Some limit ->
        geb (calls_last_hour requestData w) limit = false)
  /\ (forall limit, set_rule (max_calls_per_day rules) = Some limit ->
        geb (calls_today requestData w) limit = false).
Proof.
  unfold applyRateFilter.
  fold (calls_last_minute requestData w) (calls_last_hour requestData w)
       (calls_today requestData w).
  destruct (set_rule (max_calls_per_minute rules)) as [l1|];
    destruct (set_rule (max_calls_per_hour rules)) as [l2|];
    destruct (set_rule (max_calls_per_day rules)) as [l3|];
    try destruct (geb (calls_last_minute requestData w) l1) eqn:E1;
    try destruct (geb (calls_last_hour requestData w) l2) eqn:E2;
    try destruct (geb (calls_today requestData w) l3) eqn:E3; cbn;
    (split;
     [ try discriminate; intros _; repeat split; intros l; intros [= <-]; assumption
     | try reflexivity; intros (H1 & H2 & H3);
       first [ specialize (H1 _ eq_refl); congruence
             | specialize (H2 _ eq_refl); congruence
             | specialize (H3 _ eq_refl); congruence ] ]).
Qed.

Lemma sql_eq_null (column : option string) : sql_eq column None = false.
Proof. destruct column; reflexivity. Qed.

Lemma calls_since_null (since : string) (w : World) : calls_since since None w = 0%nat.
Proof.
  unfold calls_since. rewrite filter_nothing; [reflexivity|].
  intros r _. rewrite sql_eq_null. apply andb_false_r.
Qed.

Lemma calls_on_null (day : string) (w : World) : calls_on env day None w = 0%nat.
Proof.
  unfold calls_on. rewrite filter_nothing; [reflexivity|].
  intros r _. rewrite sql_eq_null. apply andb_false_r.
Qed.

Lemma nothing_reaches_positive (limit : number) :
  ltb zero limit = true -> geb (of_nat 0) limit = false.
Proof.
  change (of_nat 0) with zero.
  destruct limit as [s|[]| |[] m e]; cbv; congruence.
Qed.

(** X5. The rows are counted with [user_id = ?], which no row satisfies when
    the request has no [user_id]: under limits that are positive, a
    request without a user is never refused by a rate filter, however
    many rows the log holds. *)
Theorem anonymous_is_never_rate_limited (rules : Rules) (requestData : RequestData)
        (w : World) :
  rd_user_id requestData = None ->
  (forall limit,
      In (Some limit) [ set_rule (max_calls_per_minute rules);
                        set_rule (max_calls_per_hour rules);
                        set_rule (max_calls_per_day rules) ] ->
      ltb zero limit = true) ->
  applyRateFilter env rules requestData w = pass.
Proof.
  intros Hu Hl. unfold applyRateFilter. rewrite Hu.
  rewrite !calls_since_null, calls_on_null.
  destruct (set_rule (max_calls_per_minute rules)) as [l1|] eqn:E1;
    [rewrite nothing_reaches_positive by (apply Hl; cbn; auto)|];
    (destruct (set_rule (max_calls_per_hour rules)) as [l2|] eqn:E2;
     [rewrite nothing_reaches_positive by (apply Hl; cbn; auto)|]);
    (destruct (set_rule (max_calls_per_day rules)) as [l3|] eqn:E3;
     [rewrite nothing_reaches_positive by (apply Hl; cbn; auto)|]);
    reflexivity.
Qed.

End CostAndRate.

(** A limit of one call a day, and a request that names no user. *)
Definition one_a_day : Rules :=
  {| blocked_keywords := None; max_prompt_length := None;
     check_pii := false; block_pii := false;
     max_cost_per_call := None; daily_spending_limit := None;
     max_calls_per_minute := None; max_calls_per_hour := None;
     max_calls_per_day := Some (of_Z 1); allowed_models := None;
     blocked_models := None |}.

Definition asked_by (user : option string) : RequestData :=
  {| rd_user_id := user; rd_team_id := None;
     rd_model_provider := "openai"; rd_model_name := "gpt-3.5-turbo";
     rd_prompt := "Hello"; rd_options := no_options |}.

Lemma anonymous_is_never_rate_limited_witness :
  let env := Scenario.host (Scenario.replies "ok") in
  let w := Scenario.world [] [Scenario.failed_log] in
  fr_allowed (applyRateFilter env one_a_day (asked_by (Some "u1")) w) = false
  /\ applyRateFilter env one_a_day (asked_by None) w = pass.
Proof.
  cbn zeta. split; [reflexivity|].
  apply anonymous_is_never_rate_limited; [reflexivity|].
  intros limit [H|[H|[H|[]]]]; try discriminate. injection H as <-. reflexivity.
Defined.

(** *** The windows of the rate filter *)

(** SQLite stamps a row with [CURRENT_TIMESTAMP], "YYYY-MM-DD HH:MM:SS";
    the rate filter compares that text with [toISOString()],
    "YYYY-MM-DDTHH:MM:SS.sssZ". *)
Definition stamped_on (date : string) (r : UsageLog) : Prop :=
  exists time, created_at r = date +:+ " " +:+ time.

Lemma compare_common_prefix (p a b : string) :
  String.compare (p +:+ a) (p +:+ b) = String.compare a b.
Proof.
  induction p as [|c p IH]; [reflexivity|].
  simpl String.append. simpl String.compare.
  assert (Ascii.compare c c = Eq) as E by apply N.compare_refl.
  rewrite E. exact IH.
Qed.

Lemma space_sorts_before_T (date time time' : string) :
  String.ltb (date +:+ " " +:+ time) (date +:+ "T" +:+ time') = true.
Proof. unfold String.ltb. rewrite compare_common_prefix. reflexivity. Qed.

Lemma same_day_calls_since (date time : string) (uid : option string) (w : World) :
  Forall (stamped_on date) (usage_logs w) ->
  calls_since (date +:+ "T" +:+ time) uid w = 0%nat.
Proof.
  intros H. unfold calls_since. rewrite filter_nothing; [reflexivity|].
  intros r Hr. rewrite List.Forall_forall in H. destruct (H r Hr) as [t Ht].
  unfold sql_text_ge. rewrite Ht, space_sorts_before_T. reflexivity.
Qed.

(** X6. A row stamped "D hh:mm:ss" sorts before "DThh:mm:ss.sssZ" whatever
    the two times are, a space coming before the letter T. So the limits
    per minute and per hour never count a row of the date on which their
    window starts: when every row of the log bears that date, a rate
    filter with positive limits per minute and per hour (and no limit per
    day) allows the request, however many calls the user has just made. *)
Theorem rate_window_misses_same_day_calls
        (env : Env) (rules : Rules) (requestData : RequestData) (w : World)
        (date minute_ago hour_ago : string) :
  toISOString env (clock w - 60 * 1000) = date +:+ "T" +:+ minute_ago ->
  toISOString env (clock w - 60 * 60 * 1000) = date +:+ "T" +:+ hour_ago ->
  Forall (stamped_on date) (usage_logs w) ->
  set_rule (max_calls_per_day rules) = None ->
  (forall limit,
      In (Some limit) [ set_rule (max_calls_per_minute rules);
                        set_rule (max_calls_per_hour rules) ] ->
      ltb zero limit = true) ->
  applyRateFilter env rules requestData w = pass.
Proof.
  intros Hm Hh Hrows Hd Hl. unfold applyRateFilter.
  rewrite Hm, Hh, Hd, !same_day_calls_since by exact Hrows.
  destruct (set_rule (max_calls_per_minute rules)) as [l1|] eqn:E1;
    [rewrite nothing_reaches_positive by (apply Hl; cbn; auto)|];
    (destruct (set_rule (max_calls_per_hour rules)) as [l2|] eqn:E2;
     [rewrite nothing_reaches_positive by (apply Hl; cbn; auto)|]);
    reflexivity.
Qed.

(** A host on 1 May 2024 at 10:00:00 UTC. *)
Definition morning (t : Z) : string :=
  if t =? 1714557600000 - 60 * 1000 then "2024-05-01T09:59:00.000Z"
  else if t =? 1714557600000 - 60 * 60 * 1000 then "2024-05-01T09:00:00.000Z"
  else "2024-05-01T10:00:00.000Z".

Definition morning_host : Env :=
  {| regexp_test := fun _ _ => false;
     regexp_count := fun _ _ => 0%nat;
     regexp_split := fun _ s => [s];
     Number_toString := fun _ => "n";
     toFixed6 := fun _ => "n";
     StringToNumber := fun _ => NaN;
     toISOString := morning;
     CURRENT_TIMESTAMP := fun _ => "2024-05-01 10:00:00";
     sql_DATE := fun s => Some (String.substring 0 10 s);
     sql_SUM := fun l => match l with
                         | [] => None
                         | _ => Some (fold_left add l zero)
                         end;
     axios_post := Scenario.replies "ok" |}.

(** A call of user "u1" recorded at 09:59 and [seconds] seconds. *)
Definition recent_call (i : Uuid) (seconds : string) : UsageLog :=
  {| id := i; row := row Scenario.failed_log;
     created_at := "2024-05-01 09:59:" +:+ seconds |}.

Definition one_a_minute : Rules :=
  {| blocked_keywords := None; max_prompt_length := None;
     check_pii := false; block_pii := false;
     max_cost_per_call := None; daily_spending_limit := None;
     max_calls_per_minute := Some (of_Z 1); max_calls_per_hour := Some (of_Z 2);
     max_calls_per_day := None; allowed_models := None;
     blocked_models := None |}.

(** One call a minute and two an hour are the limits; the user has made
    three calls in the last minute: the filter allows a fourth. *)
Lemma rate_window_misses_same_day_calls_witness :
  let w := Scenario.world []
             [recent_call 0%nat "10"; recent_call 1%nat "30"; recent_call 2%nat "50"] in
  Forall (fun r => user_id (row r) = rd_user_id (Scenario.asked "Hello"))
         (usage_logs w)
  /\ toISOString morning_host (clock w - 60 * 1000) = "2024-05-01T09:59:00.000Z"
  /\ applyRateFilter morning_host one_a_minute (Scenario.asked "Hello") w = pass.
Proof.
  cbn zeta. split; [repeat constructor|]. split; [reflexivity|].
  apply (rate_window_misses_same_day_calls _ _ _ _
           "2024-05-01" "09:59:00.000Z" "09:00:00.000Z").
  - reflexivity.
  - reflexivity.
  - repeat constructor; eexists; reflexivity.
  - reflexivity.
  - intros limit [H|[H|[]]]; injection H as <-; reflexivity.
Defined.

(** *** Filters that take no part *)

(** The world with the table of the filters replaced. *)
Definition with_filters (filters : list SafetyFilter) (w : World) : World :=
  {| usage_logs := usage_logs w;
     safety_filters := filters;
     model_pricing := model_pricing w;
     clock := clock w;
     next_uuid := next_uuid w;
     provider_calls := provider_calls w;
     ws_messages := ws_messages w |}.

(** The types [applyFilter] knows. *)
Definition filter_types : list string := [ "content"; "cost"; "rate"; "model" ].

Section IdleFilters.

Context (env : Env) (requestData : RequestData).

Lemma check_loop_app (w : World) (fs gs : list SafetyFilter) (acc : SafetyCheck) :
  check_loop env requestData w (fs ++ gs) acc
  = acc' ← check_loop env requestData w fs acc; check_loop env requestData w gs acc'.
Proof.
  revert acc. induction fs as [|f fs IH]; intros acc; [reflexivity|].
  cbn [app check_loop].
  destruct (check_one env requestData w acc f) as [acc'|m]; [|reflexivity].
  cbn [mbind completion_bind]. apply IH.
Qed.

(** The filters read the log, the prices and the clock, not the table of
    the filters. *)
Lemma check_loop_with_filters (w : World) (table fs : list SafetyFilter)
      (acc : SafetyCheck) :
  check_loop env requestData (with_filters table w) fs acc
  = check_loop env requestData w fs acc.
Proof.
  revert acc. induction fs as [|f fs IH]; intros acc; [reflexivity|].
  cbn [check_loop].
  change (check_one env requestData (with_filters table w) acc f)
    with (check_one env requestData w acc f).
  destruct (check_one env requestData w acc f) as [acc'|m]; [|reflexivity].
  cbn [mbind completion_bind]. apply IH.
Qed.

Lemma unknown_type_passes (w : World) (f : SafetyFilter) (r : Parsed) :
  ~ In (filter_type f) filter_types ->
  applyFilter env f r requestData w
  = Normal {| fr_allowed := true; fr_reason := "Unknown filter type";
              fr_flags := None |}.
Proof.
  intros H. unfold applyFilter.
  repeat (destruct (String.eqb (filter_type f) _) eqn:E;
          [apply String.eqb_eq in E; exfalso; apply H; rewrite E; cbn; tauto|clear E]).
  reflexivity.
Qed.

Lemma check_one_unknown_type (w : World) (f : SafetyFilter) (acc : SafetyCheck) :
  parses f = true -> ~ In (filter_type f) filter_types ->
  check_one env requestData w acc f = Normal acc.
Proof.
  unfold parses, check_one. intros Hp Ht.
  destruct (JSON_parse (rules f)) as [r|m]; [|discriminate].
  cbn [mbind completion_bind]. rewrite (unknown_type_passes w f r Ht).
  destruct acc; reflexivity.
Qed.

(** X7. A filter that is not active, or whose type is none of the four and
    whose rules can be read, takes no part: the verdict, the reasons and
    the flags of [checkFilters] are those of the table without it. *)
Theorem idle_filter_changes_nothing (w : World) (pre post : list SafetyFilter)
        (f : SafetyFilter) :
  safety_filters w = (pre ++ f :: post)%list ->
  sf_is_active f = false
  \/ (parses f = true /\ ~ In (filter_type f) filter_types) ->
  checkFilters env requestData w
  = checkFilters env requestData (with_filters (pre ++ post) w).
Proof.
  intros Hw Hf. unfold checkFilters. f_equal.
  rewrite check_loop_with_filters.
  unfold getSafetyFilters. cbn [safety_filters with_filters]. rewrite Hw.
  rewrite !List.filter_app. cbn [List.filter].
  destruct (sf_is_active f) eqn:Ea; [|reflexivity].
  destruct Hf as [Hf|[Hp Ht]]; [discriminate|].
  rewrite !check_loop_app.
  destruct (check_loop env requestData w (List.filter sf_is_active pre) no_objection)
    as [acc|m]; [|reflexivity].
  cbn [mbind completion_bind check_loop].
  rewrite (check_one_unknown_type w f acc Hp Ht). reflexivity.
Qed.

End IdleFilters.

(** A filter of type "keyword" stands between the filter that blocks
    "bomb" and the cost filter. *)
Definition keyword_filter : SafetyFilter :=
  {| sf_name := "Keywords"; filter_type := "keyword";
     rules := rules Scenario.no_bombs; sf_is_active := true |}.

Lemma idle_filter_changes_nothing_witness :
  let env := Scenario.host (Scenario.replies "ok") in
  let rd := Scenario.asked "a bomb" in
  checkFilters env rd
    (Scenario.world [Scenario.no_bombs; keyword_filter; Scenario.cost_alert] [])
  = checkFilters env rd
      (Scenario.world [Scenario.no_bombs; Scenario.cost_alert] []).
Proof.
  cbn zeta.
  apply (idle_filter_changes_nothing _ _
           (Scenario.world [Scenario.no_bombs; keyword_filter; Scenario.cost_alert] [])
           [Scenario.no_bombs] [Scenario.cost_alert] keyword_filter).
  - reflexivity.
  - right. split; [reflexivity|].
    cbn. intros [H|[H|[H|[H|[]]]]]; discriminate.
Defined.

(** ** The log of usage *)

(** The ids of the rows are ids that were generated: none is an id still
    to come. *)
Definition ids_fresh (w : World) : Prop :=
  Forall (fun r => (id r < next_uuid w)%nat) (usage_logs w).

Section UsageLog.

Context (env : Env).

Lemma track_next_uuid (req : Request) (w : World) (rd : RequestData) (k : string) :
  required_fields (body req) = Some (rd, k) ->
  allowed (checkFilters env rd w) = true ->
  next_uuid (snd (track env req w)) = S (next_uuid w).
Proof.
  intros Hr Ha. rewrite (track_allowed env req w rd k Hr Ha). cbn.
  f_equal. apply (settled_keeps env req rd k w).
Qed.

(** X8. The id a tracked request is answered with identifies the row the
    request has written, and the answer reports that row; the rows that
    were there before are found under their ids as before. *)
Theorem tracked_row_is_found (req : Request) (w : World) (rd : RequestData)
        (k : string) :
  ids_fresh w ->
  required_fields (body req) = Some (rd, k) ->
  allowed (checkFilters env rd w) = true ->
  exists rec,
    fst (track env req w) = tracked (id rec) (row rec)
    /\ getUsageLog (id rec) (snd (track env req w)) = Some rec
    /\ (forall i r, getUsageLog i w = Some r ->
                    getUsageLog i (snd (track env req w)) = Some r)
    /\ ids_fresh (snd (track env req w)).
Proof.
  intros Hw Hr Ha. exists (written env req rd k w).
  destruct (track_allowed_writes env req w rd k Hr Ha) as [Hres Hlogs].
  pose proof (track_next_uuid req w rd k Hr Ha) as Hn.
  unfold ids_fresh in *. rewrite List.Forall_forall in Hw.
  split; [exact Hres|]. unfold getUsageLog. rewrite Hlogs. split; [|split].
  - rewrite find_app_r.
    + cbn. rewrite Nat.eqb_refl. reflexivity.
    + intros r Hin. apply Nat.eqb_neq. specialize (Hw r Hin). cbn. lia.
  - intros i r. apply find_app_l.
  - rewrite Hn. apply Forall_app. split.
    + apply List.Forall_forall. intros r Hin. specialize (Hw r Hin). lia.
    + constructor; [cbn; lia|constructor].
Qed.

End UsageLog.

Lemma tracked_row_is_found_witness :
  let env := Scenario.host (Scenario.replies "Hi!") in
  let w := Scenario.world [] [Scenario.failed_log] in
  exists rec,
    fst (track env (Scenario.ask "Hello") w) = tracked (id rec) (row rec)
    /\ getUsageLog (id rec) (snd (track env (Scenario.ask "Hello") w)) = Some rec.
Proof.
  cbn zeta.
  destruct (tracked_row_is_found (Scenario.host (Scenario.replies "Hi!"))
              (Scenario.ask "Hello") (Scenario.world [] [Scenario.failed_log])
              (Scenario.asked "Hello") Scenario.key)
    as (rec & Hres & Hget & _ & _).
  - repeat constructor.
  - reflexivity.
  - reflexivity.
  - exists rec. split; [exact Hres|exact Hget].
Defined.

(** *** What the log meters *)

Section Metering.

Context (env : Env).

Lemma settled_user (req : Request) (w : World) (rd : RequestData) (k : string) :
  user_id (fst (settled env req rd k w)) = rd_user_id rd.
Proof.
  destruct (settled_cases env req w rd k)
    as [(m & _ & ->)|[(reply & issues & _ & _ & ->)|(reply & m & _ & _ & ->)]];
    try destruct (Nat.ltb _ _); reflexivity.
Qed.

(** X9. The limit of calls per day counts the rows of the user, whatever
    their status: every request that is answered 200 adds one to the
    count of its day, a call that the provider refused as much as one
    that it served. *)
Theorem every_tracked_request_is_counted (req : Request) (w : World)
        (rd : RequestData) (k user day : string) :
  required_fields (body req) = Some (rd, k) ->
  allowed (checkFilters env rd w) = true ->
  rd_user_id rd = Some user ->
  sql_DATE env (created_at (written env req rd k w)) = Some day ->
  calls_on env day (Some user) (snd (track env req w))
  = S (calls_on env day (Some user) w).
Proof.
  intros Hr Ha Hu Hd. unfold calls_on.
  rewrite (proj2 (track_allowed_writes env req w rd k Hr Ha)).
  rewrite List.filter_app, length_app. cbn [List.filter].
  rewrite Hd, String.eqb_refl.
  assert (user_id (row (written env req rd k w)) = Some user) as ->
    by (cbn [row written]; rewrite settled_user; exact Hu).
  cbn [sql_eq]. rewrite String.eqb_refl. cbn. lia.
Qed.

End Metering.

Lemma every_tracked_request_is_counted_witness :
  let env := Scenario.host (Scenario.refuses "Request failed with status code 401") in
  let w := Scenario.world [] [] in
  status (row (written env (Scenario.ask "Hello") (Scenario.asked "Hello")
                       Scenario.key w)) = failure
  /\ calls_on env "2024-05-01" (Some "u1") w = 0%nat
  /\ calls_on env "2024-05-01" (Some "u1") (snd (track env (Scenario.ask "Hello") w))
     = 1%nat.
Proof.
  cbn zeta. split; [reflexivity|]. split; [reflexivity|].
  apply (every_tracked_request_is_counted
           (Scenario.host (Scenario.refuses "Request failed with status code 401"))
           (Scenario.ask "Hello") (Scenario.world [] [])
           (Scenario.asked "Hello") Scenario.key "u1" "2024-05-01");
    reflexivity.
Defined.

Section RepliesWithoutText.

Context (env : Env).

(** X10. A provider can reply without a text (the [content] of an OpenAI
    message is [null] when the model calls a tool). The handler has then
    counted the prompt and set the cost when the quality check reads the
    length of the response and throws: the row is a failure whose
    message is that of the [TypeError], and it keeps the tokens and the
    cost of the prompt. The answer is 200. *)
Theorem reply_without_text_is_a_billed_failure
        (req : Request) (w : World) (rd : RequestData) (k : string)
        (reply : AiResponse) :
  required_fields (body req) = Some (rd, k) ->
  allowed (checkFilters env rd w) = true ->
  fst (makeRequest env (rd_model_provider rd) k (rd_model_name rd) (rd_prompt rd)
                   (rd_options rd) w) = Normal reply ->
  ai_response reply = None ->
  let rec := written env req rd k w in
  fst (track env req w) = tracked (id rec) (row rec)
  /\ status (row rec) = failure
  /\ error_message (row rec)
     = Some "Cannot read properties of null (reading 'length')"
  /\ input_tokens (row rec) = countTokens (Some (rd_prompt rd)) (rd_model_provider rd)
  /\ output_tokens (row rec) = zero
  /\ total_cost (row rec)
     = add (mul (input_tokens (row rec)) (cost_per_input_token (row rec)))
           (mul zero (cost_per_output_token (row rec))).
Proof.
  intros Hr Ha Hq Hn rec. subst rec.
  split; [apply (track_allowed_writes env req w rd k Hr Ha)|].
  cbn [row written].
  destruct (settled_cases env req w rd k)
    as [(m & Hq' & _)|[(reply' & issues & Hq' & Hc & _)|(reply' & m & Hq' & Hc & E)]];
    rewrite Hq in Hq'; try discriminate; injection Hq' as <-; rewrite Hn in Hc;
    cbn [checkResponseQuality] in Hc; try discriminate.
  injection Hc as <-. rewrite E. cbn. rewrite Hn. cbn. auto.
Qed.

End RepliesWithoutText.

(** The provider replies with a tool call and no text. *)
Definition calls_a_tool : ProviderCall -> nat -> HttpOutcome :=
  fun _ _ =>
    {| elapsed := 150;
       outcome := Normal {| ai_response := None;
                            ai_model := Some "gpt-3.5-turbo-0125";
                            ai_finish_reason := Some "tool_calls" |} |}.

Lemma reply_without_text_is_a_billed_failure_witness :
  let env := Scenario.host calls_a_tool in
  let rec := written env (Scenario.ask "What is the weather in Paris?")
                     (Scenario.asked "What is the weather in Paris?")
                     Scenario.key (Scenario.world [] []) in
  status (row rec) = failure
  /\ to_Z (input_tokens (row rec)) = Some 8
  /\ Num.truthy (total_cost (row rec)) = true.
Proof.
  cbn zeta.
  destruct (reply_without_text_is_a_billed_failure
              (Scenario.host calls_a_tool)
              (Scenario.ask "What is the weather in Paris?") (Scenario.world [] [])
              (Scenario.asked "What is the weather in Paris?") Scenario.key
              {| ai_response := None; ai_model := Some "gpt-3.5-turbo-0125";
                 ai_finish_reason := Some "tool_calls" |})
    as (_ & Hs & _ & Hi & _ & Hc); try reflexivity.
  split; [exact Hs|]. split; [rewrite Hi; vm_compute; reflexivity|].
  rewrite Hc. vm_compute. reflexivity.
Defined.

(** ** Counts are natural numbers *)

(** The ceiling of a double that is not negative is such a double. *)
Lemma Math_ceil_double (x : number) :
  double x -> signed false x ->
  double (Math_ceil x) /\ signed false (Math_ceil x).
Proof.
  intros Hx Hs. destruct x as [s|s| |s m e]; cbn [double signed] in Hx, Hs;
    try contradiction; subst.
  - split; [exact I|reflexivity].
  - destruct Hx as [Hm He]. unfold Math_ceil.
    destruct (0 <=? e) eqn:E0; [split; [cbn; lia|reflexivity]|].
    apply Z.leb_gt in E0.
    assert (2 <= 2 ^ (- e)) as Hp.
    { change 2 with (2 ^ 1) at 1. apply Z.pow_le_mono_r; lia. }
    pose proof (Z.div_mod (Z.pos m) (2 ^ (- e)) ltac:(lia)) as Hdm.
    pose proof (Z.mod_pos_bound (Z.pos m) (2 ^ (- e)) ltac:(lia)) as Hmod.
    assert (0 <= Z.pos m / 2 ^ (- e)) as Hq by (apply Z.div_pos; lia).
    set (c := if Z.pos m mod 2 ^ (- e) =? 0
              then Z.pos m / 2 ^ (- e) else Z.pos m / 2 ^ (- e) + 1).
    assert (0 <= c < 2 ^ 53) as Hc.
    { subst c. destruct (Z.pos m mod 2 ^ (- e) =? 0) eqn:E;
        [apply Z.eqb_eq in E|apply Z.eqb_neq in E]; nia. }
    destruct (of_Z_small c Hc) as (H1 & _ & H2 & _). split; assumption.
Qed.

Lemma word_starts_le (s : string) (in_word : bool) :
  (word_starts in_word s <= String.length s)%nat.
Proof.
  revert in_word. induction s as [|c r IH]; intros in_word; [cbn; lia|].
  cbn [word_starts String.length]. destruct (is_white_space c).
  - specialize (IH false). lia.
  - specialize (IH true). destruct in_word; lia.
Qed.

(** A text has no more words than characters. *)
Lemma words_le_length (text : string) :
  (List.length (words text) <= String.length text)%nat.
Proof. rewrite words_count. apply word_starts_le. Qed.

(** For a provider whose name is not a property of [Object.prototype]
    and a text of fewer than [2^53] characters, the count is a finite
    double that is not negative. *)
Lemma countTokens_double (text : option string) (provider : string) :
  Obj.inherited (toLowerCase provider) = false ->
  (forall t, text = Some t -> Z.of_nat (String.length t) < 2 ^ 53) ->
  double (countTokens text provider) /\ signed false (countTokens text provider).
Proof.
  intros Hi Hn. destruct text as [[|c t]|]; [split; [exact I|reflexivity]| |split; [exact I|reflexivity]].
  specialize (Hn _ eq_refl).
  pose proof (words_le_length (String c t)) as Hw.
  rewrite (countTokens_formula (String c t) provider ltac:(discriminate) Hi).
  destruct (factor_shape provider) as (m & Hf & Hd).
  destruct (of_Z_small (Z.of_nat (List.length (words (String c t)))) ltac:(lia))
    as (Dn & Bn & Sn & _).
  fold (of_nat (List.length (words (String c t)))) in Dn, Bn, Sn.
  pose proof (Zdigits2_lt (Z.pos m) ltac:(lia)) as Hlt. rewrite Hd in Hlt.
  assert (double (factor provider)) as Df by (rewrite Hf; cbn [double]; lia).
  assert (below 1 (factor provider)) as Bf by (rewrite Hf; cbn [below]; lia).
  assert (signed false (factor provider)) as Sf by (rewrite Hf; reflexivity).
  destruct (mul_double (of_nat (List.length (words (String c t)))) (factor provider) 53 1
              Dn Df Bn Bf ltac:(lia)) as [Dm _].
  { intros sx mx ex sy my ey Hx Hy. rewrite Hx in Dn. rewrite Hf in Hy.
    injection Hy as _ _ <-. cbn [double] in Dn. lia. }
  apply Math_ceil_double; [exact Dm|].
  apply (mul_signed _ _ false false Sn Sf Dm).
Qed.

(** A count at price 0 costs 0. *)
Lemma free_of_charge (x : number) :
  double x -> signed false x -> mul x zero = zero.
Proof.
  intros Hd Hs. destruct x as [s|s| |s m e]; cbn in Hd, Hs; try contradiction;
    subst; reflexivity.
Qed.

(** ** Models without a price *)

Section Unpriced.

Context (env : Env).

Lemma supported_is_not_inherited (key : string) :
  existsb (String.eqb key) PROVIDERS = true -> Obj.inherited key = false.
Proof.
  cbn [existsb PROVIDERS]. rewrite !orb_true_iff.
  intros [H|[H|[H|H]]]; try discriminate; apply String.eqb_eq in H; subst; reflexivity.
Qed.

(** Only a provider of the table is ever called. *)
Lemma makeRequest_replies_supported (provider apiKey model prompt : string)
      (options : Options) (w : World) (reply : AiResponse) :
  fst (makeRequest env provider apiKey model prompt options w) = Normal reply ->
  existsb (String.eqb (toLowerCase provider)) PROVIDERS = true.
Proof.
  unfold makeRequest.
  destruct (existsb (String.eqb (toLowerCase provider)) PROVIDERS); [reflexivity|].
  cbn [orb]. destruct (Obj.inherited (toLowerCase provider)); discriminate.
Qed.

Lemma with_reply_free (u : UsageData) (reply : AiResponse) (rt : number) :
  cost_per_input_token u = zero -> cost_per_output_token u = zero ->
  Obj.inherited (toLowerCase (model_provider u)) = false ->
  Z.of_nat (String.length (prompt u)) < 2 ^ 53 ->
  (forall t, ai_response reply = Some t -> Z.of_nat (String.length t) < 2 ^ 53) ->
  total_cost (with_reply u reply rt) = zero.
Proof.
  intros Hi Ho Hp Hl Hr. cbn [with_reply total_cost]. rewrite Hi, Ho.
  destruct (countTokens_double (Some (prompt u)) (model_provider u) Hp) as [D1 S1].
  { intros t [= <-]. exact Hl. }
  destruct (countTokens_double (ai_response reply) (model_provider u) Hp Hr) as [D2 S2].
  rewrite (free_of_charge _ D1 S1), (free_of_charge _ D2 S2). reflexivity.
Qed.

(** The row of a request for a model without an active price. *)
Lemma settled_free (req : Request) (w : World) (rd : RequestData) (k : string) :
  getModelPricing (rd_model_provider rd) (rd_model_name rd) w = None ->
  Z.of_nat (String.length (rd_prompt rd)) < 2 ^ 53 ->
  (forall t, response (fst (settled env req rd k w)) = Some t ->
             Z.of_nat (String.length t) < 2 ^ 53) ->
  cost_per_input_token (fst (settled env req rd k w)) = zero
  /\ cost_per_output_token (fst (settled env req rd k w)) = zero
  /\ total_cost (fst (settled env req rd k w)) = zero.
Proof.
  intros Hp Hl Hresp.
  destruct (settled_cases env req w rd k)
    as [(m & _ & E)|[(reply & issues & Hq & _ & E)|(reply & m & Hq & _ & E)]];
    rewrite E in *; clear E; rewrite Hp in *.
  - repeat split.
  - apply makeRequest_replies_supported, supported_is_not_inherited in Hq.
    assert (total_cost
              (with_reply
                 (new_usageData req rd (checkFilters env rd w) None
                    (toISOString env (clock w))) reply
                 (since (clock w)
                    (snd (makeRequest env (rd_model_provider rd) k
                            (rd_model_name rd) (rd_prompt rd) (rd_options rd) w))))
            = zero) as Ht.
    { apply with_reply_free; try reflexivity; try assumption.
      intros t Ht. apply Hresp. destruct (Nat.ltb _ _); exact Ht. }
    destruct (Nat.ltb _ _); repeat split; exact Ht.
  - apply makeRequest_replies_supported, supported_is_not_inherited in Hq.
    repeat split. apply with_reply_free; try reflexivity; assumption.
Qed.

(** X11. A request for a model that has no active price is recorded free of
    charge: the prices per token and the total cost of its row are 0,
    whatever was sent and received. The texts are shorter than [2^53]
    characters. *)
Theorem unpriced_model_costs_nothing (req : Request) (w : World)
        (rd : RequestData) (k : string) (rec : UsageLog) :
  required_fields (body req) = Some (rd, k) ->
  getModelPricing (rd_model_provider rd) (rd_model_name rd) w = None ->
  usage_logs (snd (track env req w)) = (usage_logs w ++ [rec])%list ->
  Z.of_nat (String.length (rd_prompt rd)) < 2 ^ 53 ->
  (forall t, response (row rec) = Some t -> Z.of_nat (String.length t) < 2 ^ 53) ->
  cost_per_input_token (row rec) = zero
  /\ cost_per_output_token (row rec) = zero
  /\ total_cost (row rec) = zero.
Proof.
  intros Hr Hp Hlogs Hl Hresp.
  destruct (track_appends env req w rec Hlogs) as (rd' & k' & Hr' & Ha & ->).
  rewrite Hr in Hr'. injection Hr' as <- <-.
  cbn [row written] in *. apply settled_free; assumption.
Qed.

Lemma most_recent_nil : most_recent [] = None.
Proof. reflexivity. Qed.

(** A request that passed the filters leaves the calls to the providers
    as the call of [makeRequest] leaves them. *)
Lemma track_provider_calls (req : Request) (w : World) (rd : RequestData) (k : string) :
  required_fields (body req) = Some (rd, k) ->
  allowed (checkFilters env rd w) = true ->
  provider_calls (snd (track env req w))
  = provider_calls
      (snd (makeRequest env (rd_model_provider rd) k (rd_model_name rd)
              (rd_prompt rd) (rd_options rd) w)).
Proof.
  intros Hr Ha. rewrite (track_allowed env req w rd k Hr Ha). cbn zeta.
  cbn [snd broadcast insertUsageLog provider_calls].
  unfold settled. rewrite settle_world. reflexivity.
Qed.

(** X12. The provider of a request is looked up in the table of prices as it
    is written, and in the table of the providers in lower case. When
    the table of prices names its providers in lower case, as the
    default prices do, a request that writes the provider with a capital
    ("OpenAI") finds no price. If the provider is one of the three and
    its endpoint replies with a text, the cost filters let the request
    pass with the flag [no_pricing_info], the provider is called, and
    the row holds the reply, is no failure, and is recorded at cost 0. *)
Theorem capital_letter_evades_the_price (req : Request) (w : World)
        (rd : RequestData) (k : string) (rules : Rules)
        (reply : AiResponse) (text : string) :
  required_fields (body req) = Some (rd, k) ->
  allowed (checkFilters env rd w) = true ->
  Forall (fun r => mp_provider r = toLowerCase (mp_provider r)) (model_pricing w) ->
  toLowerCase (rd_model_provider rd) <> rd_model_provider rd ->
  fst (makeRequest env (rd_model_provider rd) k (rd_model_name rd) (rd_prompt rd)
                   (rd_options rd) w) = Normal reply ->
  ai_response reply = Some text ->
  Z.of_nat (String.length (rd_prompt rd)) < 2 ^ 53 ->
  Z.of_nat (String.length text) < 2 ^ 53 ->
  let rec := written env req rd k w in
  applyCostFilter env rules rd w = flag "no_pricing_info" (ABool true) pass
  /\ existsb (String.eqb (toLowerCase (rd_model_provider rd))) PROVIDERS = true
  /\ List.length (provider_calls (snd (track env req w)))
     = S (List.length (provider_calls w))
  /\ usage_logs (snd (track env req w)) = (usage_logs w ++ [rec])%list
  /\ response (row rec) = Some text
  /\ status (row rec) <> failure
  /\ input_tokens (row rec) = countTokens (Some (rd_prompt rd)) (rd_model_provider rd)
  /\ total_cost (row rec) = zero.
Proof.
  intros Hr Ha Hrows Hcap Hq Htext Hl Hlt rec. subst rec.
  assert (getModelPricing (rd_model_provider rd) (rd_model_name rd) w = None) as Hp.
  { unfold getModelPricing. rewrite filter_nothing; [reflexivity|].
    intros r Hin. rewrite List.Forall_forall in Hrows. specialize (Hrows r Hin).
    destruct (String.eqb_spec (mp_provider r) (rd_model_provider rd)) as [E|];
      [|reflexivity].
    exfalso. apply Hcap. rewrite <- E, <- Hrows. reflexivity. }
  pose proof (makeRequest_replies_supported _ _ _ _ _ _ _ Hq) as Hs.
  assert (response (row (written env req rd k w)) = Some text
          /\ status (row (written env req rd k w)) <> failure
          /\ input_tokens (row (written env req rd k w))
             = countTokens (Some (rd_prompt rd)) (rd_model_provider rd)) as Hrow.
  { cbn [row written].
    destruct (settled_cases env req w rd k)
      as [(m & Hq' & _)|[(reply' & issues & Hq' & _ & E)|(reply' & m & Hq' & Hc & _)]];
      rewrite Hq in Hq'; try discriminate; injection Hq' as <-.
    - rewrite E. destruct (Nat.ltb _ _); cbn; rewrite Htext;
        repeat split; discriminate.
    - rewrite Htext in Hc. discriminate. }
  split; [unfold applyCostFilter; rewrite Hp; reflexivity|].
  split; [exact Hs|].
  split; [rewrite (track_provider_calls req w rd k Hr Ha);
          apply makeRequest_posts, Hs|].
  split; [apply (track_allowed_writes env req w rd k Hr Ha)|].
  destruct Hrow as (H1 & H2 & H3). repeat (split; [assumption|]).
  apply settled_free; try assumption.
  intros t Ht. cbn [row written] in H1. rewrite H1 in Ht.
  injection Ht as <-. exact Hlt.
Qed.

End Unpriced.

(** A model of which the table of prices knows nothing. *)
Definition ask_gpt5 : Request :=
  {| method := POST; path := path_track;
     body := {| b_user_id := Some "u1"; b_team_id := None; b_session_id := None;
                b_model_provider := Some "openai"; b_model_name := Some "gpt-5";
                b_prompt := Some "Write a long essay about the sea";
                b_api_key := Some Scenario.key; b_options := None |};
     user_agent := Some "curl/8.5.0"; ip := "127.0.0.1" |}.

Lemma unpriced_model_costs_nothing_witness :
  let env := Scenario.host (Scenario.replies "The sea is wide and the essay is long.") in
  exists rec,
    usage_logs (snd (track env ask_gpt5 (Scenario.world [] []))) = [rec]
    /\ status (row rec) = success
    /\ to_Z (total_tokens (row rec)) = Some 22
    /\ total_cost (row rec) = zero.
Proof.
  cbn zeta. eexists. split; [reflexivity|]. split; [reflexivity|].
  split; [vm_compute; reflexivity|].
  eapply (unpriced_model_costs_nothing
            (Scenario.host (Scenario.replies "The sea is wide and the essay is long."))
            ask_gpt5 (Scenario.world [] [])).
  - reflexivity.
  - reflexivity.
  - reflexivity.
  - vm_compute. reflexivity.
  - intros t [= <-]. vm_compute. reflexivity.
Defined.

(** The request names "OpenAI"; the price of gpt-3.5-turbo is listed
    under "openai". *)
Definition ask_OpenAI : Request :=
  {| method := POST; path := path_track;
     body := {| b_user_id := Some "u1"; b_team_id := None; b_session_id := None;
                b_model_provider := Some "OpenAI";
                b_model_name := Some "gpt-3.5-turbo";
                b_prompt := Some "Hello"; b_api_key := Some Scenario.key;
                b_options := None |};
     user_agent := Some "curl/8.5.0"; ip := "127.0.0.1" |}.

Lemma capital_letter_evades_the_price_witness :
  let env := Scenario.host (Scenario.replies "Hi there!") in
  let w := Scenario.world [Scenario.cost_alert] [] in
  exists rec,
    usage_logs (snd (track env ask_OpenAI w)) = [rec]
    /\ List.length (provider_calls (snd (track env ask_OpenAI w))) = 1%nat
    /\ status (row rec) = success
    /\ to_Z (total_tokens (row rec)) = Some 5
    /\ total_cost (row rec) = zero
    /\ cost_per_input_token (row (written env (Scenario.ask "Hello")
                                          (Scenario.asked "Hello") Scenario.key w))
       = dec 1 1000000.
Proof.
  cbn zeta.
  destruct (capital_letter_evades_the_price
              (Scenario.host (Scenario.replies "Hi there!")) ask_OpenAI
              (Scenario.world [Scenario.cost_alert] [])
              {| rd_user_id := Some "u1"; rd_team_id := None;
                 rd_model_provider := "OpenAI"; rd_model_name := "gpt-3.5-turbo";
                 rd_prompt := "Hello"; rd_options := no_options |}
              Scenario.key no_rules
              {| ai_response := Some "Hi there!";
                 ai_model := Some "gpt-3.5-turbo-0125";
                 ai_finish_reason := Some "stop" |} "Hi there!")
    as (_ & _ & Hcalls & Hlogs & _ & _ & _ & Hcost).
  - reflexivity.
  - reflexivity.
  - repeat constructor.
  - discriminate.
  - reflexivity.
  - reflexivity.
  - vm_compute. reflexivity.
  - vm_compute. reflexivity.
  - eexists. split; [exact Hlogs|]. split; [exact Hcalls|]. split; [reflexivity|].
    split; [vm_compute; reflexivity|]. split; [exact Hcost|].
    vm_compute. reflexivity.
Defined.

(** ** The totals of a row *)












Section TotalsOfARow.

Context (env : Env).



End TotalsOfARow.






(** ** Options that name a model or a prompt *)

Section SpreadFacts.

Context (env : Env).

(** Without the two keys the handler is [track]. *)
Lemma track_spread_none (req : Request) (w : World) :
  track_spread env no_spread req w = track env req w.
Proof. reflexivity. Qed.

Lemma makeRequest_supported (provider apiKey model prompt : string)
      (options : Options) (w : World) :
  existsb (String.eqb (toLowerCase provider)) PROVIDERS = true ->
  exists call,
    provider_calls (snd (makeRequest env provider apiKey model prompt options w))
    = (provider_calls w ++ [call])%list
    /\ pc_model call = model /\ pc_prompt call = prompt
    /\ usage_logs (snd (makeRequest env provider apiKey model prompt options w))
       = usage_logs w.
Proof.
  intros H. unfold makeRequest. rewrite H. cbn [orb negb].
  eexists. unfold post.
  destruct (outcome _); cbn [snd provider_calls usage_logs];
    (split; [reflexivity|]); cbn; auto.
Qed.

Lemma settle_spread_world (startTime : Z) (k : string) (s : Spread) (o : Options)
      (u : UsageData) (w : World) :
  snd (settle_spread env startTime k s o u w)
  = snd (makeRequest_spread env (model_provider u) k (model_name u) (prompt u) s o w).
Proof.
  unfold settle_spread, try_block_spread.
  destruct (makeRequest_spread _ _ _ _ _ _ _ _) as [[reply|m] w1]; [|reflexivity].
  destruct (checkResponseQuality _ _ _) as [issues|m]; [|reflexivity].
  destruct (Nat.ltb _ _); reflexivity.
Qed.

Lemma settle_spread_keeps (startTime : Z) (k : string) (s : Spread) (o : Options)
      (u : UsageData) (w : World) :
  prompt (fst (settle_spread env startTime k s o u w)) = prompt u
  /\ model_name (fst (settle_spread env startTime k s o u w)) = model_name u.
Proof.
  unfold settle_spread, try_block_spread.
  destruct (makeRequest_spread _ _ _ _ _ _ _ _) as [[reply|m] w1]; [|split; reflexivity].
  destruct (checkResponseQuality _ _ _) as [issues|m]; [|split; reflexivity].
  destruct (Nat.ltb _ _); split; reflexivity.
Qed.

(** X13. The filters, the price and the row are those of the prompt and the
    model of the body; the provider is sent the prompt and the model of
    [options] when [options] has them. A prompt that the filters would
    refuse, and a model that they would refuse or that costs more, reach
    the provider in this way. *)
Theorem provider_is_sent_the_options (s : Spread) (req : Request) (w : World)
        (rd : RequestData) (k : string) :
  required_fields (body req) = Some (rd, k) ->
  allowed (checkFilters env rd w) = true ->
  existsb (String.eqb (toLowerCase (rd_model_provider rd))) PROVIDERS = true ->
  exists call rec,
    provider_calls (snd (track_spread env s req w)) = (provider_calls w ++ [call])%list
    /\ pc_prompt call = default (rd_prompt rd) (s_prompt s)
    /\ pc_model call = default (rd_model_name rd) (s_model s)
    /\ usage_logs (snd (track_spread env s req w)) = (usage_logs w ++ [rec])%list
    /\ prompt (row rec) = rd_prompt rd
    /\ model_name (row rec) = rd_model_name rd.
Proof.
  intros Hr Ha Hp. unfold track_spread. rewrite Hr, Ha. cbn [negb].
  set (u := new_usageData req rd _ _ _).
  pose proof (settle_spread_world (clock w) k s (rd_options rd) u w) as Hw.
  pose proof (settle_spread_keeps (clock w) k s (rd_options rd) u w) as [Hkp Hkm].
  destruct (settle_spread env (clock w) k s (rd_options rd) u w) as [u1 w1].
  cbn [fst snd] in Hw, Hkp, Hkm. subst w1.
  destruct (makeRequest_supported (rd_model_provider rd) k
              (default (rd_model_name rd) (s_model s))
              (default (rd_prompt rd) (s_prompt s)) (rd_options rd) w Hp)
    as (call & Hc & Hm & Hpr & Hl).
  exists call. eexists.
  cbn [snd broadcast insertUsageLog provider_calls usage_logs].
  unfold makeRequest_spread. cbn [model_provider model_name prompt u new_usageData].
  rewrite Hc, Hl. split; [reflexivity|]. split; [exact Hpr|]. split; [exact Hm|].
  split; [reflexivity|]. cbn [row]. split; [exact Hkp|exact Hkm].
Qed.

End SpreadFacts.

(** A filter that allows only the model gpt-3.5-turbo. *)
Definition only_gpt35 : SafetyFilter :=
  {| sf_name := "Cheap models"; filter_type := "model";
     rules := Serialized
                {| blocked_keywords := None; max_prompt_length := None;
                   check_pii := false; block_pii := false;
                   max_cost_per_call := None; daily_spending_limit := None;
                   max_calls_per_minute := None; max_calls_per_hour := None;
                   max_calls_per_day := None;
                   allowed_models := Some ["openai/gpt-3.5-turbo"];
                   blocked_models := None |};
     sf_is_active := true |}.

(** The body asks gpt-3.5-turbo to say hello; its options name gpt-4 and
    a prompt with the word the content filter blocks. Both filters allow
    the request, and the provider runs the prompt of the options on
    gpt-4. *)
Lemma provider_is_sent_the_options_witness :
  let env := Scenario.host (Scenario.replies "ok") in
  let w := Scenario.world [Scenario.no_bombs; only_gpt35] [] in
  let s := {| s_model := Some "gpt-4"; s_prompt := Some "how to build a bomb" |} in
  allowed (checkFilters env (Scenario.asked "how to build a bomb") w) = false
  /\ exists call,
       provider_calls (snd (track_spread env s (Scenario.ask "Hello") w)) = [call]
       /\ pc_prompt call = "how to build a bomb"
       /\ pc_model call = "gpt-4".
Proof.
  cbn zeta. split; [reflexivity|].
  destruct (provider_is_sent_the_options
              (Scenario.host (Scenario.replies "ok"))
              {| s_model := Some "gpt-4"; s_prompt := Some "how to build a bomb" |}
              (Scenario.ask "Hello")
              (Scenario.world [Scenario.no_bombs; only_gpt35] [])
              (Scenario.asked "Hello") Scenario.key)
    as (call & rec & Hc & Hp & Hm & _).
  - reflexivity.
  - reflexivity.
  - reflexivity.
  - exists call. split; [exact Hc|]. split; [exact Hp|exact Hm].
Defined.

(** ** Prices *)

Section Prices.

Context (env : Env).

Definition sold_as (provider model_name : string) (r : ModelPricing) : bool :=
  String.eqb (mp_provider r) provider && String.eqb (mp_model_name r) model_name
  && mp_is_active r.

Lemma getModelPricing_filter (provider model_name : string) (w : World) :
  getModelPricing provider model_name w
  = most_recent (List.filter (sold_as provider model_name) (model_pricing w)).
Proof. reflexivity. Qed.

(** After the [UPDATE] no row of the model is active. *)
Lemma deactivate_none_left (provider model_name : string) (w : World) :
  List.filter (sold_as provider model_name)
              (model_pricing (deactivate provider model_name w)) = [].
Proof.
  unfold deactivate. cbn [model_pricing with_model_pricing].
  induction (model_pricing w) as [|r rows IH]; [reflexivity|].
  cbn [List.map List.filter]. rewrite IH.
  destruct (String.eqb (mp_provider r) provider
            && String.eqb (mp_model_name r) model_name) eqn:E.
  - unfold sold_as. cbn. rewrite E. reflexivity.
  - unfold sold_as. rewrite E. reflexivity.
Qed.

(** The [UPDATE] leaves the rows of the other models as they are. *)
Lemma deactivate_others (provider model_name p m : string) (w : World) :
  (p, m) <> (provider, model_name) ->
  List.filter (sold_as p m) (model_pricing (deactivate provider model_name w))
  = List.filter (sold_as p m) (model_pricing w).
Proof.
  intros Hne. unfold deactivate. cbn [model_pricing with_model_pricing].
  induction (model_pricing w) as [|r rows IH]; [reflexivity|].
  cbn [List.map List.filter]. rewrite IH.
  destruct (String.eqb (mp_provider r) provider
            && String.eqb (mp_model_name r) model_name) eqn:E; [|reflexivity].
  apply andb_true_iff in E as [E1 E2].
  apply String.eqb_eq in E1, E2.
  assert (sold_as p m r = false) as Hr.
  { unfold sold_as.
    destruct (String.eqb_spec (mp_provider r) p) as [H1|]; [|reflexivity].
    destruct (String.eqb_spec (mp_model_name r) m) as [H2|]; [|reflexivity].
    exfalso. apply Hne. congruence. }
  rewrite Hr. unfold sold_as. cbn. rewrite andb_false_r. reflexivity.
Qed.

Lemma required_truthy (x : option string) (s : string) :
  x = Some s -> s <> "" -> required x = Some s.
Proof. intros -> H. destruct s; [contradiction|reflexivity]. Qed.

(** The row [POST /pricing] writes for a body with its four fields. *)
Definition priced_at (provider model_name : string) (input_cost output_cost : number)
           (w : World) : ModelPricing :=
  {| mp_provider := provider; mp_model_name := model_name;
     input_cost_per_1k_tokens := input_cost;
     output_cost_per_1k_tokens := output_cost;
     effective_date := CURRENT_TIMESTAMP env (clock w);
     mp_is_active := true |}.

(** X14. A price posted is the price read: after [POST /pricing] with a
    provider, a model and two costs that are numbers, [getModelPricing]
    of that provider and model gives the costs posted, whatever prices
    and dates the table held for the model. *)
Theorem posted_price_is_read (b : PricingBody) (w : World)
        (provider model_name : string) (input_cost output_cost : number) :
  pb_provider b = Some provider -> provider <> "" ->
  pb_model_name b = Some model_name -> model_name <> "" ->
  pb_input_cost b = CNumber input_cost -> bound (Some input_cost) = Some input_cost ->
  pb_output_cost b = CNumber output_cost -> bound (Some output_cost) = Some output_cost ->
  api_status (fst (post_pricing env b w)) = 200%nat
  /\ getModelPricing provider model_name (snd (post_pricing env b w))
     = Some (priced_at provider model_name input_cost output_cost w).
Proof.
  intros Hp Hp0 Hm Hm0 Hi Hi0 Ho Ho0. unfold post_pricing.
  rewrite (required_truthy _ _ Hp Hp0), (required_truthy _ _ Hm Hm0), Hi, Ho.
  unfold insertModelPricing.
  cbn [uuidv4 pd_input_cost pd_output_cost cost_value].
  rewrite Hi0, Ho0. cbn [fst snd api_status]. split; [reflexivity|].
  rewrite getModelPricing_filter.
  cbn [model_pricing with_model_pricing pd_provider pd_model_name clock].
  change (model_pricing
            {| usage_logs := usage_logs (deactivate provider model_name w);
               safety_filters := safety_filters (deactivate provider model_name w);
               model_pricing := model_pricing (deactivate provider model_name w);
               clock := clock (deactivate provider model_name w);
               next_uuid := S (next_uuid (deactivate provider model_name w));
               provider_calls := provider_calls (deactivate provider model_name w);
               ws_messages := ws_messages (deactivate provider model_name w) |})
    with (model_pricing (deactivate provider model_name w)).
  rewrite List.filter_app, deactivate_none_left.
  cbn [List.filter app]. unfold sold_as.
  cbn [mp_provider mp_model_name mp_is_active].
  rewrite !String.eqb_refl. reflexivity.
Qed.

(** An insertion leaves the rows of the other models as they are. *)
Lemma insertModelPricing_others (pricingData : PricingData) (w : World) (p m : string) :
  (p, m) <> (pd_provider pricingData, pd_model_name pricingData) ->
  List.filter (sold_as p m) (model_pricing (snd (insertModelPricing env pricingData w)))
  = List.filter (sold_as p m) (model_pricing w).
Proof.
  intros Hne. unfold insertModelPricing. cbn [uuidv4].
  destruct (bound (pd_input_cost pricingData)) as [i|];
    destruct (bound (pd_output_cost pricingData)) as [o|]; try reflexivity.
  cbn [snd model_pricing with_model_pricing].
  rewrite List.filter_app. cbn [List.filter]. unfold sold_as at 2.
  cbn [mp_provider mp_model_name mp_is_active].
  destruct (String.eqb_spec (pd_provider pricingData) p) as [E1|];
    [|cbn; apply app_nil_r].
  destruct (String.eqb_spec (pd_model_name pricingData) m) as [E2|];
    [|cbn; apply app_nil_r].
  exfalso. apply Hne. congruence.
Qed.

(** X15. [POST /pricing] touches the prices of one model: whatever the body
    and the answer, the price of every other model is read as before. *)
Theorem other_prices_are_kept (b : PricingBody) (w : World) (p m : string) :
  (pb_provider b, pb_model_name b) <> (Some p, Some m) ->
  getModelPricing p m (snd (post_pricing env b w)) = getModelPricing p m w.
Proof.
  intros Hne. unfold post_pricing.
  destruct (required (pb_provider b)) as [provider|] eqn:Ep; [|reflexivity].
  destruct (required (pb_model_name b)) as [model_name|] eqn:Em;
    [|destruct (pb_input_cost b), (pb_output_cost b); reflexivity].
  assert ((p, m) <> (provider, model_name)) as Hne'.
  { intros [= -> ->]. apply Hne.
    destruct (pb_provider b) as [[|]|], (pb_model_name b) as [[|]|];
      try discriminate; cbn in Ep, Em; congruence. }
  set (pricingData :=
         {| pd_provider := provider; pd_model_name := model_name;
            pd_input_cost := cost_value (pb_input_cost b);
            pd_output_cost := cost_value (pb_output_cost b) |}).
  pose proof (insertModelPricing_others pricingData
                (deactivate provider model_name w) p m Hne') as Hins.
  rewrite (deactivate_others provider model_name p m w Hne') in Hins.
  destruct (pb_input_cost b), (pb_output_cost b); try reflexivity;
    destruct (insertModelPricing env pricingData (deactivate provider model_name w))
      as [[i|e] w1]; cbn [snd] in *; rewrite !getModelPricing_filter, Hins;
    reflexivity.
Qed.

(** X16. The [UPDATE] that retires the old price and the [INSERT] of the new
    one are two statements: when a cost is [null] the insertion fails,
    the answer is 500, and the model is left with no price at all. *)
Theorem failed_update_drops_the_price (b : PricingBody) (w : World)
        (provider model_name : string) :
  pb_provider b = Some provider -> provider <> "" ->
  pb_model_name b = Some model_name -> model_name <> "" ->
  pb_input_cost b <> CAbsent -> pb_output_cost b <> CAbsent ->
  pb_input_cost b = CNull \/ pb_output_cost b = CNull ->
  api_status (fst (post_pricing env b w)) = 500%nat
  /\ getModelPricing provider model_name (snd (post_pricing env b w)) = None.
Proof.
  intros Hp Hp0 Hm Hm0 Hi Ho Hnull. unfold post_pricing.
  rewrite (required_truthy _ _ Hp Hp0), (required_truthy _ _ Hm Hm0).
  assert (forall w1,
             model_pricing w1 = model_pricing (deactivate provider model_name w) ->
             getModelPricing provider model_name w1 = None) as Hnone.
  { intros w1 H. rewrite getModelPricing_filter, H, deactivate_none_left.
    reflexivity. }
  destruct (pb_input_cost b) as [| |ci], (pb_output_cost b) as [| |co];
    try contradiction; try (destruct Hnull; discriminate);
    unfold insertModelPricing;
    cbn [uuidv4 pd_input_cost pd_output_cost cost_value bound].
  - split; [reflexivity|]. apply Hnone. reflexivity.
  - split; [reflexivity|]. apply Hnone. reflexivity.
  - destruct ci; (split; [reflexivity|]); apply Hnone; reflexivity.
Qed.

End Prices.

(** The price of gpt-3.5-turbo is doubled. *)
Definition double_gpt35 : PricingBody :=
  {| pb_provider := Some "openai"; pb_model_name := Some "gpt-3.5-turbo";
     pb_input_cost := CNumber (dec 2 1000); pb_output_cost := CNumber (dec 4 1000) |}.

Lemma posted_price_is_read_witness :
  let env := Scenario.host (Scenario.replies "ok") in
  let w := Scenario.world [] [] in
  option_map input_cost_per_1k_tokens (getModelPricing "openai" "gpt-3.5-turbo" w)
  = Some (dec 1 1000)
  /\ option_map input_cost_per_1k_tokens
       (getModelPricing "openai" "gpt-3.5-turbo" (snd (post_pricing env double_gpt35 w)))
     = Some (dec 2 1000).
Proof.
  cbn zeta. split; [reflexivity|].
  destruct (posted_price_is_read (Scenario.host (Scenario.replies "ok")) double_gpt35
              (Scenario.world [] []) "openai" "gpt-3.5-turbo" (dec 2 1000) (dec 4 1000))
    as [_ H]; try reflexivity; try discriminate.
Defined.

Lemma other_prices_are_kept_witness :
  let env := Scenario.host (Scenario.replies "ok") in
  let b := {| pb_provider := Some "openai"; pb_model_name := Some "gpt-4";
              pb_input_cost := CNumber (dec 3 100); pb_output_cost := CNull |} in
  getModelPricing "openai" "gpt-3.5-turbo" (snd (post_pricing env b (Scenario.world [] [])))
  = Some Scenario.gpt35.
Proof.
  cbn zeta. rewrite other_prices_are_kept; [reflexivity|discriminate].
Defined.

(** The new price of gpt-3.5-turbo lacks its output cost. *)
Lemma failed_update_drops_the_price_witness :
  let env := Scenario.host (Scenario.replies "ok") in
  let b := {| pb_provider := Some "openai"; pb_model_name := Some "gpt-3.5-turbo";
              pb_input_cost := CNumber (dec 2 1000); pb_output_cost := CNull |} in
  getModelPricing "openai" "gpt-3.5-turbo" (Scenario.world [] []) = Some Scenario.gpt35
  /\ api_status (fst (post_pricing env b (Scenario.world [] []))) = 500%nat
  /\ getModelPricing "openai" "gpt-3.5-turbo"
       (snd (post_pricing env b (Scenario.world [] []))) = None.
Proof.
  cbn zeta. split; [reflexivity|].
  apply (failed_update_drops_the_price (Scenario.host (Scenario.replies "ok")) _
           (Scenario.world [] []) "openai" "gpt-3.5-turbo");
    try reflexivity; try discriminate. right. reflexivity.
Defined.

(** ** The default prices *)

Section Defaults.

Context (env : Env).

(** The row [insertModelPricing] writes at the time [now] for a price whose costs
    are numbers. *)
Definition price_row (now : Z) (pricingData : PricingData) : ModelPricing :=
  {| mp_provider := pd_provider pricingData;
     mp_model_name := pd_model_name pricingData;
     input_cost_per_1k_tokens := default zero (pd_input_cost pricingData);
     output_cost_per_1k_tokens := default zero (pd_output_cost pricingData);
     effective_date := CURRENT_TIMESTAMP env now;
     mp_is_active := true |}.

Definition costs_are_numbers (pricingData : PricingData) : Prop :=
  bound (pd_input_cost pricingData) = pd_input_cost pricingData
  /\ bound (pd_output_cost pricingData) = pd_output_cost pricingData
  /\ pd_input_cost pricingData <> None /\ pd_output_cost pricingData <> None.

Lemma insert_prices_rows (prices : list PricingData) (w : World) :
  Forall costs_are_numbers prices ->
  fst (insert_prices env prices w) = Normal tt
  /\ model_pricing (snd (insert_prices env prices w))
     = (model_pricing w ++ List.map (price_row (clock w)) prices)%list
  /\ clock (snd (insert_prices env prices w)) = clock w
  /\ safety_filters (snd (insert_prices env prices w)) = safety_filters w
  /\ usage_logs (snd (insert_prices env prices w)) = usage_logs w.
Proof.
  revert w. induction prices as [|p prices IH]; intros w H.
  - cbn. rewrite app_nil_r. auto.
  - apply List.Forall_cons_iff in H as [(Hi & Ho & Hin & Hon) H].
    cbn [insert_prices List.map]. unfold insertModelPricing, price_row at 1.
    cbn [uuidv4]. rewrite Hi, Ho.
    destruct (pd_input_cost p) as [i|]; [|contradiction].
    destruct (pd_output_cost p) as [o|]; [|contradiction].
    match goal with |- context [insert_prices env prices ?w1] =>
      destruct (IH w1 H) as (H1 & H2 & H3 & H4 & H5) end.
    rewrite H1, H2, H3, H4, H5. cbn. rewrite <- app_assoc. repeat split; reflexivity.
Qed.

Lemma defaults_are_numbers : Forall costs_are_numbers defaultPricing.
Proof. repeat constructor; vm_compute; congruence. Qed.

(** What [insertDefaultData] does to the tables. *)
Lemma insertDefaultData_rows (w : World) :
  let w' := snd (insertDefaultData env w) in
  model_pricing w' = (model_pricing w ++ List.map (price_row (clock w)) defaultPricing)%list
  /\ usage_logs w' = usage_logs w.
Proof.
  cbn zeta. unfold insertDefaultData.
  destruct (insert_prices_rows defaultPricing w defaults_are_numbers)
    as (H1 & H2 & _ & _ & H5).
  destruct (insert_prices env defaultPricing w) as [r w1]. cbn [fst snd] in *.
  subst r. cbn. auto.
Qed.

(** The most recent of some rows followed by one that is dated after
    all of them is that one. *)
Lemma most_recent_last (rows : list ModelPricing) (r : ModelPricing) :
  (forall r0, In r0 rows -> String.ltb (effective_date r0) (effective_date r) = true) ->
  most_recent (rows ++ [r]) = Some r.
Proof.
  intros H. unfold most_recent. rewrite fold_left_app. cbn [fold_left].
  fold (most_recent rows).
  destruct (most_recent rows) as [b|] eqn:E; [|reflexivity].
  apply most_recent_In in E. rewrite (H b E). reflexivity.
Qed.

Lemma sold_as_default (w : World) (p : PricingData) :
  In p defaultPricing ->
  List.filter (sold_as (pd_provider p) (pd_model_name p))
              (List.map (price_row (clock w)) defaultPricing)
  = [price_row (clock w) p].
Proof.
  cbn [In defaultPricing].
  intros H; repeat (destruct H as [<-|H]; [reflexivity|]); contradiction.
Qed.

(** X17. Every start of the server inserts the default prices again, as
    active rows dated now, and the price read is the most recent active
    one: a price that was posted for one of the eight default models is
    overridden by the default at the next start. *)
Theorem restart_restores_default_prices (w : World) (p : PricingData) :
  (forall r, In r (model_pricing w) ->
             String.ltb (effective_date r) (CURRENT_TIMESTAMP env (clock w)) = true) ->
  In p defaultPricing ->
  getModelPricing (pd_provider p) (pd_model_name p) (snd (insertDefaultData env w))
  = Some (price_row (clock w) p).
Proof.
  intros Hdates Hp.
  destruct (insertDefaultData_rows w) as [Hrows _]. cbn zeta in Hrows.
  rewrite getModelPricing_filter, Hrows, List.filter_app, (sold_as_default w p Hp).
  apply most_recent_last. intros r Hr. apply filter_In in Hr as [Hr _].
  apply Hdates, Hr.
Qed.

Lemma not_a_default (p m : string) (w : World) :
  (forall pd, In pd defaultPricing -> (p, m) <> (pd_provider pd, pd_model_name pd)) ->
  List.filter (sold_as p m) (List.map (price_row (clock w)) defaultPricing) = [].
Proof.
  intros H. apply filter_nothing. intros r Hr.
  apply in_map_iff in Hr as (pd & <- & Hpd). specialize (H pd Hpd).
  unfold sold_as, price_row. cbn [mp_provider mp_model_name mp_is_active].
  destruct (String.eqb_spec (pd_provider pd) p) as [E1|]; [|reflexivity].
  destruct (String.eqb_spec (pd_model_name pd) m) as [E2|]; [|reflexivity].
  exfalso. apply H. congruence.
Qed.

(** X18. The default prices name the Anthropic models without their dates
    ("claude-3-opus"), the table of the providers offers them with their
    dates ("claude-3-opus-20240229"): the defaults give no price to any
    Anthropic model the server offers, nor to gpt-4-1106-preview. On a
    table that holds the defaults only these models have no price. *)
Theorem default_prices_miss_offered_models (w : World) (m : string) :
  let w' := snd (insertDefaultData env w) in
  (In m (models "anthropic") ->
   getModelPricing "anthropic" m w' = getModelPricing "anthropic" m w)
  /\ getModelPricing "openai" "gpt-4-1106-preview" w'
     = getModelPricing "openai" "gpt-4-1106-preview" w
  /\ (model_pricing w = [] ->
      In m (models "anthropic") -> getModelPricing "anthropic" m w' = None).
Proof.
  cbn zeta.
  destruct (insertDefaultData_rows w) as [Hrows _]. cbn zeta in Hrows.
  assert (In m (models "anthropic") ->
          List.filter (sold_as "anthropic" m) (List.map (price_row (clock w)) defaultPricing)
          = []) as Ha.
  { intros Hm. apply not_a_default. intros pd Hpd.
    cbn [In models String.eqb Ascii.eqb Bool.eqb] in Hm.
    cbn [In defaultPricing] in Hpd.
    repeat (destruct Hpd as [<-|Hpd]; [cbn; intuition congruence|]).
    contradiction. }
  assert (List.filter (sold_as "openai" "gpt-4-1106-preview")
                      (List.map (price_row (clock w)) defaultPricing) = []) as Ho
    by reflexivity.
  rewrite !getModelPricing_filter, Hrows, !List.filter_app, Ho, app_nil_r.
  split; [|split].
  - intros Hm. rewrite (Ha Hm), app_nil_r. reflexivity.
  - reflexivity.
  - intros He Hm. rewrite (Ha Hm), He. reflexivity.
Qed.

End Defaults.

(** In April the price of gpt-4 was set to 0.02 and 0.04; the server is
    started on 1 May. *)
Definition april_price : ModelPricing :=
  {| mp_provider := "openai"; mp_model_name := "gpt-4";
     input_cost_per_1k_tokens := dec 2 100;
     output_cost_per_1k_tokens := dec 4 100;
     effective_date := "2024-04-30 09:00:00"; mp_is_active := true |}.

Definition april : World :=
  {| usage_logs := []; safety_filters := []; model_pricing := [april_price];
     clock := 1714557600000; next_uuid := 1%nat;
     provider_calls := []; ws_messages := [] |}.

Lemma restart_restores_default_prices_witness :
  let env := Scenario.host (Scenario.replies "ok") in
  option_map input_cost_per_1k_tokens (getModelPricing "openai" "gpt-4" april)
  = Some (dec 2 100)
  /\ option_map input_cost_per_1k_tokens
       (getModelPricing "openai" "gpt-4" (snd (insertDefaultData env april)))
     = Some (dec 3 100).
Proof.
  cbn zeta. split; [reflexivity|].
  pose proof (restart_restores_default_prices
                (Scenario.host (Scenario.replies "ok")) april
                {| pd_provider := "openai"; pd_model_name := "gpt-4";
                   pd_input_cost := Some (dec 3 100);
                   pd_output_cost := Some (dec 6 100) |}) as H.
  cbn [pd_provider pd_model_name] in H. rewrite H.
  - reflexivity.
  - intros r [<-|[]]. reflexivity.
  - left. reflexivity.
Defined.

(** ** Testing a key *)

Section KeyTests.

Context (env : Env).

(** The call [testApiKey] makes for a provider of the table. *)
Definition test_call (provider apiKey : string) (modelName : option string)
  : ProviderCall :=
  let key := toLowerCase provider in
  let model := default (hd "" (models key)) (required modelName) in
  {| pc_endpoint := endpoint key model apiKey; pc_api_key := apiKey;
     pc_model := model; pc_prompt := testPrompt;
     pc_max_tokens := of_Z 50; pc_temperature := dec 7 10 |}.

(** X19. Testing a key is not metered: [testApiKey] writes no row, draws no
    id and changes no price and no filter. It calls a provider once when
    the provider is one of the three, and then succeeds exactly when the
    endpoint replies; for every other provider it calls nobody and
    fails. *)
Theorem key_test_is_not_metered (provider apiKey : string)
        (modelName : option string) (w : World) :
  let result := fst (testApiKey env provider apiKey modelName w) in
  let w' := snd (testApiKey env provider apiKey modelName w) in
  (usage_logs w' = usage_logs w /\ next_uuid w' = next_uuid w
   /\ model_pricing w' = model_pricing w /\ safety_filters w' = safety_filters w)
  /\ (if existsb (String.eqb (toLowerCase provider)) PROVIDERS
      then provider_calls w'
           = (provider_calls w ++ [test_call provider apiKey modelName])%list
           /\ (kt_success result = true <->
               exists reply,
                 outcome (axios_post env (test_call provider apiKey modelName)
                                     (List.length (provider_calls w)))
                 = Normal reply)
      else provider_calls w' = provider_calls w /\ kt_success result = false).
Proof.
  cbn zeta. unfold testApiKey.
  destruct (existsb (String.eqb (toLowerCase provider)) PROVIDERS) eqn:Es.
  - cbn [orb negb].
    set (call := test_call provider apiKey modelName).
    set (options := {| max_tokens := Some (of_Z 50); temperature := None;
                       retry_of := None; opt_retry_count := None |}).
    set (model := default (hd "" (models (toLowerCase provider))) (required modelName)).
    assert (makeRequest env provider apiKey model testPrompt options w
            = let r := axios_post env call (List.length (provider_calls w)) in
              (match outcome r with
               | Normal response => Normal response
               | Throw message => Throw (provider +:+ " API error: " +:+ message)
               end,
               snd (post env call w))) as Hreq.
    { unfold makeRequest. rewrite Es. cbn [orb negb].
      change {| pc_endpoint := endpoint (toLowerCase provider) model apiKey;
                pc_api_key := apiKey; pc_model := model; pc_prompt := testPrompt;
                pc_max_tokens := default (of_Z 1000) (max_tokens options);
                pc_temperature := default (dec 7 10) (temperature options) |}
        with call.
      unfold post. cbn zeta. destruct (outcome _); reflexivity. }
    assert (match required modelName with
            | Some m => Normal m
            | None => Normal (hd "" (models (toLowerCase provider)))
            end = @Normal string model) as ->
      by (subst model; destruct (required modelName); reflexivity).
    rewrite Hreq. cbn zeta.
    destruct (outcome (axios_post env call (List.length (provider_calls w))))
      as [reply|e]; cbn; (split; [auto|]); (split; [reflexivity|]).
    + split; [eauto|reflexivity].
    + split; [discriminate|intros [r Hr]; discriminate].
  - cbn [orb]. destruct (Obj.inherited (toLowerCase provider)) eqn:Ei; cbn [negb].
    + destruct (required modelName) as [m|].
      * unfold makeRequest. rewrite Es, Ei. cbn. auto.
      * cbn. auto.
    + cbn. auto.
Qed.

End KeyTests.

(** ** The two estimates *)










(** With white space around the text they differ: the pieces of the
    split include the empty ones at either end. *)
Remark estimates_differ_on_padded_text :
  to_Z (estimateTokenCount_for " hello " "openai") = Some 4
  /\ to_Z (countTokens (Some " hello ") "openai") = Some 2.
Proof. split; vm_compute; reflexivity. Qed.

(** ** The counters of the providers *)

Section BlankText.

Import TokenCounterMore.

(** The text is white space throughout. *)
Fixpoint blank (s : string) : bool :=
  match s with
  | EmptyString => true
  | String c r => is_white_space c && blank r
  end.

Lemma blank_split_go (s : string) :
  blank s = true -> split_go EmptyString true s = [EmptyString].
Proof.
  induction s as [|c r IH]; [reflexivity|].
  cbn [blank split_go]. intros H. apply andb_true_iff in H as [-> H]. auto.
Qed.

Lemma blank_pieces (s : string) :
  blank s = true -> s <> "" -> split_white_space s = [ ""; "" ].
Proof.
  intros H Hne. destruct s as [|c r]; [contradiction|].
  cbn [blank] in H. apply andb_true_iff in H as [Hc Hr].
  unfold split_white_space. cbn [split_go]. rewrite Hc, (blank_split_go r Hr).
  reflexivity.
Qed.

Lemma blank_special (s : string) : blank s = true -> specialCharCount s = 0%nat.
Proof.
  induction s as [|c r IH]; [reflexivity|].
  cbn [blank specialCharCount]. intros H. apply andb_true_iff in H as [-> H].
  rewrite orb_true_r, IH by exact H. reflexivity.
Qed.

Lemma blank_words (s : string) (in_word : bool) :
  blank s = true -> word_starts in_word s = 0%nat.
Proof.
  revert in_word. induction s as [|c r IH]; intros in_word; [reflexivity|].
  cbn [blank word_starts]. intros H. apply andb_true_iff in H as [-> H]. auto.
Qed.

(** X21. On a text of white space only the three counters of the providers
    answer 2, the split giving two empty words that count a token each,
    while [countTokens] answers 0. *)
Theorem blank_text_counts_two (text provider : string) :
  blank text = true -> text <> "" ->
  countTokensOpenAI (Some text) = of_Z 2
  /\ countTokensAnthropic (Some text) = of_Z 2
  /\ countTokensGoogle (Some text) = of_Z 2
  /\ (Obj.inherited (toLowerCase provider) = false ->
      countTokens (Some text) provider = zero).
Proof.
  intros Hb Hne.
  assert (forall word_tokens special,
             count_with word_tokens special text
             = add (add (add zero (word_tokens 0%nat)) (word_tokens 0%nat))
                   (ceil_div 0 special)) as Hc.
  { intros. unfold count_with. rewrite (blank_pieces text Hb Hne), (blank_special text Hb).
    reflexivity. }
  assert (forall special,
             In special [4; 5; 8] ->
             add (add (add zero (of_Z 1)) (of_Z 1)) (ceil_div 0 special) = of_Z 2) as Htwo.
  { intros special [<-|[<-|[<-|[]]]]; vm_compute; reflexivity. }
  destruct text as [|c r]; [contradiction|].
  unfold countTokensOpenAI, countTokensAnthropic, countTokensGoogle.
  rewrite !Hc. cbn [Nat.leb].
  split; [apply Htwo; cbn; auto|]. split; [apply Htwo; cbn; auto|].
  split; [apply Htwo; cbn; auto|].
  intros Hi. rewrite (countTokens_formula _ provider Hne Hi), words_count.
  unfold word_count. rewrite (blank_words _ false Hb).
  destruct (factor_shape provider) as (m & -> & _). reflexivity.
Qed.

Lemma blank_text_counts_two_witness :
  countTokensProviderSpecific (Some "   ") "openai" = of_Z 2
  /\ countTokens (Some "   ") "openai" = zero.
Proof.
  destruct (blank_text_counts_two "   " "openai" eq_refl ltac:(discriminate))
    as (H1 & _ & _ & H2).
  split; [exact H1|exact (H2 eq_refl)].
Defined.

End BlankText.

(** ** The tokens of a request *)

Section RequestTokensFacts.

Import TokenCounterMore.

(** The number is not negative: it is NaN, or its sign is [+]. *)
Definition not_negative (x : number) : Prop :=
  match x with
  | S754_zero s | S754_infinity s | S754_finite s _ _ => s = false
  | S754_nan => True
  end.

Lemma round_aux_sign (s : bool) (m e : Z) (l : location) :
  match binary_round_aux prec emax s m e l with
  | S754_zero s' | S754_infinity s' | S754_finite s' _ _ => s' = s
  | S754_nan => True
  end.
Proof.
  unfold binary_round_aux.
  destruct (shr_fexp _ _ _ _ _) as [a b]. destruct (shr_fexp _ _ _ _ _) as [c d].
  destruct (shr_m c); cbn; auto. destruct (d <=? _); cbn; auto.
Qed.

Lemma mul_not_negative (x y : number) :
  not_negative x -> not_negative y -> not_negative (mul x y).
Proof.
  intros Hx Hy.
  destruct x as [sx|sx| |sx mx ex], y as [sy|sy| |sy my ey];
    cbn in Hx, Hy; subst; cbn; auto.
  pose proof (round_aux_sign (xorb false false) (Z.pos (mx * my)) (ex + ey) loc_Exact)
    as H.
  destruct (binary_round_aux _ _ _ _ _ _); cbn in *; auto.
Qed.

Lemma normalize_not_negative (z : Z) :
  0 <= z -> not_negative (binary_normalize prec emax z 0 false).
Proof.
  intros Hz. destruct z as [|p|p]; [reflexivity| |lia].
  unfold binary_normalize, binary_round.
  destruct (shl_align _ _ _) as [m e].
  pose proof (round_aux_sign false (Z.pos m) e loc_Exact) as H.
  destruct (binary_round_aux _ _ _ _ _ _); cbn in *; auto.
Qed.

Lemma Math_ceil_not_negative (x : number) : not_negative x -> not_negative (Math_ceil x).
Proof.
  intros Hx. destruct x as [s|s| |s m e]; try exact Hx.
  cbn [not_negative] in Hx. subst s. unfold Math_ceil.
  destruct (0 <=? e) eqn:E0; [reflexivity|]. apply Z.leb_gt in E0.
  apply normalize_not_negative.
  assert (0 < 2 ^ (- e)) by (apply Z.pow_pos_nonneg; lia).
  assert (0 <= Z.pos m / 2 ^ (- e)) by (apply Z.div_pos; lia).
  destruct (_ =? 0); lia.
Qed.

(** A count is never negative, and is not the zero [-0]. *)
Lemma countTokens_not_negative (text : option string) (provider : string) :
  not_negative (countTokens text provider).
Proof.
  destruct text as [[|c t]|]; try reflexivity.
  unfold countTokens. cbn zeta.
  apply Math_ceil_not_negative, mul_not_negative.
  - apply normalize_not_negative. lia.
  - unfold Obj.or_else, Obj.get.
    destruct (TOKEN_MULTIPLIERS !! toLowerCase provider) as [x|] eqn:E.
    + cbn. unfold TOKEN_MULTIPLIERS in E.
      destruct (String.eqb_spec (toLowerCase provider) "openai") as [K|H1];
        [rewrite K in E; injection E as <-; vm_compute; reflexivity|].
      destruct (String.eqb_spec (toLowerCase provider) "anthropic") as [K|H2];
        [rewrite K in E; injection E as <-; vm_compute; reflexivity|].
      destruct (String.eqb_spec (toLowerCase provider) "google") as [K|H3];
        [rewrite K in E; injection E as <-; vm_compute; reflexivity|].
      destruct (String.eqb_spec (toLowerCase provider) "default") as [K|H4];
        [rewrite K in E; injection E as <-; vm_compute; reflexivity|].
      rewrite !lookup_insert_ne, lookup_singleton_ne in E by congruence.
      discriminate.
    + destruct (Obj.inherited _); reflexivity.
Qed.

Lemma add_zero_r (x : number) : not_negative x -> add x zero = x.
Proof. destruct x as [s|s| |s m e]; cbn; intros; subst; reflexivity. Qed.

(** X22. [countTokensForRequest] counts what the handler of [/track] records
    for a call that was replied to: the same three numbers. When there is
    no response, or an empty one, the output counts 0 and the total is
    the count of the prompt. *)
Theorem countTokensForRequest_agrees (u : UsageData) (reply : AiResponse)
        (rt : number) (text : option string) (provider : string) :
  (let counted :=
     countTokensForRequest (Some (prompt u)) (ai_response reply)
                           (model_provider u) in
   input_tokens (with_reply u reply rt) = rt_input_tokens counted
   /\ output_tokens (with_reply u reply rt) = rt_output_tokens counted
   /\ total_tokens (with_reply u reply rt) = rt_total_tokens counted)
  /\ (let counted := countTokensForRequest text None provider in
      rt_output_tokens counted = zero
      /\ rt_total_tokens counted = rt_input_tokens counted)
  /\ (let counted := countTokensForRequest text (Some "") provider in
      rt_output_tokens counted = zero
      /\ rt_total_tokens counted = rt_input_tokens counted).
Proof.
  assert (forall response,
             match response with
             | None | Some EmptyString => zero
             | Some _ => countTokens response provider
             end = countTokens response provider) as Hout
    by (intros [[|c t]|]; reflexivity).
  split; [|split].
  - cbn zeta. unfold countTokensForRequest.
    cbn [with_reply input_tokens output_tokens total_tokens
         rt_input_tokens rt_output_tokens rt_total_tokens].
    destruct (ai_response reply) as [[|c t]|]; auto.
  - cbn. split; [reflexivity|]. apply add_zero_r, countTokens_not_negative.
  - cbn. split; [reflexivity|]. apply add_zero_r, countTokens_not_negative.
Qed.

End RequestTokensFacts.

(** ** Reading the log *)

Section LogFacts.

Lemma insert_desc_length (r : UsageLog) (rows : list UsageLog) :
  List.length (insert_desc r rows) = S (List.length rows).
Proof.
  induction rows as [|r' rows IH]; [reflexivity|].
  cbn [insert_desc]. destruct (String.ltb _ _); cbn; auto.
Qed.

Lemma insert_desc_In (r x : UsageLog) (rows : list UsageLog) :
  In x (insert_desc r rows) <-> x = r \/ In x rows.
Proof.
  induction rows as [|r' rows IH]; [cbn; intuition|].
  cbn [insert_desc]. destruct (String.ltb _ _); cbn [In]; [|intuition].
  rewrite IH. intuition.
Qed.

Lemma order_by_length (rows : list UsageLog) :
  List.length (order_by_created_at_desc rows) = List.length rows.
Proof.
  induction rows as [|r rows IH]; [reflexivity|].
  change (order_by_created_at_desc (r :: rows))
    with (insert_desc r (order_by_created_at_desc rows)).
  rewrite insert_desc_length, IH. reflexivity.
Qed.

Lemma order_by_In (x : UsageLog) (rows : list UsageLog) :
  In x (order_by_created_at_desc rows) <-> In x rows.
Proof.
  induction rows as [|r rows IH]; [reflexivity|].
  change (order_by_created_at_desc (r :: rows))
    with (insert_desc r (order_by_created_at_desc rows)).
  rewrite insert_desc_In, IH. cbn. intuition.
Qed.

(** The rows that match the user, the team and the two dates of the
    filters. *)
Definition matching (filters : LogFilters) (w : World) : list UsageLog :=
  List.filter (selected filters) (usage_logs w).

(** X23. [getUsageLogs] reads the user, the team, the two dates and the limit
    of its filters and nothing else: the provider, the model, the status
    and the offset that [GET /logs] passes on select nothing. A limit
    that is absent, 0 or NaN is no limit, every matching row being
    returned; a limit that is an integer [n] from 1 to below [2^63]
    returns [n] of them, or all when they are fewer; an integer from
    [2^63] on is refused by the database, and the call throws. *)
Theorem getUsageLogs_limit (filters : LogFilters) (w : World) :
  (set_rule (f_limit filters) = None ->
   exists rows,
     getUsageLogs filters w = Normal rows
     /\ List.length rows = List.length (matching filters w)
     /\ forall r, In r rows <-> In r (matching filters w))
  /\ (forall limit n,
         f_limit filters = Some limit -> to_Z limit = Some n -> 1 <= n < 2 ^ 63 ->
         exists rows,
           getUsageLogs filters w = Normal rows
           /\ List.length rows = Nat.min (Z.to_nat n) (List.length (matching filters w))
           /\ forall r, In r rows -> In r (matching filters w))
  /\ (forall limit n,
         f_limit filters = Some limit -> to_Z limit = Some n -> 2 ^ 63 <= n ->
         getUsageLogs filters w = Throw "SQLITE_MISMATCH: datatype mismatch").
Proof.
  unfold getUsageLogs. fold (matching filters w).
  assert (forall limit n,
             to_Z limit = Some n -> 1 <= n -> set_rule (Some limit) = Some limit)
    as Hset.
  { intros limit n Hn Hpos. cbn.
    destruct limit as [s|s| |s m e]; try reflexivity; cbn in Hn;
      try discriminate. injection Hn as <-. lia. }
  split; [|split].
  - intros ->. eexists. split; [reflexivity|].
    split; [apply order_by_length|intros r; apply order_by_In].
  - intros limit n Hl Hn Hpos. rewrite Hl, (Hset limit n Hn) by lia.
    unfold sql_limit. rewrite Hn.
    destruct (Z.ltb_spec (- 2 ^ 63) n) as [_|]; [|lia].
    destruct (Z.ltb_spec n (2 ^ 63)) as [_|]; [|lia].
    destruct (Z.ltb_spec n 0) as [|_]; [lia|].
    eexists. split; [reflexivity|]. split.
    + rewrite List.length_firstn, order_by_length. reflexivity.
    + intros r Hr. apply order_by_In.
      rewrite <- (List.firstn_skipn (Z.to_nat n)). apply List.in_or_app. left. exact Hr.
  - intros limit n Hl Hn Hbig. rewrite Hl, (Hset limit n Hn) by lia.
    unfold sql_limit. rewrite Hn.
    destruct (Z.ltb_spec n (2 ^ 63)) as [|_]; [lia|].
    rewrite andb_false_r. reflexivity.
Qed.

End LogFacts.

(** ** The checks of [utils/validator.js] *)

Section ValidatorFacts.

Import Validator.

Lemma prefix_trans (a b s : string) :
  String.prefix a b = true -> String.prefix b s = true -> String.prefix a s = true.
Proof.
  revert b s. induction a as [|c a IH]; intros b s Hab Hbs; [destruct s; reflexivity|].
  destruct b as [|c' b]; [discriminate|]. destruct s as [|c'' s]; [discriminate|].
  cbn in *. destruct (ascii_dec c c') as [->|]; [|discriminate].
  destruct (ascii_dec c' c'') as [->|]; [|discriminate].
  destruct (ascii_dec c'' c''); [|contradiction]. eapply IH; eassumption.
Qed.

(** X24. A key that [isValidApiKey] accepts has at least ten characters,
    whatever the provider, and a key it accepts for Anthropic it accepts
    for OpenAI as well: "sk-ant-" begins with "sk-". *)
Theorem isValidApiKey_accepts (apiKey : option string) :
  (forall provider,
      isValidApiKey apiKey provider = true ->
      exists key, apiKey = Some key /\ (10 <= String.length key)%nat)
  /\ (isValidApiKey apiKey (Some "anthropic") = true ->
      isValidApiKey apiKey (Some "openai") = true).
Proof.
  split.
  - intros provider H. destruct apiKey as [[|c key]|]; try discriminate.
    exists (String c key). split; [reflexivity|].
    unfold isValidApiKey in H.
    repeat match type of H with (if ?d then _ else _) = true => destruct d end;
      try (apply andb_true_iff in H as [_ H]); apply Nat.leb_le in H; lia.
  - destruct apiKey as [[|c key]|]; try discriminate.
    unfold isValidApiKey. cbn [option_map]. 
    change (toLowerCase "anthropic") with "anthropic".
    change (toLowerCase "openai") with "openai".
    destruct (decide (Some "anthropic" = Some "openai")) as [E|_]; [discriminate|].
    destruct (decide (Some "anthropic" = Some "anthropic")) as [_|N]; [|contradiction].
    destruct (decide (Some "openai" = Some "openai")) as [_|N]; [|contradiction].
    intros H. apply andb_true_iff in H as [Hp Hl]. rewrite Hl, andb_true_r.
    apply (prefix_trans "sk-" "sk-ant-"); [reflexivity|exact Hp].
Qed.

Lemma test_length (pattern : list (ascii -> bool)) (s : string) :
  test pattern s = true -> String.length s = List.length pattern.
Proof.
  revert s. induction pattern as [|class pattern IH]; intros [|c r] H;
    try discriminate; [reflexivity|].
  cbn in H. apply andb_true_iff in H as [_ H]. cbn. f_equal. apply IH, H.
Qed.

Lemma test_lower (pattern : list (ascii -> bool)) (s : string) :
  Forall (fun class => forall c, class (lower_char c) = class c) pattern ->
  test pattern (toLowerCase s) = test pattern s.
Proof.
  intros H. revert s. induction H as [|class pattern Hc _ IH]; intros [|c r];
    try reflexivity.
  cbn. rewrite Hc, IH. reflexivity.
Qed.

Lemma class_lower (c : ascii) :
  hex (lower_char c) = hex c /\ dash (lower_char c) = dash c
  /\ version (lower_char c) = version c /\ variant (lower_char c) = variant c.
Proof.
  destruct c as [[] [] [] [] [] [] [] []]; repeat split; reflexivity.
Qed.

(** X25. An id that [isValidUUID] accepts has 36 characters, and the check
    does not tell capitals from small letters. *)
Theorem isValidUUID_accepts (uuid : string) :
  (isValidUUID uuid = true -> String.length uuid = 36%nat)
  /\ isValidUUID (toLowerCase uuid) = isValidUUID uuid.
Proof.
  split.
  - intros H. apply test_length in H. exact H.
  - apply test_lower, List.Forall_forall. intros class H c.
    assert (class = hex \/ class = dash \/ class = version \/ class = variant)
      as [-> | [-> | [-> | ->]]]; [|apply class_lower..].
    unfold uuidRegex in H. rewrite !in_app_iff in H.
    repeat match type of H with _ \/ _ => destruct H as [H|H] end;
      try (apply repeat_spec in H; auto); destruct H as [<-|[]]; auto.
Qed.

End ValidatorFacts.

(** ** [sanitizeInput] *)

Section DataInduction.

Variable P : Data -> Prop.

Hypothesis on_string : forall s, P (DString s).
Hypothesis on_number : forall x, P (DNumber x).
Hypothesis on_bool : forall b, P (DBool b).
Hypothesis on_null : P DNull.
Hypothesis on_undefined : P DUndefined.
Hypothesis on_array : forall items, Forall P items -> P (DArray items).
Hypothesis on_object :
  forall proto props,
    match proto with Some p => P p | None => True end ->
    Forall (fun kv => P (snd kv)) props ->
    P (DObject proto props).

Fixpoint Data_induction (d : Data) : P d :=
  match d with
  | DString s => on_string s
  | DNumber x => on_number x
  | DBool b => on_bool b
  | DNull => on_null
  | DUndefined => on_undefined
  | DArray items =>
      on_array items
        ((fix all (l : list Data) : Forall P l :=
            match l with
            | [] => @List.Forall_nil _ P
            | d :: l => @List.Forall_cons _ P d l (Data_induction d) (all l)
            end) items)
  | DObject proto props =>
      on_object proto props
        (match proto return match proto with Some p => P p | None => True end with
         | Some p => Data_induction p
         | None => I
         end)
        ((fix all (l : list (string * Data)) : Forall (fun kv => P (snd kv)) l :=
            match l with
            | [] => @List.Forall_nil _ _
            | (k, v) :: l =>
                @List.Forall_cons _ (fun kv => P (snd kv)) (k, v) l
                                  (Data_induction v) (all l)
            end) props)
  end.

End DataInduction.

Section SanitizeFacts.

Import Sanitize.

(** No character of [s] is an angle bracket. *)
Fixpoint no_angle (s : string) : bool :=
  match s with
  | EmptyString => true
  | String c r =>
      negb (Ascii.eqb c "<"%char || Ascii.eqb c ">"%char) && no_angle r
  end.

(** What [sanitizeInput] returns: every string in it is free of angle
    brackets and of white space at its ends, and no array is left. *)
Fixpoint sanitized (d : Data) : bool :=
  match d with
  | DString s => no_angle s && String.eqb (trim s) s
  | DArray _ => false
  | DObject proto props =>
      match proto with Some p => sanitized p | None => true end
      && forallb (fun kv => match kv with (_, v) => sanitized v end) props
  | _ => true
  end.

Lemma strip_no_angle (s : string) : no_angle (strip s) = true.
Proof.
  induction s as [|c r IH]; [reflexivity|].
  cbn [strip]. destruct (Ascii.eqb c "<" || Ascii.eqb c ">") eqn:E; [exact IH|].
  cbn [no_angle]. rewrite E, IH. reflexivity.
Qed.

Lemma trimStart_no_angle (s : string) :
  no_angle s = true -> no_angle (trimStart s) = true.
Proof.
  induction s as [|c r IH]; [reflexivity|].
  cbn [trimStart]. destruct (is_white_space c); [|auto].
  cbn [no_angle]. intros H. apply andb_true_iff in H as [_ H]. auto.
Qed.

Lemma trimEnd_no_angle (s : string) :
  no_angle s = true -> no_angle (trimEnd s) = true.
Proof.
  induction s as [|c r IH]; [reflexivity|].
  cbn [no_angle]. intros H. apply andb_true_iff in H as [Hc Hr].
  cbn [trimEnd]. specialize (IH Hr). destruct (trimEnd r) as [|c' r'].
  - destruct (is_white_space c); [reflexivity|]. cbn. rewrite Hc. reflexivity.
  - cbn [no_angle] in *. rewrite Hc, IH. reflexivity.
Qed.

Lemma trimEnd_cons (c : ascii) (r : string) :
  trimEnd (String c r)
  = match trimEnd r with
    | EmptyString => if is_white_space c then EmptyString else String c EmptyString
    | r' => String c r'
    end.
Proof. reflexivity. Qed.

Lemma trimEnd_idempotent (s : string) : trimEnd (trimEnd s) = trimEnd s.
Proof.
  induction s as [|c r IH]; [reflexivity|].
  rewrite trimEnd_cons. destruct (trimEnd r) as [|c' r'] eqn:E.
  - destruct (is_white_space c) eqn:Ec; [reflexivity|]. cbn. rewrite Ec. reflexivity.
  - rewrite trimEnd_cons, IH. reflexivity.
Qed.

Lemma trimStart_of_trimmed (s : string) :
  trimStart (trimEnd (trimStart s)) = trimEnd (trimStart s).
Proof.
  induction s as [|c r IH]; [reflexivity|].
  cbn [trimStart]. destruct (is_white_space c) eqn:Ec; [exact IH|].
  cbn [trimEnd]. destruct (trimEnd r); [rewrite Ec|]; cbn [trimStart]; rewrite Ec;
    reflexivity.
Qed.

Lemma trim_idempotent (s : string) : trim (trim s) = trim s.
Proof. unfold trim. rewrite trimStart_of_trimmed. apply trimEnd_idempotent. Qed.

Lemma set_sanitized (key : string) (value : Data) (props : list (string * Data)) :
  sanitized value = true ->
  forallb (fun kv => match kv with (_, v) => sanitized v end) props = true ->
  forallb (fun kv => match kv with (_, v) => sanitized v end) (set key value props)
  = true.
Proof.
  intros Hv. induction props as [|[k v] props IH]; intros H.
  - cbn. rewrite Hv. reflexivity.
  - cbn [forallb] in H. apply andb_true_iff in H as [H1 H2].
    cbn [set]. destruct (String.eqb k key); cbn [forallb].
    + rewrite Hv, H2. reflexivity.
    + rewrite H1, (IH H2). reflexivity.
Qed.

Lemma build_sanitized (entries : list (string * Data)) :
  Forall (fun kv => sanitized (snd kv) = true) entries ->
  sanitized (build entries) = true.
Proof.
  intros H. unfold build.
  assert (forall o,
             sanitized (DObject (fst o) (snd o)) = true ->
             sanitized
               (DObject
                  (fst (fold_left (fun o kv => assign o (fst kv) (snd kv)) entries o))
                  (snd (fold_left (fun o kv => assign o (fst kv) (snd kv)) entries o)))
             = true) as Hfold.
  { induction H as [|[k v] entries Hv _ IH]; intros o Ho; [exact Ho|].
    cbn [fold_left fst snd]. apply IH. cbn [snd] in Hv.
    cbn [sanitized] in Ho. apply andb_true_iff in Ho as [Hp Hprops].
    unfold assign. destruct (String.eqb k "__proto__").
    - destruct (object_or_null v); cbn [fst snd sanitized].
      + rewrite Hv, Hprops. reflexivity.
      + rewrite Hp, Hprops. reflexivity.
    - cbn [fst snd sanitized]. rewrite Hp. apply set_sanitized; assumption. }
  apply (Hfold (None, [])). reflexivity.
Qed.

Lemma entries_from_sanitized (i : nat) (items : list Data) :
  Forall (fun d => sanitized d = true) items ->
  Forall (fun kv => sanitized (snd kv) = true) (entries_from i items).
Proof.
  intros H. revert i. induction H as [|d items Hd _ IH]; intros i; constructor; auto.
Qed.

(** The names of the properties of an object. *)
Definition names (d : Data) : list string :=
  match d with
  | DObject _ props => List.map fst props
  | _ => []
  end.

Lemma set_names (key : string) (value : Data) (props : list (string * Data))
      (k : string) :
  In k (List.map fst (set key value props)) <-> k = key \/ In k (List.map fst props).
Proof.
  induction props as [|[k' v'] props IH]; cbn [set List.map fst In].
  - intuition congruence.
  - destruct (String.eqb_spec k' key) as [->|N]; cbn [List.map fst In].
    + intuition congruence.
    + rewrite IH. intuition congruence.
Qed.

(** [build] copies the names of the entries as they are, [__proto__]
    apart. *)
Lemma build_names (entries : list (string * Data)) (k : string) :
  In k (names (build entries))
  <-> k <> "__proto__" /\ In k (List.map fst entries).
Proof.
  unfold build. cbn [names].
  assert (forall o,
             In k (List.map fst
                     (snd (fold_left (fun o kv => assign o (fst kv) (snd kv)) entries o)))
             <-> In k (List.map fst (snd o))
                 \/ (k <> "__proto__" /\ In k (List.map fst entries))) as H.
  { induction entries as [|[key value] entries IH]; intros o.
    - cbn. tauto.
    - cbn [fold_left fst snd List.map In]. rewrite IH. unfold assign.
      destruct (String.eqb_spec key "__proto__") as [->|N].
      + destruct (object_or_null value); cbn [snd]; intuition congruence.
      + cbn [snd]. rewrite set_names. intuition congruence. }
  rewrite H. cbn. tauto.
Qed.

(** X26. Whatever it is given, [sanitizeInput] returns a value in which no
    string that is an item or the value of a property holds an angle
    bracket or begins or ends with white space, and in which no array is
    left: an array comes back as an object with the keys "0", "1", ...
    The names of the properties are not sanitized: an object comes back
    with the names it had, as they are, [__proto__] apart. *)
Theorem sanitizeInput_sanitizes (data : Data) :
  sanitized (sanitizeInput data) = true
  /\ forall proto props name,
      data = DObject proto props ->
      (In name (names (sanitizeInput data))
       <-> name <> "__proto__" /\ In name (List.map fst props)).
Proof.
  split.
  - induction data as [s|x|b| | |items IH|proto props _ IH] using Data_induction;
      try reflexivity.
    + cbn [sanitizeInput sanitized].
      assert (no_angle (trim (strip s)) = true) as ->
        by apply trimEnd_no_angle, trimStart_no_angle, strip_no_angle.
      rewrite trim_idempotent. apply String.eqb_refl.
    + cbn [sanitizeInput]. apply build_sanitized, entries_from_sanitized.
      apply List.Forall_map. exact IH.
    + cbn [sanitizeInput]. apply build_sanitized.
      apply List.Forall_map. eapply List.Forall_impl; [|exact IH].
      intros [k v] H. exact H.
  - intros proto props name ->. cbn [sanitizeInput]. rewrite build_names.
    rewrite List.map_map.
    assert (List.map (fun x : string * Data =>
                        fst (let (key, value) := x in (key, sanitizeInput value))) props
            = List.map fst props) as ->; [|reflexivity].
    apply List.map_ext. intros [key value]. reflexivity.
Qed.

(** A name with an angle bracket and a space at its end is kept, while
    the value under it is cleaned. *)
Remark sanitizeInput_keeps_names :
  Sanitize.sanitizeInput (DObject None [ ("<script> ", DString " <b>x</b> ") ])
  = DObject None [ ("<script> ", DString "bx/b") ].
Proof. reflexivity. Qed.

(** The objects of [d] have no property [__proto__] of their own (and
    their keys are distinct, as the keys of an object are). *)
Fixpoint regular (d : Data) : Prop :=
  match d with
  | DArray items =>
      (fix all (l : list Data) : Prop :=
         match l with
         | [] => True
         | d :: l => regular d /\ all l
         end) items
  | DObject _ props =>
      List.NoDup (List.map fst props) /\ ~ In "__proto__" (List.map fst props)
      /\ (fix all (l : list (string * Data)) : Prop :=
            match l with
            | [] => True
            | (_, v) :: l => regular v /\ all l
            end) props
  | _ => True
  end.

Lemma set_new (key : string) (value : Data) (props : list (string * Data)) :
  ~ In key (List.map fst props) -> set key value props = (props ++ [(key, value)])%list.
Proof.
  induction props as [|[k v] props IH]; intros H; [reflexivity|].
  cbn [set]. cbn [List.map In fst] in H.
  destruct (String.eqb_spec k key) as [->|_]; [exfalso; auto|].
  cbn [app]. f_equal. apply IH. auto.
Qed.

(** With distinct keys, none of them [__proto__], the loop copies the
    entries. *)
Lemma build_entries (entries : list (string * Data)) :
  List.NoDup (List.map fst entries) -> ~ In "__proto__" (List.map fst entries) ->
  build entries = DObject None entries.
Proof.
  intros Hd Hp. unfold build.
  assert (forall acc,
             List.NoDup (List.map fst (acc ++ entries)) ->
             fold_left (fun o kv => assign o (fst kv) (snd kv)) entries (None, acc)
             = (None, (acc ++ entries)%list)) as Hfold.
  { clear Hd. induction entries as [|[k v] entries IH]; intros acc Hacc.
    - cbn. rewrite app_nil_r. reflexivity.
    - cbn [fold_left fst snd]. unfold assign.
      cbn [List.map In fst] in Hp.
      destruct (String.eqb_spec k "__proto__") as [->|_]; [exfalso; auto|].
      cbn [fst snd]. rewrite set_new.
      + rewrite IH; [|auto|].
        * rewrite <- app_assoc. reflexivity.
        * rewrite <- app_assoc. exact Hacc.
      + rewrite List.map_app in Hacc. cbn [List.map fst] in Hacc.
        apply List.NoDup_remove_2 in Hacc. intros Hin. apply Hacc.
        apply List.in_or_app. left. exact Hin. }
  rewrite (Hfold [] Hd). reflexivity.
Qed.

Lemma index_inj (i j : nat) : index i = index j -> i = j.
Proof.
  unfold index. intros H.
  apply (f_equal NilEmpty.uint_of_string) in H. rewrite !NilEmpty.usu in H.
  injection H as H. apply Unsigned.to_uint_inj, H.
Qed.

Lemma index_keys (i : nat) (items : list Data) :
  List.map fst (entries_from i items) = List.map index (List.seq i (List.length items)).
Proof.
  revert i. induction items as [|d items IH]; intros i; [reflexivity|].
  cbn. f_equal. apply IH.
Qed.

Lemma index_keys_regular (i : nat) (items : list Data) :
  List.NoDup (List.map fst (entries_from i items))
  /\ ~ In "__proto__" (List.map fst (entries_from i items)).
Proof.
  rewrite index_keys. split.
  - apply Lists.Finite.Injective_map_NoDup; [|apply List.seq_NoDup].
    intros a b. apply index_inj.
  - intros H. apply in_map_iff in H as (j & Hj & _).
    apply (f_equal NilEmpty.uint_of_string) in Hj. unfold index in Hj.
    rewrite NilEmpty.usu in Hj. discriminate.
Qed.

Lemma map_entries_keys (f : Data -> Data) (props : list (string * Data)) :
  List.map fst (List.map (fun kv => match kv with (k, v) => (k, f v) end) props)
  = List.map fst props.
Proof.
  induction props as [|[k v] props IH]; [reflexivity|]. cbn. f_equal. exact IH.
Qed.

Lemma entries_from_map (f : Data -> Data) (i : nat) (items : list Data) :
  List.map (fun kv => match kv with (k, v) => (k, f v) end) (entries_from i items)
  = entries_from i (List.map f items).
Proof.
  revert i. induction items as [|d items IH]; intros i; [reflexivity|].
  cbn. f_equal. apply IH.
Qed.

(** X27. Sanitizing twice is sanitizing once, for a value whose objects have
    no property [__proto__]. (Such a property becomes the prototype of
    the object returned, and a second pass, which copies own properties
    only, drops it.) *)
Theorem sanitizeInput_is_idempotent (data : Data) :
  regular data ->
  sanitizeInput (sanitizeInput data) = sanitizeInput data.
Proof.
  induction data as [s|x|b| | |items IH|proto props _ IH] using Data_induction;
    intros Hr; try reflexivity.
  - cbn [sanitizeInput]. f_equal.
    assert (strip (trim (strip s)) = trim (strip s)) as ->.
    { assert (forall t, no_angle t = true -> strip t = t) as Hfix.
      { induction t as [|c r IHt]; [reflexivity|]. cbn [no_angle strip].
        intros H. apply andb_true_iff in H as [Hc Hrest].
        apply negb_true_iff in Hc. rewrite Hc, IHt by exact Hrest. reflexivity. }
      apply Hfix, trimEnd_no_angle, trimStart_no_angle, strip_no_angle. }
    apply trim_idempotent.
  - cbn [sanitizeInput].
    destruct (index_keys_regular 0 (List.map sanitizeInput items)) as [Hd Hp].
    rewrite (build_entries _ Hd Hp). cbn [sanitizeInput].
    rewrite entries_from_map, List.map_map.
    assert (List.map (fun d => sanitizeInput (sanitizeInput d)) items
            = List.map sanitizeInput items) as ->.
    { cbn [regular] in Hr. clear Hd Hp. revert Hr.
      induction IH as [|d items' Hd' _ IHitems]; intros Hr; [reflexivity|].
      destruct Hr as [Hr1 Hr2]. cbn [List.map]. rewrite Hd' by exact Hr1.
      f_equal. apply IHitems. exact Hr2. }
    apply build_entries; assumption.
  - cbn [sanitizeInput]. cbn [regular] in Hr. destruct Hr as (Hd & Hp & Hr).
    set (f := fun kv : string * Data =>
                match kv with (key, value) => (key, sanitizeInput value) end).
    assert (build (List.map f props) = DObject None (List.map f props)) as E.
    { apply build_entries; subst f; rewrite map_entries_keys; assumption. }
    rewrite E. cbn [sanitizeInput]. fold f.
    assert (List.map f (List.map f props) = List.map f props) as ->; [|exact E].
    clear E Hd Hp. revert Hr.
    induction IH as [|[k v] props' Hv _ IHprops]; intros Hr; [reflexivity|].
    destruct Hr as [Hr1 Hr2]. cbn [List.map]. unfold f at 1 2. cbn [snd] in Hv.
    rewrite Hv by exact Hr1. f_equal. apply IHprops. exact Hr2.
Qed.

End SanitizeFacts.

(** A body as [JSON.parse] gives it: a comment with a tag, in an array. *)
Definition comments : Data :=
  DObject None
    [ ("author", DString "  Ada ");
      ("comments", DArray [ DString "<b>Hello</b>"; DNumber (of_Z 3) ]) ].

Lemma sanitizeInput_is_idempotent_witness :
  Sanitize.sanitizeInput comments
  = DObject None
      [ ("author", DString "Ada");
        ("comments",
         DObject None [ ("0", DString "bHello/b"); ("1", DNumber (of_Z 3)) ]) ]
  /\ Sanitize.sanitizeInput (Sanitize.sanitizeInput comments)
     = Sanitize.sanitizeInput comments.
Proof.
  split; [reflexivity|].
  apply sanitizeInput_is_idempotent. cbn.
  repeat split; auto; try (intros [H|[H|[]]]; discriminate);
    repeat constructor; cbn; intuition discriminate.
Defined.

(** With a property [__proto__] the second pass gives another value. *)
Remark sanitizeInput_twice_with_proto :
  let polluted := DObject None [ ("__proto__", DObject None [ ("admin", DBool true) ]) ] in
  Sanitize.sanitizeInput polluted
  = DObject (Some (DObject None [ ("admin", DBool true) ])) []
  /\ Sanitize.sanitizeInput (Sanitize.sanitizeInput polluted) = DObject None [].
Proof. split; reflexivity. Qed.
